(** * Sales RAG API: retrieval and pattern-mining endpoints

    A shallow embedding of the endpoints of [api/rag-api.py] and
    [api/rag-api-extended-patterns.py].  Each endpoint is a Python
    coroutine that sends one SQL query to the store and post-processes
    the rows.  Tables are lists of rows in the store's scan order, the
    SQL operators the queries use (WHERE, JOIN, GROUP BY, HAVING,
    ORDER BY, LIMIT, aggregates) are list functions, NULL is [None],
    and Python exceptions are an error result.

    NUMERIC values and the components of a vector are rationals ([Q]);
    a [float8] is a rational or NaN.  The sentence encoder is a
    parameter, and so is the cosine distance of two vectors of non-zero
    norm; where a norm is zero the pgvector operator [<=>] divides zero
    by zero and gives NaN.  Rows reach
    the Python code with their values decoded: a JSONB value as an object
    or a list, a vector as a list of numbers.

    The loaders follow the endpoints: [scripts/postgres-loader.py], which
    fills the store the endpoints read, statement by statement on an
    explicit store, and [scripts/mongodb-loader.py], whose documents are
    Python dicts. *)

From Stdlib Require Import ZArith QArith List String Bool Lia Lqa.
From Stdlib Require Import Sorted Permutation.
Import ListNotations.

Set Implicit Arguments.

(** ** Python: exceptions and the endpoints' [try]/[except] *)

Module Py.

Inductive exn : Type :=
| HTTPException (status_code : Z) (detail : string)
| ValidationError (detail : string)
| TypeError (detail : string)
| EncoderError (detail : string)
| PostgresError (detail : string)
| DataError (detail : string).

(** [str(e)]: the message the exception carries; only its being there is
    modelled, not its wording. *)
Definition str (e : exn) : string :=
  match e with
  | HTTPException _ d => d
  | ValidationError d => d
  | TypeError d => d
  | EncoderError d => d
  | PostgresError d => d
  | DataError d => d
  end.

Inductive result (A : Type) : Type :=
| Ok (a : A)
| Raise (e : exn).
Arguments Ok {A} a.
Arguments Raise {A} e.

Definition bind {A B} (r : result A) (k : A -> result B) : result B :=
  match r with
  | Ok a => k a
  | Raise e => Raise e
  end.

(** [try: body  except Exception as e:
      raise HTTPException(status_code=500, detail=str(e))].
    [HTTPException] is itself an [Exception], so one raised inside the
    body is caught and re-raised with status 500 as well. *)
Definition try_except_500 {A} (body : result A) : result A :=
  match body with
  | Ok a => Ok a
  | Raise e => Raise (HTTPException 500 (str e))
  end.

(** The status code a caller of the endpoint sees, when it fails. *)
Definition status_of {A} (r : result A) : option Z :=
  match r with
  | Raise (HTTPException c _) => Some c
  | _ => None
  end.

(** The value of a parameter that has a default. *)
Definition supplied_or {A} (default : A) (supplied : option A) : A :=
  match supplied with
  | Some v => v
  | None => default
  end.

(** FastAPI's [Query(default=d, ge=.., le=..)]: the default stands in for
    an omitted parameter, and a value outside the bounds is refused
    before the endpoint body runs. *)
Definition Query {A} (default : A) (valid : A -> bool)
           (supplied : option A) : result A :=
  let v := supplied_or default supplied in
  if valid v then Ok v
  else Raise (HTTPException 422 "value is not within the declared bounds").

(** A list comprehension whose element expression may raise. *)
Fixpoint mapM {A B} (f : A -> result B) (l : list A) : result (list B) :=
  match l with
  | [] => Ok []
  | a :: l' =>
      bind (f a) (fun b => bind (mapM f l') (fun bs => Ok (b :: bs)))
  end.

(** Truth value of an optional string: neither [None] nor empty. *)
Definition truthy (s : option string) : bool :=
  match s with
  | Some EmptyString | None => false
  | Some _ => true
  end.

End Py.

Import Py.

Declare Scope py_scope.
Delimit Scope py_scope with py.
Notation "x <- r ;; k" := (Py.bind r (fun x => k))
  (at level 100, r at next level, right associativity) : py_scope.

(** ** SQL: the operators the queries use *)

Module Sql.

Definition Qltb (x y : Q) : bool := negb (Qle_bool y x).

(** A [float8] (Python's [float]): a number or NaN. *)
Inductive float8 : Type :=
| NaN
| Num (x : Q).

(** The store's order on [float8], which [ORDER BY] and the comparison
    operators share: NaN equals NaN and is above every number. *)
Definition float8_lt (a b : float8) : bool :=
  match a, b with
  | Num x, Num y => Qltb x y
  | Num _, NaN => true
  | NaN, _ => false
  end.

(** [a >= b] *)
Definition float8_ge (a b : float8) : bool := negb (float8_lt a b).

(** [a - b]: NaN when an operand is. *)
Definition float8_minus (a b : float8) : float8 :=
  match a, b with
  | Num x, Num y => Num (x - y)
  | _, _ => NaN
  end.

Section OrderBy.
Variable A : Type.
(** [lt a b]: [a]'s sort key is strictly below [b]'s. *)
Variable lt : A -> A -> bool.

(** A row goes behind the rows whose key is strictly above its own,
    and before every other row. *)
Fixpoint insert_desc (a : A) (l : list A) : list A :=
  match l with
  | [] => [a]
  | b :: l' => if lt a b then b :: insert_desc a l' else a :: b :: l'
  end.

(** [ORDER BY key DESC].  SQL leaves the order of rows with equal keys
    to the store; here they keep the order in which the store scanned
    them. *)
Definition ORDER_BY_DESC (l : list A) : list A :=
  fold_right insert_desc [] l.
End OrderBy.

(** [l JOIN r ON on] *)
Definition JOIN {A B} (on : A -> B -> bool) (l : list A) (r : list B)
  : list (A * B) :=
  flat_map (fun a => map (pair a) (filter (on a) r)) l.

(** [l LEFT JOIN r ON on]: a row of [l] without a partner is kept, with
    NULLs for the columns of [r]. *)
Definition LEFT_JOIN {A B} (on : A -> B -> bool) (l : list A) (r : list B)
  : list (A * option B) :=
  flat_map (fun a => match filter (on a) r with
                     | [] => [(a, None)]
                     | bs => map (fun b => (a, Some b)) bs
                     end) l.

(** [LIMIT n] *)
Definition LIMIT {A} (n : Z) (l : list A) : list A := firstn (Z.to_nat n) l.

Section GroupBy.
Variables A K : Type.
Variable K_eq_dec : forall x y : K, {x = y} + {x <> y}.
Variable key : A -> K.

Definition has_key (k : K) (r : A) : bool :=
  if K_eq_dec (key r) k then true else false.

(** [GROUP BY key]: one group per distinct key, holding the rows that
    carry it. *)
Definition GROUP_BY (rows : list A) : list (K * list A) :=
  map (fun k => (k, filter (has_key k) rows))
      (nodup K_eq_dec (map key rows)).
End GroupBy.

Definition COUNT {A} (l : list A) : Z := Z.of_nat (List.length l).

Definition SUM (l : list Q) : Q := fold_right Qplus 0%Q l.

(** [SUM] over integers. *)
Definition Zsum (l : list Z) : Z := fold_right Z.add 0%Z l.

(** [AVG] skips NULLs and is NULL over no value at all. *)
Definition omit_nulls {A} (l : list (option A)) : list A :=
  flat_map (fun o => match o with Some a => [a] | None => [] end) l.

Definition AVG (l : list Q) : option Q :=
  match l with
  | [] => None
  | _ :: _ => Some (SUM l / inject_Z (COUNT l))%Q
  end.

(** [MODE() WITHIN GROUP (ORDER BY s)]: the most frequent value, the
    first in sort order among equally frequent ones; NULL over no value. *)
Definition occurrences (s : string) (l : list string) : nat :=
  count_occ string_dec l s.

Definition MODE (l : list string) : option string :=
  fold_right
    (fun s best =>
       match best with
       | None => Some s
       | Some b =>
           if (occurrences b l <? occurrences s l)%nat
              || ((occurrences b l =? occurrences s l)%nat && String.ltb s b)
           then Some s else Some b
       end)
    None l.

(** *** What the server checks before it runs a statement

    The expressions of a select list, as far as the server's analysis of
    aggregates reads them: [f(..)] is a [Call], an aggregate such as
    [COUNT(..)] an [Aggregate], and [f(..) OVER (PARTITION BY ..)] a
    [WindowCall]. *)
#[warnings="-register-all"]
Inductive expr : Type :=
| Column (name : string)
| Literal (text : string)
| Binary (operator : string) (l r : expr)
| Call (name : string) (args : list expr)
| Aggregate (name : string) (args : list expr)
| WindowCall (name : string) (args partition_by : list expr).

Fixpoint has_aggregate (e : expr) : bool :=
  match e with
  | Column _ | Literal _ => false
  | Binary _ l r => has_aggregate l || has_aggregate r
  | Call _ args => existsb has_aggregate args
  | Aggregate _ _ => true
  | WindowCall _ args partition_by =>
      existsb has_aggregate args || existsb has_aggregate partition_by
  end.

Fixpoint has_window_call (e : expr) : bool :=
  match e with
  | Column _ | Literal _ => false
  | Binary _ l r => has_window_call l || has_window_call r
  | Call _ args => existsb has_window_call args
  | Aggregate _ args => existsb has_window_call args
  | WindowCall _ _ _ => true
  end.

(** The server's rules: aggregate function calls cannot be nested and
    cannot contain window function calls; window function calls cannot
    be nested either, but may contain aggregates. *)
Fixpoint accepted (e : expr) : bool :=
  match e with
  | Column _ | Literal _ => true
  | Binary _ l r => accepted l && accepted r
  | Call _ args => forallb accepted args
  | Aggregate _ args =>
      forallb accepted args
      && negb (existsb has_aggregate args)
      && negb (existsb has_window_call args)
  | WindowCall _ args partition_by =>
      forallb accepted args && forallb accepted partition_by
      && negb (existsb has_window_call args)
      && negb (existsb has_window_call partition_by)
  end.

End Sql.

Import Sql.

(** ** The store

    The rows of the base tables hold a value in every column the
    endpoints read, [next_steps] apart; a NULL otherwise comes out of a
    query (an outer join, an aggregate over no row). *)

Definition UUID := N.
(** Timestamps, in seconds. *)
Definition datetime := Z.
Definition timedelta (days : Z) : Z := (days * 86400)%Z.
Definition vector := list Q.
(** A JSONB object with text values. *)
Definition jsonb := list (string * string).

(** [metadata->>'k'] *)
Fixpoint json_get (k : string) (o : jsonb) : option string :=
  match o with
  | [] => None
  | (k', v) :: o' => if String.eqb k k' then Some v else json_get k o'
  end.

Module Customer.
Record t := mk {
  id : UUID;
  company_name : string;
  industry : string;
  size : string
}.
End Customer.

(** The columns are those the endpoints' queries read. *)
Module Interaction.
Record t := mk {
  id : UUID;
  customer_id : UUID;
  type : string;
  notes : string;
  sentiment : string;
  topics : list string;
  next_steps : option string;
  created_at : datetime
}.
End Interaction.

Module Opportunity.
Record t := mk {
  id : UUID;
  customer_id : UUID;
  status : string;
  value : Q;
  created_at : datetime
}.
End Opportunity.

Module DocumentEmbedding.
Record t := mk {
  id : UUID;
  source_type : string;
  source_id : UUID;
  content : string;
  embedding : vector;
  metadata : jsonb;
  created_at : datetime
}.
End DocumentEmbedding.

Record DB := mkDB {
  customers : list Customer.t;
  interactions : list Interaction.t;
  opportunities : list Opportunity.t;
  document_embeddings : list DocumentEmbedding.t
}.

(** ** rag-api.py *)

Module RagApi.

Record SearchResult := mkSearchResult {
  source_type : string;
  source_id : UUID;
  content : string;
  similarity : float8;
  metadata : jsonb
}.

Record SearchResponse := mkSearchResponse {
  results : list SearchResult;
  total : Z;
  query : string
}.

(** The parsed request body.  [min_similarity] is [Optional[float]]: an
    explicit null is [None]. *)
Record ContextFilter := mkContextFilter {
  customer_id : option UUID;
  start_date : option datetime;
  end_date : option datetime;
  source_types : option (list string);
  min_similarity : option Q
}.

(** A body that leaves [min_similarity] out gets the field's default. *)
Definition ContextFilter_of_body
           (customer_id : option UUID) (start_date end_date : option datetime)
           (source_types : option (list string)) (min_similarity : option Q)
  : ContextFilter :=
  mkContextFilter customer_id start_date end_date source_types
    (Some (supplied_or (1 # 2)%Q min_similarity)).

(** A value of [params]. *)
Inductive param : Type :=
| p_vector (v : vector)
| p_float (x : option Q)
| p_text (s : string)
| p_uuid (u : UUID)
| p_timestamp (t : datetime)
| p_text_array (l : list string).

(** The texts the two searches put in [where_clauses]; [k] stands for the
    number the text takes from [param_idx]. *)
Inductive where_clause : Type :=
| similarity_ge_clause
    (* "1 - (embedding <=> $1::vector) >= $2" *)
| source_type_eq_clause (k : nat)
    (* f"source_type = ${k}" *)
| source_id_eq_clause (k : nat)
    (* f"source_id = ${k}" *)
| created_at_between_clause (k : nat)
    (* f"created_at BETWEEN ${k} AND ${k+1}" *)
| source_type_any_clause (k : nat).
    (* f"source_type = ANY(${k}::text[])" *)

(** What a clause asks of a row once its placeholders have their values. *)
Inductive condition : Type :=
| similarity_ge (query_embedding : vector) (min_similarity : option Q)
| source_type_eq (source_type : string)
| source_id_eq (customer_id : UUID)
| created_at_between (start_date end_date : datetime)
| source_type_any (source_types : list string).

(** [$k] is the [k]-th of the arguments that follow the query text. *)
Definition placeholder (params : list param) (k : nat) : option param :=
  match k with
  | O => None
  | S k' => nth_error params k'
  end.

Definition unbound {A} : result A :=
  Raise (PostgresError "a placeholder has no argument of its type").

Definition resolve (params : list param) (c : where_clause)
  : result condition :=
  match c with
  | similarity_ge_clause =>
      match placeholder params 1, placeholder params 2 with
      | Some (p_vector q), Some (p_float m) => Ok (similarity_ge q m)
      | _, _ => unbound
      end
  | source_type_eq_clause k =>
      match placeholder params k with
      | Some (p_text s) => Ok (source_type_eq s)
      | _ => unbound
      end
  | source_id_eq_clause k =>
      match placeholder params k with
      | Some (p_uuid u) => Ok (source_id_eq u)
      | _ => unbound
      end
  | created_at_between_clause k =>
      match placeholder params k, placeholder params (k + 1) with
      | Some (p_timestamp a), Some (p_timestamp b) =>
          Ok (created_at_between a b)
      | _, _ => unbound
      end
  | source_type_any_clause k =>
      match placeholder params k with
      | Some (p_text_array l) => Ok (source_type_any l)
      | _ => unbound
      end
  end.

(** A vector whose components are all zero: its norm is zero. *)
Definition zero_vector (v : vector) : bool :=
  forallb (fun x => Qeq_bool x 0) v.

Section Search.
(** [config.encoder.encode(text).tolist()], which may raise. *)
Variable get_embedding : string -> result vector.
(** The cosine distance of two vectors of non-zero norm. *)
Variable cosine_distance : vector -> vector -> Q.

(** pgvector's [e <=> q]: one minus the inner product over the product of
    the norms, which is 0/0 = NaN when [e] or [q] is a zero vector. *)
Definition cosine_distance_operator (e q : vector) : float8 :=
  if zero_vector e || zero_vector q then NaN
  else Num (cosine_distance e q).

(** [1 - (embedding <=> $1::vector)] *)
Definition similarity_to (query_embedding : vector)
           (d : DocumentEmbedding.t) : float8 :=
  float8_minus (Num 1)
    (cosine_distance_operator (DocumentEmbedding.embedding d)
       query_embedding).

(** A row passes a condition when the condition is true of it; a
    comparison with NULL is not true, and [>=] is the store's, under
    which NaN is at least every number. *)
Definition holds (d : DocumentEmbedding.t) (c : condition) : bool :=
  match c with
  | similarity_ge q None => false
  | similarity_ge q (Some m) => float8_ge (similarity_to q d) (Num m)
  | source_type_eq s => String.eqb (DocumentEmbedding.source_type d) s
  | source_id_eq u => N.eqb (DocumentEmbedding.source_id d) u
  | created_at_between a b =>
      (a <=? DocumentEmbedding.created_at d)%Z
      && (DocumentEmbedding.created_at d <=? b)%Z
  | source_type_any l =>
      existsb (String.eqb (DocumentEmbedding.source_type d)) l
  end.

(** [FROM document_embeddings WHERE c1 AND ... ORDER BY similarity DESC
    LIMIT limit], each row with its similarity. *)
Definition select_documents (db : DB) (query_embedding : vector)
           (conditions : list condition) (limit : Z)
  : list (DocumentEmbedding.t * float8) :=
  LIMIT limit
    (ORDER_BY_DESC (fun r1 r2 => float8_lt (snd r1) (snd r2))
       (map (fun d => (d, similarity_to query_embedding d))
          (filter (fun d => forallb (holds d) conditions)
             (document_embeddings db)))).

(** [pool.fetch(f"SELECT .., 1 - (embedding <=> $1::vector) as similarity
    FROM document_embeddings WHERE {' AND '.join(where_clauses)}
    ORDER BY similarity DESC LIMIT {limit}", *params)] on the pool the
    endpoint is given, as a store answers that takes the arguments and
    runs the statement.  A connection that fails, or vectors of unequal
    dimensions, are not told apart here: what is proved of an answer is
    proved of the calls that answer. *)
Definition fetch_documents (db : DB) (where_clauses : list where_clause)
           (limit : Z) (params : list param)
  : result (list (DocumentEmbedding.t * float8)) :=
  (conditions <- mapM (resolve params) where_clauses ;;
   match placeholder params 1 with
   | Some (p_vector query_embedding) =>
       Ok (select_documents db query_embedding conditions limit)
   | _ => unbound
   end)%py.

(** The SELECT list, from which the endpoint builds a [SearchResult]. *)
Definition to_SearchResult (r : DocumentEmbedding.t * float8)
  : SearchResult :=
  mkSearchResult (DocumentEmbedding.source_type (fst r))
                 (DocumentEmbedding.source_id (fst r))
                 (DocumentEmbedding.content (fst r))
                 (snd r)
                 (DocumentEmbedding.metadata (fst r)).

Definition valid_limit (n : Z) : bool := ((1 <=? n) && (n <=? 50))%Z.
Definition valid_similarity (m : Q) : bool :=
  Qle_bool 0 m && Qle_bool m 1.

(** [where_clauses] and [params] of [semantic_search] as it sends them.
    [if source_type:] an empty string is as good as none. *)
Definition semantic_query (query_embedding : vector) (min_similarity : Q)
           (source_type : option string)
  : list where_clause * list param :=
  let where_clauses := [similarity_ge_clause] in
  let params := [p_vector query_embedding; p_float (Some min_similarity)] in
  let param_idx := 3%nat in
  match source_type with
  | Some EmptyString | None => (where_clauses, params)
  | Some s => (where_clauses ++ [source_type_eq_clause param_idx],
               params ++ [p_text s])
  end.

Definition semantic_search (db : DB) (query : string)
           (source_type : option string)
           (limit : option Z) (min_similarity : option Q)
  : result SearchResponse :=
  (limit <- Query 5%Z valid_limit limit ;;
   min_similarity <- Query (1 # 2)%Q valid_similarity min_similarity ;;
   try_except_500
     (query_embedding <- get_embedding query ;;
      let (where_clauses, params) :=
        semantic_query query_embedding min_similarity source_type in
      results <- fetch_documents db where_clauses limit params ;;
      Ok (mkSearchResponse (map to_SearchResult results)
                           (Z.of_nat (List.length results))
                           query)))%py.

(** [where_clauses] and [params] of [contextual_search] as it sends them:
    the clauses are appended in the source's order under the source's
    conditions, [param_idx] moving on as the source moves it. *)
Definition contextual_query (query_embedding : vector)
           (context : ContextFilter)
  : list where_clause * list param :=
  let where_clauses := [similarity_ge_clause] in
  let params := [p_vector query_embedding; p_float (min_similarity context)] in
  let param_idx := 3%nat in
  let '(where_clauses, params, param_idx) :=
    match customer_id context with
    | Some u => (where_clauses ++ [source_id_eq_clause param_idx],
                 params ++ [p_uuid u], (param_idx + 1)%nat)
    | None => (where_clauses, params, param_idx)
    end in
  let '(where_clauses, params, param_idx) :=
    match start_date context, end_date context with
    | Some a, Some b =>
        (where_clauses ++ [created_at_between_clause param_idx],
         params ++ [p_timestamp a; p_timestamp b], (param_idx + 2)%nat)
    | _, _ => (where_clauses, params, param_idx)
    end in
  match source_types context with
  | Some (s :: l) => (where_clauses ++ [source_type_any_clause param_idx],
                      params ++ [p_text_array (s :: l)])
  | Some [] | None => (where_clauses, params)
  end.

Definition valid_context (context : ContextFilter) : bool :=
  match min_similarity context with
  | Some m => valid_similarity m
  | None => true
  end.

Definition contextual_search (db : DB) (query : string)
           (context : ContextFilter) (limit : option Z)
  : result SearchResponse :=
  (limit <- Query 5%Z valid_limit limit ;;
   _ <- (if valid_context context then Ok tt
         else Raise (HTTPException 422
                       "value is not within the declared bounds")) ;;
   try_except_500
     (query_embedding <- get_embedding query ;;
      let (where_clauses, params) :=
        contextual_query query_embedding context in
      results <- fetch_documents db where_clauses limit params ;;
      Ok (mkSearchResponse (map to_SearchResult results)
                           (Z.of_nat (List.length results))
                           query)))%py.

End Search.

(** What the assembled queries ask of a row, placeholders resolved. *)
Definition semantic_where (query_embedding : vector) (min_similarity : Q)
           (source_type : option string) : list condition :=
  similarity_ge query_embedding (Some min_similarity)
  :: match source_type with
     | Some EmptyString | None => []
     | Some s => [source_type_eq s]
     end.

Definition contextual_where (query_embedding : vector)
           (context : ContextFilter) : list condition :=
  similarity_ge query_embedding (min_similarity context)
  :: match customer_id context with
     | Some u => [source_id_eq u]
     | None => []
     end
  ++ match start_date context, end_date context with
     | Some a, Some b => [created_at_between a b]
     | _, _ => []
     end
  ++ match source_types context with
     | Some (s :: l) => [source_type_any (s :: l)]
     | Some [] | None => []
     end.

End RagApi.

(** ** rag-api-extended-patterns.py *)

Module Patterns.

Definition pair_eq_dec {A B}
           (decA : forall x y : A, {x = y} + {x <> y})
           (decB : forall x y : B, {x = y} + {x <> y})
  : forall x y : A * B, {x = y} + {x <> y}.
Proof. decide equality. Defined.

Definition option_eq_dec {A}
           (decA : forall x y : A, {x = y} + {x <> y})
  : forall x y : option A, {x = y} + {x <> y}.
Proof. decide equality. Defined.

Definition topics_eq_dec := list_eq_dec string_dec.

(** [CASE WHEN status = 'won' THEN 1 ELSE 0 END] *)
Definition won_indicator (status : string) : Q :=
  if String.eqb status "won" then 1%Q else 0%Q.

Definition valid_rate (m : Q) : bool := Qle_bool 0 m && Qle_bool m 1.
Definition valid_days (n : Z) : bool := ((1 <=? n) && (n <=? 365))%Z.

(** *** get_successful_patterns *)

(** [jsonb_build_object('notes', .., 'topics', .., 'sentiment', ..)] *)
Module Example.
Record t := mk {
  notes : string;
  topics : list string;
  sentiment : string
}.
End Example.

Record SalesPattern := mkSalesPattern {
  pattern_type : string;
  frequency : Z;
  avg_success_rate : Q;
  example_interactions : list Example.t
}.

(** A row of the CTE [successful_interactions]. *)
Module SuccessfulInteraction.
Record t := mk {
  type : string;
  notes : string;
  topics : list string;
  sentiment : string;
  outcome : string;
  frequency : Z;
  success_rate : option Q
}.
End SuccessfulInteraction.

(** A row of the outer SELECT. *)
Module PatternRow.
Record t := mk {
  pattern_type : string;
  frequency : Z;
  avg_success_rate : option Q;
  example_interactions : list Example.t
}.
End PatternRow.

Definition interaction_key : Type :=
  string * string * list string * string * string.

Definition interaction_key_eq_dec
  : forall x y : interaction_key, {x = y} + {x <> y} :=
  pair_eq_dec
    (pair_eq_dec
       (pair_eq_dec (pair_eq_dec string_dec string_dec) topics_eq_dec)
       string_dec)
    string_dec.

(** [FROM interactions i JOIN opportunities o ON i.customer_id =
    o.customer_id JOIN customers c ON i.customer_id = c.id
    WHERE c.industry = $1 AND i.created_at >= $2] *)
Definition industry_interactions (db : DB) (industry : string)
           (cutoff_date : datetime)
  : list (Interaction.t * Opportunity.t * Customer.t) :=
  filter
    (fun r => let '(i, o, c) := r in
              String.eqb (Customer.industry c) industry
              && (cutoff_date <=? Interaction.created_at i)%Z)
    (JOIN (fun io c => N.eqb (Interaction.customer_id (fst io)) (Customer.id c))
       (JOIN (fun i o => N.eqb (Interaction.customer_id i)
                               (Opportunity.customer_id o))
          (interactions db) (opportunities db))
       (customers db)).

(** [GROUP BY i.type, i.notes, i.topics, i.sentiment, o.status] *)
Definition group_key (r : Interaction.t * Opportunity.t * Customer.t)
  : interaction_key :=
  let '(i, o, _) := r in
  (Interaction.type i, Interaction.notes i, Interaction.topics i,
   Interaction.sentiment i, Opportunity.status o).

Definition interaction_group
           (g : interaction_key
                * list (Interaction.t * Opportunity.t * Customer.t))
  : SuccessfulInteraction.t :=
  let '(type, notes, topics, sentiment, status, rows) := g in
  SuccessfulInteraction.mk type notes topics sentiment status
    (COUNT rows)
    (AVG (map (fun r => won_indicator (Opportunity.status (snd (fst r))))
              rows)).

(** [HAVING AVG(..) >= $3]; a NULL average does not pass. *)
Definition rate_at_least (min_success_rate : Q)
           (r : SuccessfulInteraction.t) : bool :=
  match SuccessfulInteraction.success_rate r with
  | Some rate => Qle_bool min_success_rate rate
  | None => false
  end.

Definition successful_interactions (db : DB) (industry : string)
           (cutoff_date : datetime) (min_success_rate : Q)
  : list SuccessfulInteraction.t :=
  filter (rate_at_least min_success_rate)
    (map interaction_group
       (GROUP_BY interaction_key_eq_dec group_key
          (industry_interactions db industry cutoff_date))).

Definition to_example (r : SuccessfulInteraction.t) : Example.t :=
  Example.mk (SuccessfulInteraction.notes r)
             (SuccessfulInteraction.topics r)
             (SuccessfulInteraction.sentiment r).

(** [SELECT type, COUNT( * ), AVG(success_rate), ARRAY_AGG(..)
     FROM successful_interactions GROUP BY type] *)
Definition pattern_group (g : string * list SuccessfulInteraction.t)
  : PatternRow.t :=
  PatternRow.mk (fst g)
    (COUNT (snd g))
    (AVG (omit_nulls (map SuccessfulInteraction.success_rate (snd g))))
    (map to_example (snd g)).

(** The whole query.  In [ORDER BY frequency DESC] the name is the output
    column of the outer SELECT. *)
Definition successful_patterns_query (db : DB) (industry : string)
           (cutoff_date : datetime) (min_success_rate : Q)
  : list PatternRow.t :=
  ORDER_BY_DESC
    (fun p1 p2 => (PatternRow.frequency p1 <? PatternRow.frequency p2)%Z)
    (map pattern_group
       (GROUP_BY string_dec SuccessfulInteraction.type
          (successful_interactions db industry cutoff_date
             min_success_rate))).

(** [SalesPattern( **pattern )]: [avg_success_rate] is a required float. *)
Definition to_SalesPattern (p : PatternRow.t) : result SalesPattern :=
  match PatternRow.avg_success_rate p with
  | Some rate =>
      Ok (mkSalesPattern (PatternRow.pattern_type p)
            (PatternRow.frequency p) rate
            (PatternRow.example_interactions p))
  | None => Raise (ValidationError "avg_success_rate: none is not an allowed value")
  end.

Definition get_successful_patterns (db : DB) (now : datetime)
           (industry : string)
           (min_success_rate : option Q) (days : option Z)
  : result (list SalesPattern) :=
  (min_success_rate <- Query (6 # 10)%Q valid_rate min_success_rate ;;
   days <- Query 90%Z valid_days days ;;
   try_except_500
     (let cutoff_date := (now - timedelta days)%Z in
      let patterns :=
        successful_patterns_query db industry cutoff_date min_success_rate in
      mapM to_SalesPattern patterns))%py.

(** *** get_objection_handling *)

(** [jsonb_build_object('response', .., 'next_steps', .., 'sentiment', ..)] *)
Module Response.
Record t := mk {
  response : string;
  next_steps : option string;
  sentiment : string
}.
End Response.

Record ObjectionResponse := mkObjectionResponse {
  objection_type : string;
  successful_responses : list Response.t;
  success_rate : Q;
  recommended_approach : string
}.

(** A row of the CTE [objection_responses]. *)
Module ObjectionGroup.
Record t := mk {
  notes : string;
  next_steps : option string;
  sentiment : string;
  outcome : string;
  frequency : Z
}.
End ObjectionGroup.

(** The row of the outer SELECT; its aggregates are NULL over no row. *)
Module ObjectionRow.
Record t := mk {
  objection_type : string;
  successful_responses : option (list Response.t);
  success_rate : option Q;
  recommended_approach : option string
}.
End ObjectionRow.

Definition is_won (status : string) : bool := String.eqb status "won".
Definition is_closed (status : string) : bool :=
  String.eqb status "won" || String.eqb status "lost".

(** [FROM interactions i JOIN opportunities o ON i.customer_id =
    o.customer_id WHERE $1 = ANY(i.topics) AND o.status IN ('won', 'lost')] *)
Definition objection_interactions (db : DB) (objection_type : string)
  : list (Interaction.t * Opportunity.t) :=
  filter
    (fun r => existsb (String.eqb objection_type) (Interaction.topics (fst r))
              && is_closed (Opportunity.status (snd r)))
    (JOIN (fun i o => N.eqb (Interaction.customer_id i)
                            (Opportunity.customer_id o))
       (interactions db) (opportunities db)).

Definition objection_key : Type :=
  string * option string * string * string.

Definition objection_key_eq_dec
  : forall x y : objection_key, {x = y} + {x <> y} :=
  pair_eq_dec
    (pair_eq_dec (pair_eq_dec string_dec (option_eq_dec string_dec))
                 string_dec)
    string_dec.

(** [GROUP BY i.notes, i.next_steps, i.sentiment, o.status] *)
Definition objection_group_key (r : Interaction.t * Opportunity.t)
  : objection_key :=
  (Interaction.notes (fst r), Interaction.next_steps (fst r),
   Interaction.sentiment (fst r), Opportunity.status (snd r)).

Definition objection_group
           (g : objection_key * list (Interaction.t * Opportunity.t))
  : ObjectionGroup.t :=
  let '(notes, next_steps, sentiment, status, rows) := g in
  ObjectionGroup.mk notes next_steps sentiment status (COUNT rows).

Definition objection_responses (db : DB) (objection_type : string)
  : list ObjectionGroup.t :=
  map objection_group
    (GROUP_BY objection_key_eq_dec objection_group_key
       (objection_interactions db objection_type)).

Definition to_response (g : ObjectionGroup.t) : Response.t :=
  Response.mk (ObjectionGroup.notes g) (ObjectionGroup.next_steps g)
              (ObjectionGroup.sentiment g).

(** [jsonb_agg(..)]: NULL over no row. *)
Definition jsonb_agg {A} (l : list A) : option (list A) :=
  match l with
  | [] => None
  | _ :: _ => Some l
  end.

(** The outer SELECT has aggregates and no GROUP BY: it yields one row
    whatever the CTE holds. *)
Definition objection_query (db : DB) (objection_type : string)
  : list ObjectionRow.t :=
  let groups := objection_responses db objection_type in
  let won := filter (fun g => is_won (ObjectionGroup.outcome g)) groups in
  [ ObjectionRow.mk objection_type
      (jsonb_agg (map to_response won))
      (AVG (map (fun g => won_indicator (ObjectionGroup.outcome g)) groups))
      (MODE (map ObjectionGroup.notes won)) ].

(** [pool.fetchrow]: the first row, [None] when there is none. *)
Definition fetchrow {A} (rows : list A) : option A := hd_error rows.

(** [ObjectionResponse( **dict(responses) )]: the three computed fields
    are required and not optional. *)
Definition to_ObjectionResponse (r : ObjectionRow.t)
  : result ObjectionResponse :=
  match ObjectionRow.successful_responses r,
        ObjectionRow.success_rate r,
        ObjectionRow.recommended_approach r with
  | Some responses, Some rate, Some approach =>
      Ok (mkObjectionResponse (ObjectionRow.objection_type r)
            responses rate approach)
  | _, _, _ => Raise (ValidationError "none is not an allowed value")
  end.

Definition get_objection_handling (db : DB) (objection_type : string)
  : result ObjectionResponse :=
  try_except_500
    (match fetchrow (objection_query db objection_type) with
     | None =>
         Raise (HTTPException 404
                  ("No data found for objection type: " ++ objection_type))
     | Some responses => to_ObjectionResponse responses
     end).

(** *** analyze_competitor_mentions *)

(** [jsonb_build_object('content', .., 'sentiment', .., 'date', ..)] *)
Module Mention.
Record t := mk {
  content : string;
  sentiment : string;
  date : datetime
}.
End Mention.

Record CompetitorMention := mkCompetitorMention {
  competitor_name : string;
  mention_count : Z;
  context : list Mention.t;
  sentiment_distribution : list (string * Q)
}.

(** The select list of the statement:
    [competitor_name, COUNT( * ) as mention_count,
     jsonb_agg(jsonb_build_object('content', content,
       'sentiment', sentiment, 'date', created_at)) as context,
     jsonb_object_agg(sentiment, ROUND(COUNT( * ) * 100.0
       / SUM(COUNT( * )) OVER (PARTITION BY competitor_name), 2))
       as sentiment_distribution],
    each expression with its name. *)
Definition competitor_select_list : list (expr * string) :=
  [(Column "competitor_name", "competitor_name");
   (Aggregate "COUNT" [Literal "*"], "mention_count");
   (Aggregate "jsonb_agg"
      [Call "jsonb_build_object"
         [Literal "'content'"; Column "content";
          Literal "'sentiment'"; Column "sentiment";
          Literal "'date'"; Column "created_at"]],
    "context");
   (Aggregate "jsonb_object_agg"
      [Column "sentiment";
       Call "ROUND"
         [Binary "/"
            (Binary "*" (Aggregate "COUNT" [Literal "*"]) (Literal "100.0"))
            (WindowCall "SUM" [Aggregate "COUNT" [Literal "*"]]
               [Column "competitor_name"]);
          Literal "2"]],
    "sentiment_distribution")]%string.

Definition valid_mentions (n : Z) : bool := (1 <=? n)%Z.

Section Competitors.
(** The rows the store gives for a statement it accepts, as the endpoint
    reads them.  No meaning is given here to a statement that the server
    refuses. *)
Variable rows_of : DB -> UUID -> datetime -> Z -> list CompetitorMention.

(** [pool.fetch("WITH competitor_mentions AS (..) SELECT .. FROM
    competitor_mentions GROUP BY competitor_name HAVING COUNT( * ) >= $3
    ORDER BY mention_count DESC", customer_id, cutoff_date, min_mentions)]:
    the server analyses the statement before it runs it. *)
Definition competitor_query (db : DB) (customer_id : UUID)
           (cutoff_date : datetime) (min_mentions : Z)
  : result (list CompetitorMention) :=
  if forallb (fun column => accepted (fst column)) competitor_select_list
  then Ok (rows_of db customer_id cutoff_date min_mentions)
  else Raise (PostgresError
                "aggregate function calls cannot contain window function calls").

Definition analyze_competitor_mentions (db : DB) (now : datetime)
           (customer_id : UUID) (days : option Z) (min_mentions : option Z)
  : result (list CompetitorMention) :=
  (days <- Query 90%Z valid_days days ;;
   min_mentions <- Query 2%Z valid_mentions min_mentions ;;
   try_except_500
     (let cutoff_date := (now - timedelta days)%Z in
      competitor_analysis <-
        competitor_query db customer_id cutoff_date min_mentions ;;
      Ok competitor_analysis))%py.

End Competitors.

(** *** get_sales_suggestions *)

(** [jsonb_build_object('type', i.type, 'sentiment', i.sentiment,
    'topics', i.topics)]; the values are null where the LEFT JOIN found
    no interaction. *)
Module RecentInteraction.
Record t := mk {
  type : option string;
  sentiment : option string;
  topics : option (list string)
}.
End RecentInteraction.

(** [jsonb_build_object('status', .., 'value', .., 'next_steps', ..)] *)
Module Deal.
Record t := mk {
  status : string;
  value : Q;
  next_steps : option string
}.
End Deal.

(** The row of the query, as far as the endpoint reads it. *)
Module OpportunityContext.
Record t := mk {
  value : Q;
  industry : string;
  size : string;
  recent_interactions : list RecentInteraction.t;
  similar_successful_deals : option (list Deal.t)
}.
End OpportunityContext.

Record Suggestions := mkSuggestions {
  next_steps : list string;
  talking_points : list string;
  risk_factors : list string;
  recommended_content : list string
}.

Definition recent_interaction_eq_dec
  : forall x y : RecentInteraction.t, {x = y} + {x <> y}.
Proof.
  decide equality;
    auto using option_eq_dec, string_dec, topics_eq_dec.
Defined.

Definition to_recent_interaction (i : option Interaction.t)
  : RecentInteraction.t :=
  match i with
  | Some i => RecentInteraction.mk (Some (Interaction.type i))
                (Some (Interaction.sentiment i))
                (Some (Interaction.topics i))
  | None => RecentInteraction.mk None None None
  end.

(** The scalar subquery: [FROM opportunities so JOIN interactions si ON
    so.customer_id = si.customer_id WHERE so.status = 'won' AND so.id != $1
    AND so.value BETWEEN oc.value * 0.8 AND oc.value * 1.2].  Its LIMIT
    bounds the rows after aggregation, of which there is one. *)
Definition similar_successful_deals_of (db : DB) (opportunity_id : UUID)
           (value : Q) : option (list Deal.t) :=
  jsonb_agg
    (map (fun r : Opportunity.t * Interaction.t =>
            Deal.mk (Opportunity.status (fst r)) (Opportunity.value (fst r))
                    (Interaction.next_steps (snd r)))
       (filter
          (fun r : Opportunity.t * Interaction.t =>
             is_won (Opportunity.status (fst r))
             && negb (N.eqb (Opportunity.id (fst r)) opportunity_id)
             && Qle_bool (value * (8 # 10)) (Opportunity.value (fst r))
             && Qle_bool (Opportunity.value (fst r)) (value * (12 # 10)))
          (JOIN (fun so si => N.eqb (Opportunity.customer_id so)
                                    (Interaction.customer_id si))
             (opportunities db) (interactions db)))).

(** [FROM opportunities o JOIN customers c ON o.customer_id = c.id
    LEFT JOIN interactions i ON o.customer_id = i.customer_id
    WHERE o.id = $1 GROUP BY o.id, c.id]: one row per opportunity and
    customer, [id] being the key of both tables. *)
Definition suggestions_query (db : DB) (opportunity_id : UUID)
  : list OpportunityContext.t :=
  map
    (fun oc : Opportunity.t * Customer.t =>
       let (o, c) := oc in
       OpportunityContext.mk (Opportunity.value o)
         (Customer.industry c) (Customer.size c)
         (nodup recent_interaction_eq_dec
            (map (fun r => to_recent_interaction (snd r))
               (LEFT_JOIN (fun o i => N.eqb (Opportunity.customer_id o)
                                            (Interaction.customer_id i))
                  [o] (interactions db))))
         (similar_successful_deals_of db opportunity_id (Opportunity.value o)))
    (JOIN (fun o c => N.eqb (Opportunity.customer_id o) (Customer.id c))
       (filter (fun o => N.eqb (Opportunity.id o) opportunity_id)
          (opportunities db))
       (customers db)).

(** [for topic in i['topics']]: iterating over [None] raises. *)
Definition topics_of (i : RecentInteraction.t) : result (list string) :=
  match RecentInteraction.topics i with
  | Some topics => Ok topics
  | None => Raise (TypeError "'NoneType' object is not iterable")
  end.

(** [[deal['next_steps'] for deal in deals if deal['next_steps']]] *)
Definition common_next_steps (deals : list Deal.t) : list string :=
  flat_map (fun deal => match Deal.next_steps deal with
                        | Some s => if truthy (Some s) then [s] else []
                        | None => []
                        end) deals.

Definition executive_sponsorship : string :=
  "High-value deal - ensure executive sponsorship".

Definition suggest (context : OpportunityContext.t) : result Suggestions :=
  (let recent_sentiments :=
     map RecentInteraction.sentiment
         (OpportunityContext.recent_interactions context) in
   topics <- mapM topics_of (OpportunityContext.recent_interactions context) ;;
   let recent_topics := List.concat topics in
   let next_steps :=
     if existsb (fun s => match s with
                          | Some s => String.eqb "negative" s
                          | None => false
                          end) recent_sentiments
     then ["Schedule follow-up meeting to address concerns"%string]
     else [] in
   let talking_points :=
     if existsb (String.eqb "pricing") recent_topics
     then ["Emphasize ROI calculations"%string;
           "Share relevant case studies"%string;
           "Discuss flexible payment options"%string]
     else [] in
   let risk_factors :=
     if Qltb 100000 (OpportunityContext.value context)
     then [executive_sponsorship]
     else [] in
   let next_steps :=
     match OpportunityContext.similar_successful_deals context with
     | Some (d :: deals) =>
         next_steps ++ common_next_steps (d :: deals)
     | Some [] | None => next_steps
     end in
   Ok (mkSuggestions next_steps talking_points risk_factors []))%py.

Definition get_sales_suggestions (db : DB) (opportunity_id : UUID)
  : result Suggestions :=
  try_except_500
    (match fetchrow (suggestions_query db opportunity_id) with
     | None => Raise (HTTPException 404 "Opportunity not found")
     | Some context => suggest context
     end).

End Patterns.

(** ** rag-api.py: the customer endpoints *)

Module SalesPerson.
Record t := mk {
  id : UUID;
  name : string
}.
End SalesPerson.

(** The store with the table [sales_people] and the column
    [interactions.sales_person_id], which the endpoints above do not
    read: the column is given as a function of the row. *)
Record Crm := mkCrm {
  tables : DB;
  sales_people : list SalesPerson.t;
  sales_person_id : Interaction.t -> UUID
}.

(** [FROM interactions i JOIN sales_people sp ON i.sales_person_id = sp.id] *)
Definition interactions_with_sales_people (crm : Crm)
  : list (Interaction.t * SalesPerson.t) :=
  JOIN (fun i sp => N.eqb (sales_person_id crm i) (SalesPerson.id sp))
       (interactions (tables crm)) (sales_people crm).

(** [ORDER BY key ASC]; rows with equal keys keep the order in which the
    store scanned them, as for [ORDER_BY_DESC]. *)
Definition ORDER_BY_ASC {A} (lt : A -> A -> bool) (l : list A) : list A :=
  ORDER_BY_DESC (fun a b => lt b a) l.

Module CustomerApi.

Record CustomerContext := mkCustomerContext {
  (* i.* and sp.name as sales_person_name *)
  recent_interactions : list (Interaction.t * string);
  active_opportunities : list Opportunity.t;
  company_info : Customer.t
}.

(** [try: body  except asyncpg.PostgresError as e:
      raise HTTPException(status_code=500, detail=str(e))]:
    every other exception passes, an [HTTPException] among them. *)
Definition try_except_postgres_500 {A} (body : result A) : result A :=
  match body with
  | Raise (PostgresError d) => Raise (HTTPException 500 d)
  | r => r
  end.

(** [SELECT * FROM customers WHERE id = $1] *)
Definition customer_query (crm : Crm) (customer_id : UUID)
  : list Customer.t :=
  filter (fun c => N.eqb (Customer.id c) customer_id)
         (customers (tables crm)).

(** [SELECT i.*, sp.name as sales_person_name FROM interactions i
    JOIN sales_people sp ON i.sales_person_id = sp.id
    WHERE i.customer_id = $1 ORDER BY i.created_at DESC LIMIT 5] *)
Definition recent_interactions_query (crm : Crm) (customer_id : UUID)
  : list (Interaction.t * string) :=
  map (fun r => (fst r, SalesPerson.name (snd r)))
    (LIMIT 5
       (ORDER_BY_DESC
          (fun r1 r2 => (Interaction.created_at (fst r1)
                         <? Interaction.created_at (fst r2))%Z)
          (filter (fun r => N.eqb (Interaction.customer_id (fst r)) customer_id)
             (interactions_with_sales_people crm)))).

(** [SELECT * FROM opportunities WHERE customer_id = $1
    AND status NOT IN ('won', 'lost') ORDER BY created_at DESC] *)
Definition active_opportunities_query (crm : Crm) (customer_id : UUID)
  : list Opportunity.t :=
  ORDER_BY_DESC
    (fun o1 o2 => (Opportunity.created_at o1 <? Opportunity.created_at o2)%Z)
    (filter (fun o => N.eqb (Opportunity.customer_id o) customer_id
                      && negb (Patterns.is_closed (Opportunity.status o)))
       (opportunities (tables crm))).

Definition get_customer_context (crm : Crm) (customer_id : UUID)
  : result CustomerContext :=
  try_except_postgres_500
    (match Patterns.fetchrow (customer_query crm customer_id) with
     | None => Raise (HTTPException 404 "Customer not found")
     | Some customer =>
         let interactions := recent_interactions_query crm customer_id in
         let opportunities := active_opportunities_query crm customer_id in
         Ok (mkCustomerContext interactions opportunities customer)
     end).

Definition valid_similar_limit (n : Z) : bool := ((1 <=? n) && (n <=? 20))%Z.

(** [SELECT embedding FROM document_embeddings
    WHERE source_type = 'customer' AND source_id = $1] *)
Definition reference_query (db : DB) (customer_id : UUID) : list vector :=
  map DocumentEmbedding.embedding
    (filter (fun e => String.eqb (DocumentEmbedding.source_type e) "customer"
                      && N.eqb (DocumentEmbedding.source_id e) customer_id)
       (document_embeddings db)).

Section Similar.
(** The cosine distance of two vectors of non-zero norm. *)
Variable cosine_distance : vector -> vector -> Q.

(** The CTE [similar_customers]: [SELECT source_id,
    1 - (embedding <=> $1::vector) as similarity FROM document_embeddings
    WHERE source_type = 'customer' AND source_id != $2
    AND 1 - (embedding <=> $1::vector) >= $3
    ORDER BY similarity DESC LIMIT $4] *)
Definition similar_customers (db : DB) (reference : vector)
           (customer_id : UUID) (min_similarity : Q) (limit : Z)
  : list (UUID * float8) :=
  LIMIT limit
    (ORDER_BY_DESC
       (fun r1 r2 : UUID * float8 => float8_lt (snd r1) (snd r2))
       (map (fun e => (DocumentEmbedding.source_id e,
                       RagApi.similarity_to cosine_distance reference e))
          (filter
             (fun e => String.eqb (DocumentEmbedding.source_type e) "customer"
                       && negb (N.eqb (DocumentEmbedding.source_id e)
                                      customer_id)
                       && float8_ge
                            (RagApi.similarity_to cosine_distance reference e)
                            (Num min_similarity))
             (document_embeddings db)))).

(** [SELECT c.*, sc.similarity FROM similar_customers sc
    JOIN customers c ON c.id = sc.source_id ORDER BY sc.similarity DESC] *)
Definition similar_query (db : DB) (reference : vector)
           (customer_id : UUID) (min_similarity : Q) (limit : Z)
  : list (Customer.t * float8) :=
  ORDER_BY_DESC
    (fun r1 r2 : Customer.t * float8 => float8_lt (snd r1) (snd r2))
    (map (fun r : (UUID * float8) * Customer.t => (snd r, snd (fst r)))
       (JOIN (fun sc c => N.eqb (Customer.id c) (fst sc))
          (similar_customers db reference customer_id min_similarity limit)
          (customers db))).

Definition find_similar_customers (db : DB) (customer_id : UUID)
           (limit : option Z) (min_similarity : option Q)
  : result (list (Customer.t * float8)) :=
  (limit <- Query 5%Z valid_similar_limit limit ;;
   min_similarity <- Query (1 # 2)%Q RagApi.valid_similarity min_similarity ;;
   try_except_500
     (match Patterns.fetchrow (reference_query db customer_id) with
      | None => Raise (HTTPException 404 "Reference customer not found")
      | Some reference =>
          Ok (similar_query db reference customer_id min_similarity limit)
      end))%py.

End Similar.

End CustomerApi.

(** ** rag-api-extended-patterns.py: get_conversation_history *)

Module History.

Inductive InteractionType : Type := CALL | EMAIL | MEETING | DEMO.

(** [t.value] *)
Definition value (t : InteractionType) : string :=
  match t with
  | CALL => "call"
  | EMAIL => "email"
  | MEETING => "meeting"
  | DEMO => "demo"
  end.

Record ConversationTurn := mkConversationTurn {
  speaker : string;
  content : string;
  timestamp : datetime;
  sentiment : option string
}.

(** A row of the CTE [conversation_thread]. *)
Module Thread.
Record t := mk {
  id : UUID;
  type : string;
  content : string;
  timestamp : datetime;
  sentiment : string;
  sales_person : string;
  turn_number : Z
}.
End Thread.

(** A row of the outer SELECT. *)
Module Turn.
Record t := mk {
  speaker : string;
  content : string;
  timestamp : datetime;
  sentiment : string;
  type : string
}.
End Turn.

(** The columns that [where_clauses] names without their table:
    "customer_id = $1", "type = ANY(..)" under [if interaction_types:],
    and "created_at >= ..". *)
Definition where_columns (interaction_types : option (list InteractionType))
  : list string :=
  ["customer_id"%string]
  ++ match interaction_types with
     | Some (_ :: _) => ["type"%string]
     | Some [] | None => []
     end
  ++ ["created_at"%string].

(** The store looks such a column up in both tables of
    [interactions i JOIN sales_people sp].  [interactions] has the three;
    the query is refused when [sales_people] has a column of the same
    name. *)
Definition resolve_columns (sales_people_columns : list string)
           (columns : list string) : result unit :=
  if existsb (fun c => existsb (String.eqb c) sales_people_columns) columns
  then Raise (PostgresError "column reference is ambiguous")
  else Ok tt.

(** [DATE(i.created_at)], as the number of the day. *)
Definition DATE (t : datetime) : Z := (t / 86400)%Z.

(** [FROM interactions i JOIN sales_people sp ON i.sales_person_id = sp.id
    WHERE customer_id = $1 [AND type = ANY($2::text[])]
    AND created_at >= $n] *)
Definition selected (crm : Crm) (customer_id : UUID)
           (interaction_types : option (list InteractionType))
           (cutoff_date : datetime)
  : list (Interaction.t * SalesPerson.t) :=
  filter
    (fun r =>
       N.eqb (Interaction.customer_id (fst r)) customer_id
       && match interaction_types with
          | Some (t :: l) =>
              existsb (String.eqb (Interaction.type (fst r)))
                      (map value (t :: l))
          | Some [] | None => true
          end
       && (cutoff_date <=? Interaction.created_at (fst r))%Z)
    (interactions_with_sales_people crm).

(** The rows of a partition with their numbers, from [k] on. *)
Fixpoint number_from {A} (k : Z) (l : list A) : list (A * Z) :=
  match l with
  | [] => []
  | a :: l' => (a, k) :: number_from (k + 1) l'
  end.

(** [ROW_NUMBER() OVER (PARTITION BY .. ORDER BY i.created_at)] on one
    partition. *)
Definition ROW_NUMBER (partition : list (Interaction.t * SalesPerson.t))
  : list (Interaction.t * SalesPerson.t * Z) :=
  number_from 1
    (ORDER_BY_ASC
       (fun r1 r2 => (Interaction.created_at (fst r1)
                      <? Interaction.created_at (fst r2))%Z)
       partition).

Definition to_thread (r : Interaction.t * SalesPerson.t * Z) : Thread.t :=
  let '(i, sp, turn_number) := r in
  Thread.mk (Interaction.id i) (Interaction.type i) (Interaction.notes i)
            (Interaction.created_at i) (Interaction.sentiment i)
            (SalesPerson.name sp) turn_number.

(** The CTE, partition by partition. *)
Definition conversation_thread (crm : Crm) (customer_id : UUID)
           (interaction_types : option (list InteractionType))
           (cutoff_date : datetime) : list Thread.t :=
  flat_map
    (fun g => map to_thread (ROW_NUMBER (snd g)))
    (GROUP_BY Z.eq_dec
       (fun r : Interaction.t * SalesPerson.t =>
          DATE (Interaction.created_at (fst r)))
       (selected crm customer_id interaction_types cutoff_date)).

(** [CASE WHEN turn_number % 2 = 1 THEN 'sales_person' ELSE 'customer' END] *)
Definition speaker_of (turn_number : Z) : string :=
  if (turn_number mod 2 =? 1)%Z then "sales_person" else "customer".

Definition to_turn (t : Thread.t) : Turn.t :=
  Turn.mk (speaker_of (Thread.turn_number t)) (Thread.content t)
          (Thread.timestamp t) (Thread.sentiment t) (Thread.type t).

(** [SELECT .. FROM conversation_thread ORDER BY timestamp ASC] *)
Definition history_query (crm : Crm) (customer_id : UUID)
           (interaction_types : option (list InteractionType))
           (cutoff_date : datetime) : list Turn.t :=
  ORDER_BY_ASC
    (fun t1 t2 => (Turn.timestamp t1 <? Turn.timestamp t2)%Z)
    (map to_turn
       (conversation_thread crm customer_id interaction_types cutoff_date)).

Definition to_ConversationTurn (conv : Turn.t) : ConversationTurn :=
  mkConversationTurn (Turn.speaker conv) (Turn.content conv)
                     (Turn.timestamp conv) (Some (Turn.sentiment conv)).

(** [sales_people_columns]: the names of the columns of the table
    [sales_people] in the store the endpoint runs on. *)
Definition get_conversation_history (sales_people_columns : list string)
           (crm : Crm) (now : datetime) (customer_id : UUID)
           (days : option Z)
           (interaction_types : option (list InteractionType))
  : result (list ConversationTurn) :=
  (days <- Query 30%Z Patterns.valid_days days ;;
   try_except_500
     (let cutoff_date := (now - timedelta days)%Z in
      _ <- resolve_columns sales_people_columns
             (where_columns interaction_types) ;;
      let conversations :=
        history_query crm customer_id interaction_types cutoff_date in
      Ok (map to_ConversationTurn conversations)))%py.

End History.

(** ** postgres-loader.py

    [PostgresRAGLoader] fills the store the endpoints read and has two
    searches of its own.  Each method makes its own pool with
    [asyncpg.create_pool(self.db_url)], on which no codec for [vector]
    is registered; the server is taken to be there.  The statements run
    one by one, outside a transaction, so what was inserted before an
    error stays. *)

Module Loader.

(** What the methods read of [self]. *)
Record PostgresRAGLoader := mkPostgresRAGLoader {
  (* self.encoder.encode(text).tolist(), which may raise *)
  encoder : string -> result vector;
  default_search_limit : Z
}.

(** The dicts of [dataset["customers"]] and [dataset["interactions"]],
    with the keys whose values reach a column the endpoints read.  The
    other keys of the dataset (sales people, opportunities, products)
    are not read by [load_data]. *)
Module CustomerDict.
Record t := mk {
  id : UUID;
  company : string;
  industry : string;
  size : string
}.
End CustomerDict.

Module InteractionDict.
Record t := mk {
  id : UUID;
  customerId : UUID;
  salesPersonId : UUID;
  type : string;
  notes : string;
  sentiment : string;
  topics : list string
}.
End InteractionDict.

Module Dataset.
Record t := mk {
  customers : list CustomerDict.t;
  interactions : list InteractionDict.t
}.
End Dataset.

(** The columns of [CREATE TABLE IF NOT EXISTS sales_people] in
    [init_db]. *)
Definition sales_people_columns : list string :=
  ["id"; "name"; "email"; "territories"; "metadata"; "created_at"]%string.

Definition set_tables (crm : Crm) (db : DB) : Crm :=
  mkCrm db (sales_people crm) (sales_person_id crm).

Definition unique_violation {A} : result A :=
  Raise (PostgresError "duplicate key value violates unique constraint").
Definition foreign_key_violation {A} : result A :=
  Raise (PostgresError "insert violates foreign key constraint").

(** [INSERT INTO customers]; [id UUID PRIMARY KEY]. *)
Definition insert_customer (c : Customer.t) (crm : Crm) : Crm * result unit :=
  let db := tables crm in
  if existsb (fun c' => N.eqb (Customer.id c') (Customer.id c)) (customers db)
  then (crm, unique_violation)
  else (set_tables crm
          (mkDB (customers db ++ [c]) (interactions db) (opportunities db)
                (document_embeddings db)),
        Ok tt).

(** [INSERT INTO interactions]; [id UUID PRIMARY KEY],
    [customer_id UUID REFERENCES customers(id)],
    [sales_person_id UUID REFERENCES sales_people(id)]. *)
Definition insert_interaction (i : Interaction.t) (sales_person : UUID)
           (crm : Crm) : Crm * result unit :=
  let db := tables crm in
  if existsb (fun i' => N.eqb (Interaction.id i') (Interaction.id i))
             (interactions db)
  then (crm, unique_violation)
  else if negb (existsb (fun c => N.eqb (Customer.id c)
                                        (Interaction.customer_id i))
                        (customers db))
          || negb (existsb (fun sp => N.eqb (SalesPerson.id sp) sales_person)
                           (sales_people crm))
  then (crm, foreign_key_violation)
  else (mkCrm (mkDB (customers db) (interactions db ++ [i])
                    (opportunities db) (document_embeddings db))
              (sales_people crm)
              (fun r => if N.eqb (Interaction.id r) (Interaction.id i)
                        then sales_person else sales_person_id crm r),
        Ok tt).

(** An embedding as an argument of a statement.  The driver knows no
    codec for [vector] on the loader's pools and passes such an argument
    as text, for which it takes a [str]: the list that
    [generate_embedding] returns is refused before the statement reaches
    the server. *)
Definition vector_argument {A} (embedding : vector) : result A :=
  Raise (DataError "invalid input for query argument (expected str, got list)").

(** One statement after the other; the first error ends the run. *)
Definition and_then (first next : Crm -> Crm * result unit) (crm : Crm)
  : Crm * result unit :=
  match first crm with
  | (crm', Ok _) => next crm'
  | (crm', Raise e) => (crm', Raise e)
  end.

(** [for a in l: body(a)] *)
Fixpoint for_each {A} (body : A -> Crm -> Crm * result unit) (l : list A)
         (crm : Crm) : Crm * result unit :=
  match l with
  | [] => (crm, Ok tt)
  | a :: l' => and_then (body a) (for_each body l') crm
  end.

(** The row of [INSERT INTO customers (id, company_name, industry, size,
    ..) VALUES ($1, $2, $3, $4, ..)]. *)
Definition customer_row (customer : CustomerDict.t) : Customer.t :=
  Customer.mk (CustomerDict.id customer) (CustomerDict.company customer)
              (CustomerDict.industry customer) (CustomerDict.size customer).

(** [f"{customer['company']} {customer['industry']}"] *)
Definition customer_content (customer : CustomerDict.t) : string :=
  (CustomerDict.company customer ++ " " ++ CustomerDict.industry customer)
  %string.

(** The row of [INSERT INTO interactions (id, customer_id, .., type,
    notes, sentiment, topics, ..)]: the table has no column [next_steps],
    and [created_at] takes its default, the time of the insertion. *)
Definition interaction_row (interaction : InteractionDict.t)
           (created_at : datetime) : Interaction.t :=
  Interaction.mk (InteractionDict.id interaction)
                 (InteractionDict.customerId interaction)
                 (InteractionDict.type interaction)
                 (InteractionDict.notes interaction)
                 (InteractionDict.sentiment interaction)
                 (InteractionDict.topics interaction)
                 None created_at.

(** [f"{interaction['notes']} {' '.join(interaction['topics'])}"] *)
Definition interaction_content (interaction : InteractionDict.t) : string :=
  (InteractionDict.notes interaction ++ " "
   ++ String.concat " " (InteractionDict.topics interaction))%string.

Section Methods.
Variable self : PostgresRAGLoader.
(** The server's [NOW()] as a statement runs on the store as it stands. *)
Variable NOW : Crm -> datetime.

(** [conn.execute("INSERT INTO document_embeddings (id, source_type,
    source_id, content, embedding, metadata) VALUES (gen_random_uuid(),
    $1, $2, $3, $4, $5)", .., embedding, json.dumps(metadata or {}))]
    behind [generate_embedding]: the statement does not get past its
    fourth argument. *)
Definition store_document_with_embedding
           (source_type : string) (source_id : UUID) (content : string)
           (metadata : option jsonb) (crm : Crm) : Crm * result unit :=
  match encoder self content with
  | Raise e => (crm, Raise e)
  | Ok embedding => (crm, vector_argument embedding)
  end.

(** The body of [for customer in dataset["customers"]]. *)
Definition load_customer (customer : CustomerDict.t)
  : Crm -> Crm * result unit :=
  and_then
    (insert_customer (customer_row customer))
    (let content := customer_content customer in
     store_document_with_embedding "customer" (CustomerDict.id customer)
       content (Some [("size"%string, CustomerDict.size customer)])).

(** The body of [for interaction in dataset["interactions"]]. *)
Definition load_interaction (interaction : InteractionDict.t)
  : Crm -> Crm * result unit :=
  and_then
    (fun crm =>
       insert_interaction (interaction_row interaction (NOW crm))
         (InteractionDict.salesPersonId interaction) crm)
    (let content := interaction_content interaction in
     store_document_with_embedding "interaction"
       (InteractionDict.id interaction) content
       (Some [("type"%string, InteractionDict.type interaction);
              ("sentiment"%string, InteractionDict.sentiment interaction)])).

(** [init_db] creates what is missing ([IF NOT EXISTS]) and touches no
    row; [finally: pool.close()] catches nothing. *)
Definition load_data (dataset : Dataset.t) : Crm -> Crm * result unit :=
  and_then (for_each load_customer (Dataset.customers dataset))
           (for_each load_interaction (Dataset.interactions dataset)).

(** [limit or self.default_search_limit]: 0 is as good as none. *)
Definition limit_or_default (limit : option Z) : Z :=
  match limit with
  | None | Some 0%Z => default_search_limit self
  | Some n => n
  end.

(** [conn.fetch("SELECT .., 1 - (embedding <=> $1::vector) as similarity
    FROM document_embeddings {where_clause} ORDER BY similarity DESC
    LIMIT $2", *params)] with [params = [query_embedding, limit, ..]]:
    the statement does not get past its first argument. *)
Definition fetch (where_clause : list RagApi.condition)
           (query_embedding : vector) (limit : Z)
  : result (list RagApi.SearchResult) :=
  vector_argument query_embedding.

(** [[dict(r) for r in results]]: a dict has the keys of the API's
    [SearchResult]. *)
Definition semantic_search (query : string)
           (source_type : option string) (limit : option Z)
  : result (list RagApi.SearchResult) :=
  (query_embedding <- encoder self query ;;
   let limit := limit_or_default limit in
   (* "WHERE source_type = $3" if source_type else "" *)
   let where_clause :=
     match source_type with
     | None | Some EmptyString => []
     | Some s => [RagApi.source_type_eq s]
     end in
   results <- fetch where_clause query_embedding limit ;;
   Ok results)%py.

(** [if customer_id:] and [if date_range:] add a condition each;
    [date_range] is a pair. *)
Definition contextual_search (query : string)
           (customer_id : option UUID)
           (date_range : option (datetime * datetime)) (limit : option Z)
  : result (list RagApi.SearchResult) :=
  (query_embedding <- encoder self query ;;
   let limit := limit_or_default limit in
   let conditions :=
     match customer_id with
     | Some u => [RagApi.source_id_eq u]
     | None => []
     end
     ++ match date_range with
        | Some (start_date, end_date) =>
            [RagApi.created_at_between start_date end_date]
        | None => []
        end in
   results <- fetch conditions query_embedding limit ;;
   Ok results)%py.

End Methods.

End Loader.

(** ** scripts/mongodb-loader.py

    [SalesDataLoader] keeps the same data in MongoDB.  A document is a
    Python dict; what the loader takes from Python and from the server
    without looking into it is a field of [Environment]. *)

Module Mongo.

(** The value of a field.  [Other] stands for a value of a kind the
    loader does not look into: a number, null, a nested document, an
    ObjectId. *)
Inductive value : Type :=
| Text (s : string)
| Texts (l : list string)
| Vector (v : vector)
| Date (t : datetime)
| Other (n : N).

Definition document := list (string * value).

Definition value_eq_dec : forall x y : value, {x = y} + {x <> y}.
Proof.
  pose proof string_dec. pose proof (list_eq_dec string_dec).
  pose proof Z.eq_dec. pose proof Pos.eq_dec. pose proof N.eq_dec.
  assert (forall x y : Q, {x = y} + {x <> y}) by decide equality.
  pose proof (list_eq_dec H4).
  decide equality.
Defined.

(** [d.get(key)] *)
Fixpoint get (key : string) (d : document) : option value :=
  match d with
  | [] => None
  | (k, v) :: d' => if String.eqb key k then Some v else get key d'
  end.

(** [d.get(key, default)] *)
Definition get_or (key : string) (default : value) (d : document) : value :=
  match get key d with
  | Some v => v
  | None => default
  end.

Inductive exception : Type := Exception (name : string).

Inductive outcome (A : Type) : Type :=
| Done (a : A)
| Raised (e : exception).
Arguments Done {A} a.
Arguments Raised {A} e.

Record Environment := mkEnvironment {
  (* f"{v}" for a value that is not a str *)
  repr : value -> string;
  (* ' '.join(v) for a value that is not a list of str *)
  join_other : value -> outcome string;
  (* s.strip() *)
  strip : string -> string;
  (* self.encoder.encode(text).tolist() *)
  encode : string -> outcome vector;
  (* datetime.utcnow() and a new ObjectId, at an insertion into a
     collection as it stands *)
  utcnow : list document -> datetime;
  ObjectId : list document -> value;
  (* what the server says to the indexes of create_indexes *)
  create_indexes : outcome unit
}.

(** The collections, by their key in [self.collections]. *)
Definition Database := string -> list document.

Definition collections : list string :=
  ["salesPeople"; "customers"; "opportunities"; "interactions"; "products";
   "embeddings"]%string.

Definition with_collection (db : Database) (key : string)
           (docs : list document) : Database :=
  fun k => if String.eqb k key then docs else db k.

(** [s.rstrip('s')]: every trailing "s" goes. *)
Fixpoint rstrip_s (s : string) : string :=
  match s with
  | EmptyString => EmptyString
  | String c s' =>
      match rstrip_s s' with
      | EmptyString => if String.eqb (String c EmptyString) "s"
                       then EmptyString
                       else String c EmptyString
      | rest => String c rest
      end
  end.

Section Loader.
Variable env : Environment.

(** [f"{v}"] *)
Definition format (v : value) : string :=
  match v with
  | Text s => s
  | _ => repr env v
  end.

(** [' '.join(v)] *)
Definition join_spaces (v : value) : outcome string :=
  match v with
  | Texts l => Done (String.concat " " l)
  | _ => join_other env v
  end.

(** [collection.insert_many(data)]: a document without [_id] gets one;
    the documents go in one after the other, and one whose [_id] is
    taken ends the insertion with an error. *)
Fixpoint insert_many (data : list document) (collection : list document)
  : list document * outcome unit :=
  match data with
  | [] => (collection, Done tt)
  | d :: data' =>
      let d := match get "_id" d with
               | Some _ => d
               | None => d ++ [("_id"%string, ObjectId env collection)]
               end in
      if existsb (fun d' => if Patterns.option_eq_dec value_eq_dec
                                 (get "_id" d') (get "_id" d)
                            then true else false) collection
      then (collection, Raised (Exception "BulkWriteError"))
      else insert_many data' (collection ++ [d])
  end.

(** The dicts of [data] as [insert_many] leaves them. *)
Definition with_ids (data : list document) (collection : list document)
  : list document :=
  skipn (List.length collection) (fst (insert_many data collection)).

Definition generate_and_store_embeddings
           (document : document) (source_type : string) (source_id : value)
           (embeddings : list Mongo.document)
  : list Mongo.document * outcome unit :=
  let text_content : outcome string :=
    if String.eqb source_type "interaction" then
      match join_spaces (get_or "topics" (Texts []) document) with
      | Done topics =>
          Done (format (get_or "notes" (Text "") document) ++ " " ++ topics)
               %string
      | Raised e => Raised e
      end
    else if String.eqb source_type "opportunity" then
      Done (format (get_or "lossReason" (Text "") document) ++ " "
            ++ format (get_or "competitorInvolved" (Text "") document))%string
    else if String.eqb source_type "customer" then
      Done (format (get_or "company" (Text "") document) ++ " "
            ++ format (get_or "industry" (Text "") document))%string
    else Done ""%string in
  match text_content with
  | Raised e => (embeddings, Raised e)
  | Done text_content =>
      (* if text_content.strip(): *)
      if String.eqb (strip env text_content) "" then (embeddings, Done tt)
      else
        match encode env text_content with
        | Raised e => (embeddings, Raised e)
        | Done embedding =>
            insert_many
              [[("source_type", Text source_type);
                ("source_id", source_id);
                ("embedding", Vector embedding);
                ("text_content", Text text_content);
                ("created_at", Date (utcnow env embeddings))]%string]
              embeddings
        end
  end.

(** [for document in data: await self.generate_and_store_embeddings(
    document, collection_name.rstrip('s'), document['id'])] *)
Fixpoint embed_all (collection_name : string) (data : list document)
         (embeddings : list document) : list document * outcome unit :=
  match data with
  | [] => (embeddings, Done tt)
  | document :: data' =>
      match get "id" document with
      | None => (embeddings, Raised (Exception "KeyError"))
      | Some id =>
          match generate_and_store_embeddings document
                  (rstrip_s collection_name) id embeddings with
          | (embeddings', Done _) => embed_all collection_name data' embeddings'
          | (embeddings', Raised e) => (embeddings', Raised e)
          end
      end
  end.

(** [for collection_name, data in dataset.items(): ..] *)
Fixpoint load_collections (dataset : list (string * list document))
         (db : Database) : Database * outcome unit :=
  match dataset with
  | [] => (db, Done tt)
  | (collection_name, data) :: dataset' =>
      if negb (existsb (String.eqb collection_name) collections)
      then load_collections dataset' db
      else
        match data with
        | [] => load_collections dataset' db
        | _ :: _ =>
            let collection := db collection_name in
            match insert_many data collection with
            | (docs, Raised e) =>
                (with_collection db collection_name docs, Raised e)
            | (docs, Done _) =>
                let db := with_collection db collection_name docs in
                if existsb (String.eqb collection_name)
                           ["interactions"; "opportunities"; "customers"]%string
                then
                  match embed_all collection_name (with_ids data collection)
                          (db "embeddings"%string) with
                  | (embeddings, Raised e) =>
                      (with_collection db "embeddings" embeddings, Raised e)
                  | (embeddings, Done _) =>
                      load_collections dataset'
                        (with_collection db "embeddings" embeddings)
                  end
                else load_collections dataset' db
            end
        end
  end.

(** [delete_many({})] on every collection, [create_indexes], then the
    loop over the dataset. *)
Definition load_data (dataset : list (string * list document))
           (db : Database) : Database * outcome unit :=
  let cleared : Database :=
    fun k => if existsb (String.eqb k) collections then [] else db k in
  match create_indexes env with
  | Raised e => (cleared, Raised e)
  | Done _ => load_collections dataset cleared
  end.

End Loader.

(** A [datetime] of Python, naive or aware of its offset. *)
Record pydatetime := mkpydatetime {
  instant : Z;
  aware : bool
}.

(** [a <= b]: a naive and an aware datetime do not compare. *)
Definition le (a b : pydatetime) : outcome bool :=
  if Bool.eqb (aware a) (aware b) then Done (instant a <=? instant b)%Z
  else Raised (Exception "TypeError").

(** [s.replace("Z", "+00:00")] *)
Fixpoint replace_Z (s : string) : string :=
  match s with
  | EmptyString => EmptyString
  | String c s' => if String.eqb (String c EmptyString) "Z"
                   then ("+00:00" ++ replace_Z s')%string
                   else String c (replace_Z s')
  end.

Section Queries.
(** The inner [semantic_search(query, collection_type, limit)], an
    aggregation on the server, and [datetime.fromisoformat]. *)
Variable semantic_search :
  string -> option string -> Z -> outcome (list document).
Variable fromisoformat : string -> outcome pydatetime.

Variable customer_id : option string.
Variable date_range : option (pydatetime * pydatetime).
Variable limit : Z.

(** [customer_id and result.get("customerId") != customer_id] *)
Definition other_customer (result : document) : bool :=
  match customer_id with
  | None | Some EmptyString => false
  | Some c => match get "customerId" result with
              | Some (Text s) => negb (String.eqb s c)
              | _ => true
              end
  end.

(** [datetime.fromisoformat(result.get("timestamp", "").replace("Z",
    "+00:00"))]; only a str has this [replace]. *)
Definition doc_date_of (result : document) : outcome pydatetime :=
  match get_or "timestamp" (Text "") result with
  | Text s => fromisoformat (replace_Z s)
  | Date _ => Raised (Exception "TypeError")
  | _ => Raised (Exception "AttributeError")
  end.

(** [start_date <= doc_date <= end_date] *)
Definition within (start_date end_date doc_date : pydatetime)
  : outcome bool :=
  match le start_date doc_date with
  | Done true => le doc_date end_date
  | r => r
  end.

(** The loop [for result in base_query], with its [continue]s and its
    [break]. *)
Fixpoint scan (base_query : list document) (filtered_results : list document)
  : outcome (list document) :=
  match base_query with
  | [] => Done filtered_results
  | result :: rest =>
      if other_customer result then scan rest filtered_results
      else
        let keep :=
          let filtered_results := filtered_results ++ [result] in
          if (limit <=? Z.of_nat (List.length filtered_results))%Z
          then Done filtered_results
          else scan rest filtered_results in
        match date_range with
        | Some (start_date, end_date) =>
            match doc_date_of result with
            | Raised e => Raised e
            | Done doc_date =>
                match within start_date end_date doc_date with
                | Raised e => Raised e
                | Done false => scan rest filtered_results
                | Done true => keep
                end
            end
        | None => keep
        end
  end.

Definition contextual_search (query : string) : outcome (list document) :=
  match semantic_search query None (limit * 2)%Z with
  | Raised e => Raised e
  | Done base_query => scan base_query []
  end.

End Queries.

End Mongo.

(** ** Sample stores *)

Module Fixture.

Import RagApi.

(** An encoder that always answers, and a distance that can be computed:
    the squared Euclidean distance. *)
Definition encoder (text : string) : result vector := Ok [1%Q; 0%Q].

Definition distance (e q : vector) : Q :=
  SUM (map (fun p => (fst p - snd p) * (fst p - snd p))%Q (combine e q)).

Definition doc_old : DocumentEmbedding.t :=
  DocumentEmbedding.mk 1%N "interaction" 10%N "pricing call"
                       [1; 1 # 2]%Q [] 100%Z.
Definition doc_new : DocumentEmbedding.t :=
  DocumentEmbedding.mk 2%N "customer" 11%N "pricing mail"
                       [1; 1 # 2]%Q [] 200%Z.
Definition doc_far : DocumentEmbedding.t :=
  DocumentEmbedding.mk 3%N "customer" 12%N "lunch menu"
                       [0; 0]%Q [] 300%Z.
Definition doc_best : DocumentEmbedding.t :=
  DocumentEmbedding.mk 4%N "opportunity" 13%N "pricing"
                       [1; 0]%Q [] 50%Z.

Definition documents : DB :=
  mkDB [] [] [] [doc_old; doc_new; doc_far; doc_best].

(** Only [start_date] is set. *)
Definition since_150 : ContextFilter :=
  mkContextFilter None (Some 150%Z) None None (Some (1 # 2)%Q).

(** One tech customer, one call about pricing, two won opportunities. *)
Definition acme : Customer.t := Customer.mk 1%N "Acme" "tech" "large".

Definition pricing_call : Interaction.t :=
  Interaction.mk 1%N 1%N "call" "Walked through pricing" "positive"
                 ["pricing"%string] (Some "Send quote"%string) 1000%Z.

Definition sales : DB :=
  mkDB [acme]
       [pricing_call]
       [Opportunity.mk 1%N 1%N "won" 50000 900%Z;
        Opportunity.mk 2%N 1%N "won" 70000 950%Z]
       [].

(** Three pricing interactions of a customer whose opportunity was won,
    two of a customer whose opportunity was lost. *)
Definition globex : Customer.t := Customer.mk 2%N "Globex" "retail" "small".

Definition won_talk (id : UUID) (notes : string) : Interaction.t :=
  Interaction.mk id 1%N "call" notes "neutral" ["pricing"%string]
                 (Some "Send quote"%string) 1000%Z.

Definition lost_talk (id : UUID) (notes : string) : Interaction.t :=
  Interaction.mk id 2%N "email" notes "negative"
                 ["pricing"%string; "budget"%string] None 1000%Z.

Definition closed_deals : list Opportunity.t :=
  [Opportunity.mk 1%N 1%N "won" 50000 900%Z;
   Opportunity.mk 2%N 2%N "lost" 30000 900%Z].

(** The three won interactions carry the same notes. *)
Definition pricing_repeated : DB :=
  mkDB [acme; globex]
       [won_talk 1%N "Discussed pricing"; won_talk 2%N "Discussed pricing";
        won_talk 3%N "Discussed pricing";
        lost_talk 4%N "Too expensive"; lost_talk 5%N "Budget frozen"]
       closed_deals [].

(** The five interactions differ in their notes. *)
Definition pricing_distinct : DB :=
  mkDB [acme; globex]
       [won_talk 1%N "Discussed pricing"; won_talk 2%N "Offered discount";
        won_talk 3%N "Shared ROI sheet";
        lost_talk 4%N "Too expensive"; lost_talk 5%N "Budget frozen"]
       closed_deals [].

(** Three mentions of one competitor, each with another sentiment. *)
Definition mention (id : UUID) (sentiment : string) : Interaction.t :=
  Interaction.mk id 1%N "meeting" "Compared vendors" sentiment
                 ["competition"%string] None 1000%Z.

Definition mention_doc (id : UUID) : DocumentEmbedding.t :=
  DocumentEmbedding.mk id "interaction" id "Compared vendors" [1; 0]%Q
                       [("competitor", "Initech")]%string 1000%Z.

Definition competitors : DB :=
  mkDB [acme]
       [mention 1%N "positive"; mention 2%N "neutral"; mention 3%N "negative"]
       []
       [mention_doc 1%N; mention_doc 2%N; mention_doc 3%N].

(** An open opportunity worth 150000 of a customer nobody has talked to
    yet, and the same with one call on record. *)
Definition big_deal : DB :=
  mkDB [acme] [] [Opportunity.mk 7%N 1%N "negotiating" 150000 900%Z] [].

Definition big_deal_after_call : DB :=
  mkDB [acme] [pricing_call]
       [Opportunity.mk 7%N 1%N "negotiating" 150000 900%Z] [].

Definition small_deal_after_call : DB :=
  mkDB [acme] [pricing_call]
       [Opportunity.mk 7%N 1%N "negotiating" 50000 900%Z] [].

End Fixture.

(** ** More sample stores *)

Module Sample.

Definition alice : SalesPerson.t := SalesPerson.mk 21%N "Alice".

Definition call (id : UUID) (created_at : datetime) : Interaction.t :=
  Interaction.mk id 1%N "call" "Checked in" "neutral" ["support"%string]
                 None created_at.

(** Six calls to customer 1 by Alice, one open and one won opportunity. *)
Definition crm : Crm :=
  mkCrm
    (mkDB [Fixture.acme; Fixture.globex]
          [call 1%N 100%Z; call 2%N 600%Z; call 3%N 300%Z; call 4%N 200%Z;
           call 5%N 500%Z; call 6%N 400%Z]
          [Opportunity.mk 1%N 1%N "won" 50000 900%Z;
           Opportunity.mk 2%N 1%N "qualified" 70000 950%Z]
          [])
    [alice]
    (fun _ => 21%N).

(** Documents of three customers; the second lies closer to the first
    than the third does. *)
Definition customer_doc (id : UUID) (embedding : vector)
  : DocumentEmbedding.t :=
  DocumentEmbedding.mk id "customer" id "company" embedding [] 100%Z.

Definition initech : Customer.t := Customer.mk 3%N "Initech" "tech" "medium".

Definition neighbours : DB :=
  mkDB [Fixture.acme; Fixture.globex; initech] [] []
       [customer_doc 1%N [1; 0]%Q; customer_doc 2%N [1; 1 # 2]%Q;
        customer_doc 3%N [1; 1 # 4]%Q].

(** A store whose table [sales_people] has the columns [id] and [name]
    only. *)
Definition id_and_name : list string := ["id"; "name"]%string.

(** Three calls to customer 1 on day 0 and one on day 1. *)
Definition two_days : Crm :=
  mkCrm
    (mkDB [Fixture.acme]
          [call 1%N 300%Z; call 2%N 100%Z; call 3%N 200%Z; call 4%N 90000%Z]
          [] [])
    [alice]
    (fun _ => 21%N).

(** Python's [strip] on a text whose only blanks are spaces. *)
Fixpoint lstrip_spaces (s : string) : string :=
  match s with
  | EmptyString => EmptyString
  | String c s' => if String.eqb (String c EmptyString) " "
                   then lstrip_spaces s' else s
  end.

Fixpoint rstrip_spaces (s : string) : string :=
  match s with
  | EmptyString => EmptyString
  | String c s' =>
      match rstrip_spaces s' with
      | EmptyString => if String.eqb (String c EmptyString) " "
                       then EmptyString else String c EmptyString
      | rest => String c rest
      end
  end.

(** A MongoDB that takes the indexes, with the encoder of the sample
    documents. *)
Definition mongo : Mongo.Environment :=
  Mongo.mkEnvironment
    (fun _ => "None"%string)
    (fun _ => Mongo.Raised (Mongo.Exception "TypeError"))
    (fun s => rstrip_spaces (lstrip_spaces s))
    (fun _ => Mongo.Done [1; 0]%Q)
    (fun _ => 1000%Z)
    (fun docs => Mongo.Other (N.of_nat (List.length docs)))
    (Mongo.Done tt).

(** One customer, one interaction and one lost opportunity. *)
Definition sales_data : list (string * list Mongo.document) :=
  [("customers", [[("id", Mongo.Text "c1"); ("company", Mongo.Text "Hooli");
                   ("industry", Mongo.Text "tech")]]);
   ("opportunities", [[("id", Mongo.Text "o1");
                       ("customerId", Mongo.Text "c1");
                       ("lossReason", Mongo.Text "price");
                       ("competitorInvolved", Mongo.Text "Initech")]]);
   ("interactions", [[("id", Mongo.Text "i1");
                      ("customerId", Mongo.Text "c1");
                      ("notes", Mongo.Text "Asked for a quote");
                      ("topics", Mongo.Texts ["pricing"; "timeline"]);
                      ("timestamp", Mongo.Text "2024-01-01T00:00:00Z")]])]
  %string.

Definition empty_mongo : Mongo.Database := fun _ => [].

(** What a search may return: embeddings as the loader stores them. *)
Definition found : list Mongo.document :=
  [[("_id", Mongo.Other 0); ("source_type", Mongo.Text "customer");
    ("source_id", Mongo.Text "c1"); ("embedding", Mongo.Vector [1; 0]%Q);
    ("text_content", Mongo.Text "Hooli tech");
    ("created_at", Mongo.Date 1000%Z)];
   [("_id", Mongo.Other 1); ("source_type", Mongo.Text "interaction");
    ("source_id", Mongo.Text "i1"); ("embedding", Mongo.Vector [1; 0]%Q);
    ("text_content", Mongo.Text "Asked for a quote pricing timeline");
    ("created_at", Mongo.Date 1000%Z)]]%string.

Definition search_found (query : string) (collection_type : option string)
           (limit : Z) : Mongo.outcome (list Mongo.document) :=
  Mongo.Done found.

(** An ISO parser that refuses the empty text. *)
Definition fromisoformat (s : string) : Mongo.outcome Mongo.pydatetime :=
  match s with
  | EmptyString => Mongo.Raised (Mongo.Exception "ValueError")
  | _ => Mongo.Done (Mongo.mkpydatetime 0 true)
  end.

(** A loader with the encoder of the sample documents. *)
Definition loader : Loader.PostgresRAGLoader :=
  Loader.mkPostgresRAGLoader Fixture.encoder 5.

(** A dataset of one customer and one call by sales person 21, and a
    server whose clock stands at 1000. *)
Definition hooli : Loader.CustomerDict.t :=
  Loader.CustomerDict.mk 7%N "Hooli" "tech" "large".

Definition hooli_call : Loader.InteractionDict.t :=
  Loader.InteractionDict.mk 70%N 7%N 21%N "call" "Asked for a quote"
                            "positive" ["pricing"%string].

Definition dataset : Loader.Dataset.t :=
  Loader.Dataset.mk [hooli] [hooli_call].

Definition NOW (crm : Crm) : datetime := 1000%Z.

(** A store with the sales person and nothing else, and an empty one. *)
Definition staffed : Crm := mkCrm (mkDB [] [] [] []) [alice] (fun _ => 0%N).
Definition fresh : Crm := mkCrm (mkDB [] [] [] []) [] (fun _ => 0%N).

End Sample.

(** ** Vocabulary of the properties *)

(** [a] is not below [b] in the order [lt]. *)
Definition not_below {A} (lt : A -> A -> bool) (a b : A) : Prop :=
  lt a b = false.

Module Props.
Import RagApi.

(** What a search has fetched when it answers. *)
Definition answers (get_embedding : string -> result vector)
           (cosine_distance : vector -> vector -> Q)
           (db : DB) (query : string)
           (conditions : vector -> list condition) (limit : Z)
           (resp : SearchResponse) : Prop :=
  exists query_embedding,
    get_embedding query = Ok query_embedding
    /\ let hits := select_documents cosine_distance db query_embedding
                     (conditions query_embedding) limit in
       resp = mkSearchResponse (map to_SearchResult hits)
                               (Z.of_nat (List.length hits)) query.

(** Exactly one of the two date bounds is set. *)
Definition partial_range (context : ContextFilter) : bool :=
  match start_date context, end_date context with
  | Some _, None | None, Some _ => true
  | _, _ => false
  end.

Definition without_dates (context : ContextFilter) : ContextFilter :=
  mkContextFilter (customer_id context) None None
                  (source_types context) (min_similarity context).

(** [s] is a number, and at least [m]. *)
Definition at_least (m : Q) (s : float8) : Prop :=
  match s with
  | Num x => (m <= x)%Q
  | NaN => False
  end.

(** [a] is at most [b] in the order of the store, which puts NaN above
    every number. *)
Definition float8_le (a b : float8) : Prop :=
  match a, b with
  | _, NaN => True
  | NaN, Num _ => False
  | Num x, Num y => (x <= y)%Q
  end.

(** [a] and [b] are equal in the order of the store. *)
Definition float8_eq (a b : float8) : Prop :=
  match a, b with
  | NaN, NaN => True
  | Num x, Num y => (x == y)%Q
  | _, _ => False
  end.

(** [d] passes the filter of [semantic_search] on the source type. *)
Definition of_source_type (source_type : option string)
           (d : DocumentEmbedding.t) : Prop :=
  match source_type with
  | Some (String c s) => DocumentEmbedding.source_type d = String c s
  | Some EmptyString | None => True
  end.

(** [d] passes the filters of [context] other than the threshold. *)
Definition in_context (context : ContextFilter) (d : DocumentEmbedding.t)
  : Prop :=
  (forall u, customer_id context = Some u ->
             DocumentEmbedding.source_id d = u)
  /\ (forall a b, start_date context = Some a -> end_date context = Some b ->
                  (a <= DocumentEmbedding.created_at d <= b)%Z)
  /\ (forall s l, source_types context = Some (s :: l) ->
                  In (DocumentEmbedding.source_type d) (s :: l)).

(** Descending similarity, in the order of the store: the results whose
    similarity is NaN first, then the others from the highest similarity
    down. *)
Definition by_similarity (r1 r2 : SearchResult) : Prop :=
  float8_le (similarity r2) (similarity r1).

(** Of two hits with the same similarity, the one created later comes
    first. *)
Definition recent_first_on_ties
           (hits : list (DocumentEmbedding.t * float8)) : Prop :=
  forall i j h1 h2,
    (i < j)%nat ->
    nth_error hits i = Some h1 -> nth_error hits j = Some h2 ->
    float8_eq (snd h1) (snd h2) ->
    (DocumentEmbedding.created_at (fst h2)
     <= DocumentEmbedding.created_at (fst h1))%Z.

(** The groups of the joined rows by type, notes, topics, sentiment and
    outcome, each with its size and its success rate, before any is
    dropped. *)
Definition interaction_groups (db : DB) (industry : string)
           (cutoff_date : datetime)
  : list Patterns.SuccessfulInteraction.t :=
  map Patterns.interaction_group
    (GROUP_BY Patterns.interaction_key_eq_dec Patterns.group_key
       (Patterns.industry_interactions db industry cutoff_date)).

(** The success rate of [g] is at least [min_success_rate]. *)
Definition success_rate_at_least (min_success_rate : Q)
           (g : Patterns.SuccessfulInteraction.t) : Prop :=
  exists rate,
    Patterns.SuccessfulInteraction.success_rate g = Some rate
    /\ (min_success_rate <= rate)%Q.

(** The retained groups of a type: the groups of interaction type [type]
    whose success rate is at least [min_success_rate]. *)
Definition retained_groups_of_type (db : DB) (industry : string)
           (cutoff_date : datetime) (min_success_rate : Q) (type : string)
  : list Patterns.SuccessfulInteraction.t :=
  filter
    (fun g =>
       String.eqb (Patterns.SuccessfulInteraction.type g) type
       && match Patterns.SuccessfulInteraction.success_rate g with
          | Some rate => Qle_bool min_success_rate rate
          | None => false
          end)
    (interaction_groups db industry cutoff_date).

(** Descending frequency. *)
Definition by_frequency (p1 p2 : Patterns.SalesPattern) : Prop :=
  (Patterns.frequency p2 <= Patterns.frequency p1)%Z.

(** The sum of the sizes of some groups. *)
Definition total_size (groups : list Patterns.SuccessfulInteraction.t) : Z :=
  Zsum (map Patterns.SuccessfulInteraction.frequency groups).

(** The store without the opportunities that are still in flight. *)
Definition closed_only (db : DB) : DB :=
  mkDB (customers db) (interactions db)
       (filter (fun o => Patterns.is_closed (Opportunity.status o))
               (opportunities db))
       (document_embeddings db).

(** The joined rows for an objection whose outcome is [status]. *)
Definition outcome_rows (db : DB) (objection_type status : string)
  : list (Interaction.t * Opportunity.t) :=
  filter (fun r => String.eqb (Opportunity.status (snd r)) status)
         (Patterns.objection_interactions db objection_type).

(** The groups into which the joined rows of outcome [status] fall: one
    for each (notes, next_steps, sentiment, outcome) that occurs among
    them. *)
Definition outcome_groups (db : DB) (objection_type status : string)
  : list Patterns.objection_key :=
  nodup Patterns.objection_key_eq_dec
    (map Patterns.objection_group_key
       (outcome_rows db objection_type status)).

End Props.

(** Speakers that take turns, the sales person first. *)
Definition taking_turns (n : nat) : list string :=
  map (fun k => if Nat.even k then "sales_person"%string
                else "customer"%string)
      (seq 0 n).

(** The turns of a day, in the order of the answer. *)
Definition on_day (day : Z) (turns : list History.ConversationTurn)
  : list History.ConversationTurn :=
  filter (fun t => (History.DATE (History.timestamp t) =? day)%Z) turns.

(** What every statement of the loader keeps, whatever its outcome. *)
Module LoadProps.
Import Loader.

(** The store has taken no sales person, no opportunity and no document,
    and has lost no row. *)
Definition extends (crm crm' : Crm) : Prop :=
  sales_people crm' = sales_people crm
  /\ opportunities (tables crm') = opportunities (tables crm)
  /\ document_embeddings (tables crm') = document_embeddings (tables crm)
  /\ (exists rows,
         customers (tables crm') = customers (tables crm) ++ rows)
  /\ (exists rows,
         interactions (tables crm') = interactions (tables crm) ++ rows).

End LoadProps.

Import Props.

(** ** Facts about the SQL operators *)

Section OrderByFacts.
Variable A : Type.
Variable lt : A -> A -> bool.
Hypothesis lt_asym : forall a b, lt a b = true -> lt b a = false.
Hypothesis ge_trans :
  forall a b c, lt a b = false -> lt b c = false -> lt a c = false.

Lemma insert_desc_perm (a : A) (l : list A) :
  Permutation (insert_desc lt a l) (a :: l).
Proof.
  induction l as [|b l IH]; simpl; [reflexivity|].
  destruct (lt a b); [|reflexivity].
  rewrite IH. apply perm_swap.
Qed.

Lemma ORDER_BY_DESC_perm (l : list A) : Permutation (ORDER_BY_DESC lt l) l.
Proof.
  induction l as [|a l IH]; simpl; [constructor|].
  rewrite insert_desc_perm. now constructor.
Qed.

Lemma insert_desc_sorted (a : A) (l : list A) :
  StronglySorted (not_below lt) l ->
  StronglySorted (not_below lt) (insert_desc lt a l).
Proof.
  induction 1 as [|b l Hl IH Hb]; simpl.
  - repeat constructor.
  - destruct (lt a b) eqn:Hab.
    + constructor; [exact IH|].
      eapply Permutation_Forall;
        [symmetry; apply insert_desc_perm|].
      constructor; [now apply lt_asym | exact Hb].
    + constructor; [now constructor|].
      constructor; [exact Hab|].
      eapply Forall_impl; [|exact Hb].
      intros c Hbc. now apply ge_trans with b.
Qed.

Lemma ORDER_BY_DESC_sorted (l : list A) :
  StronglySorted (not_below lt) (ORDER_BY_DESC lt l).
Proof.
  induction l as [|a l IH]; simpl; [constructor|].
  now apply insert_desc_sorted.
Qed.
End OrderByFacts.

Lemma firstn_In {A} (n : nat) (l : list A) (x : A) :
  In x (firstn n l) -> In x l.
Proof.
  revert l. induction n as [|n IH]; intros [|a l]; simpl; try tauto.
  intros [->|H]; [now left | right; now apply IH].
Qed.

Lemma StronglySorted_firstn {A} (R : A -> A -> Prop) (n : nat) (l : list A) :
  StronglySorted R l -> StronglySorted R (firstn n l).
Proof.
  intros H. revert n.
  induction H as [|a l Hl IH Ha]; intros [|n]; simpl; try constructor.
  - apply IH.
  - rewrite Forall_forall in *. intros x Hx.
    apply Ha. revert Hx. apply firstn_In.
Qed.

Lemma StronglySorted_map {A B} (R : A -> A -> Prop) (R' : B -> B -> Prop)
      (f : A -> B) (l : list A) :
  (forall a b, R a b -> R' (f a) (f b)) ->
  StronglySorted R l -> StronglySorted R' (map f l).
Proof.
  intros HR. induction 1 as [|a l Hl IH Ha]; simpl; constructor.
  - exact IH.
  - rewrite Forall_forall in *. intros y Hy.
    apply in_map_iff in Hy. destruct Hy as [x [<- Hx]]. auto.
Qed.

Lemma StronglySorted_impl {A} (R R' : A -> A -> Prop) (l : list A) :
  (forall a b, R a b -> R' a b) ->
  StronglySorted R l -> StronglySorted R' l.
Proof.
  intros HR H. rewrite <- (map_id l).
  now apply StronglySorted_map with (R := R).
Qed.

Lemma LIMIT_length {A} (n : Z) (l : list A) :
  (0 <= n)%Z -> (Z.of_nat (List.length (LIMIT n l)) <= n)%Z.
Proof.
  intros Hn. unfold LIMIT.
  pose proof (firstn_le_length (Z.to_nat n) l). lia.
Qed.

Lemma LIMIT_In {A} (n : Z) (l : list A) (x : A) :
  In x (LIMIT n l) -> In x l.
Proof. unfold LIMIT. apply firstn_In. Qed.

Lemma map_kept {A B} (f : A -> B) (keep : B -> bool) (l : list A) :
  filter keep (map f l) = map f (filter (fun a => keep (f a)) l).
Proof.
  induction l as [|a l IH]; simpl; [reflexivity|].
  rewrite IH. destruct (keep (f a)); reflexivity.
Qed.

(** A [WHERE] on the key may be applied before or after the keys are
    made distinct. *)
Lemma nodup_kept {Key} (Key_eq_dec : forall x y : Key, {x = y} + {x <> y})
      (keep : Key -> bool) (keys : list Key) :
  filter keep (nodup Key_eq_dec keys)
  = nodup Key_eq_dec (filter keep keys).
Proof.
  induction keys as [|k keys IH]; [reflexivity|].
  cbn [nodup filter].
  destruct (in_dec Key_eq_dec k keys) as [Hin|Hout].
  - rewrite IH. destruct (keep k) eqn:Ek; [|reflexivity].
    cbn [nodup].
    destruct (in_dec Key_eq_dec k (filter keep keys)) as [_|Hout];
      [reflexivity|].
    exfalso. apply Hout. apply filter_In. now split.
  - cbn [filter]. rewrite IH. destruct (keep k); [|reflexivity].
    cbn [nodup].
    destruct (in_dec Key_eq_dec k (filter keep keys)) as [Hin|_];
      [|reflexivity].
    exfalso. apply Hout. apply filter_In in Hin. tauto.
Qed.

Lemma Qltb_asym (x y : Q) : Qltb x y = true -> Qltb y x = false.
Proof.
  unfold Qltb. rewrite negb_true_iff, negb_false_iff, Qle_bool_iff.
  intros H. apply Qlt_le_weak, Qnot_le_lt.
  intros Hle. apply Qle_bool_iff in Hle. congruence.
Qed.

Lemma Qltb_false (x y : Q) : Qltb x y = false <-> (y <= x)%Q.
Proof. unfold Qltb. now rewrite negb_false_iff, Qle_bool_iff. Qed.

Lemma Qltb_true (x y : Q) : Qltb x y = true <-> (x < y)%Q.
Proof.
  unfold Qltb. rewrite negb_true_iff. split.
  - intros H. apply Qnot_le_lt. intros Hle.
    apply Qle_bool_iff in Hle. congruence.
  - intros H. destruct (Qle_bool y x) eqn:E; [|reflexivity].
    apply Qle_bool_iff in E. exfalso. now apply (Qlt_not_le x y).
Qed.

Lemma float8_lt_asym (a b : float8) :
  float8_lt a b = true -> float8_lt b a = false.
Proof.
  destruct a as [|x], b as [|y]; simpl; try congruence. apply Qltb_asym.
Qed.

Lemma float8_lt_false (a b : float8) :
  float8_lt a b = false <-> float8_le b a.
Proof.
  destruct a as [|x], b as [|y]; simpl; try tauto.
  - split; [discriminate | intros []].
  - apply Qltb_false.
Qed.

Lemma float8_le_trans (a b c : float8) :
  float8_le a b -> float8_le b c -> float8_le a c.
Proof.
  destruct a as [|x], b as [|y], c as [|z]; simpl; try tauto.
  apply Qle_trans.
Qed.

Lemma float8_lt_trans (a b c : float8) :
  float8_lt a b = false -> float8_lt b c = false -> float8_lt a c = false.
Proof.
  rewrite !float8_lt_false. intros H1 H2. now apply float8_le_trans with b.
Qed.

(** [>=] against a number holds of NaN and of the numbers that are at
    least the number. *)
Lemma float8_ge_Num (s : float8) (m : Q) :
  float8_ge s (Num m) = true <-> s = NaN \/ at_least m s.
Proof.
  unfold float8_ge. rewrite negb_true_iff, float8_lt_false.
  destruct s as [|x]; simpl.
  - split; [now left | trivial].
  - split; [now right | intros [H|H]; [discriminate | exact H]].
Qed.

(** The similarity of a document is NaN exactly when its embedding or
    the query's is a zero vector. *)
Lemma similarity_to_NaN cosine_distance q d :
  RagApi.similarity_to cosine_distance q d = NaN
  <-> RagApi.zero_vector (DocumentEmbedding.embedding d) = true
      \/ RagApi.zero_vector q = true.
Proof.
  unfold RagApi.similarity_to, RagApi.cosine_distance_operator.
  rewrite <- orb_true_iff.
  destruct (RagApi.zero_vector (DocumentEmbedding.embedding d)
            || RagApi.zero_vector q); simpl.
  - tauto.
  - split; discriminate.
Qed.

(** ** The two searches *)

Lemma Query_Ok {A} (default : A) (valid : A -> bool) (supplied : option A)
      (v : A) :
  Query default valid supplied = Ok v ->
  v = supplied_or default supplied /\ valid v = true.
Proof.
  unfold Query. destruct (valid (supplied_or default supplied)) eqn:E.
  - intros [= <-]. now split.
  - discriminate.
Qed.

Lemma try_except_500_Ok {A} (body : result A) (a : A) :
  try_except_500 body = Ok a -> body = Ok a.
Proof. destruct body; simpl; congruence. Qed.

Lemma semantic_where_threshold q m source_type :
  In (RagApi.similarity_ge q (Some m))
     (RagApi.semantic_where q m source_type).
Proof. now left. Qed.

Lemma contextual_where_threshold q context :
  In (RagApi.similarity_ge q (RagApi.min_similarity context))
     (RagApi.contextual_where q context).
Proof. now left. Qed.

(** The placeholders of [semantic_search] are bound to the values the
    clauses are about. *)
Lemma semantic_query_fetch cosine_distance db q m source_type limit :
  RagApi.fetch_documents cosine_distance db
    (fst (RagApi.semantic_query q m source_type)) limit
    (snd (RagApi.semantic_query q m source_type))
  = Ok (RagApi.select_documents cosine_distance db q
          (RagApi.semantic_where q m source_type) limit).
Proof. destruct source_type as [[|c s]|]; reflexivity. Qed.

(** So are those of [contextual_search], whichever filters are set. *)
Lemma contextual_query_fetch cosine_distance db q context limit :
  RagApi.fetch_documents cosine_distance db
    (fst (RagApi.contextual_query q context)) limit
    (snd (RagApi.contextual_query q context))
  = Ok (RagApi.select_documents cosine_distance db q
          (RagApi.contextual_where q context) limit).
Proof.
  destruct context as [[u|] [a|] [b|] [[|s l]|] m]; reflexivity.
Qed.

Section SearchFacts.
Import RagApi.

Variable get_embedding : string -> result vector.
Variable cosine_distance : vector -> vector -> Q.

Abbreviation select_documents := (select_documents cosine_distance).
Abbreviation similarity_to := (similarity_to cosine_distance).
Abbreviation holds := (holds cosine_distance).
Abbreviation semantic_search := (semantic_search get_embedding cosine_distance).
Abbreviation contextual_search :=
  (contextual_search get_embedding cosine_distance).

Abbreviation answers := (answers get_embedding cosine_distance).

Lemma semantic_search_Ok db query source_type limit min_similarity resp :
  semantic_search db query source_type limit min_similarity = Ok resp ->
  valid_limit (supplied_or 5%Z limit) = true
  /\ answers db query
       (fun q => semantic_where q (supplied_or (1 # 2)%Q min_similarity)
                   source_type)
       (supplied_or 5%Z limit) resp.
Proof.
  unfold semantic_search, bind.
  destruct (Query 5%Z valid_limit limit) as [l|] eqn:El; [|discriminate].
  destruct (Query (1 # 2)%Q valid_similarity min_similarity) as [m|] eqn:Em;
    [|discriminate].
  apply Query_Ok in El, Em. destruct El as [-> Hl], Em as [-> _].
  intros H. apply try_except_500_Ok in H.
  destruct (get_embedding query) as [q|] eqn:Eq; [|discriminate].
  pose proof (semantic_query_fetch cosine_distance db q
                (supplied_or (1 # 2)%Q min_similarity) source_type
                (supplied_or 5%Z limit)) as Hfetch.
  destruct (semantic_query q _ source_type) as [where_clauses params].
  simpl in Hfetch. rewrite Hfetch in H.
  injection H as <-. split; [exact Hl|].
  exists q. now split.
Qed.

Lemma contextual_search_Ok db query context limit resp :
  contextual_search db query context limit = Ok resp ->
  valid_limit (supplied_or 5%Z limit) = true
  /\ answers db query (fun q => contextual_where q context)
       (supplied_or 5%Z limit) resp.
Proof.
  unfold contextual_search, bind.
  destruct (Query 5%Z valid_limit limit) as [l|] eqn:El; [|discriminate].
  apply Query_Ok in El. destruct El as [-> Hl].
  destruct (valid_context context); [|discriminate].
  intros H. apply try_except_500_Ok in H.
  destruct (get_embedding query) as [q|] eqn:Eq; [|discriminate].
  pose proof (contextual_query_fetch cosine_distance db q context
                (supplied_or 5%Z limit)) as Hfetch.
  destruct (contextual_query q context) as [where_clauses params].
  simpl in Hfetch. rewrite Hfetch in H.
  injection H as <-. split; [exact Hl|].
  exists q. now split.
Qed.

Lemma select_documents_In db q where_clauses limit hit :
  In hit (select_documents db q where_clauses limit) ->
  In (fst hit) (document_embeddings db)
  /\ snd hit = similarity_to q (fst hit)
  /\ forallb (holds (fst hit)) where_clauses = true.
Proof.
  unfold RagApi.select_documents. intros H.
  apply LIMIT_In in H.
  apply (Permutation_in _ (ORDER_BY_DESC_perm _ _)) in H.
  apply in_map_iff in H. destruct H as [d [<- Hd]].
  apply filter_In in Hd. simpl. tauto.
Qed.

Lemma select_documents_sorted db q where_clauses limit :
  StronglySorted (fun h1 h2 => float8_le (snd h2) (snd h1))
    (select_documents db q where_clauses limit).
Proof.
  unfold RagApi.select_documents, LIMIT.
  apply StronglySorted_firstn.
  eapply StronglySorted_impl; [|apply ORDER_BY_DESC_sorted].
  - unfold not_below. intros a b H. now apply float8_lt_false.
  - intros a b. apply float8_lt_asym.
  - intros a b c. apply float8_lt_trans.
Qed.

(** Every hit passes the threshold clause: its similarity is NaN, or a
    number that is at least the threshold. *)
Lemma hits_above_threshold db q where_clauses limit m :
  In (similarity_ge q (Some m)) where_clauses ->
  Forall (fun r => similarity r = NaN \/ at_least m (similarity r))
    (map to_SearchResult (select_documents db q where_clauses limit)).
Proof.
  intros Hc. rewrite Forall_forall. intros r Hr.
  apply in_map_iff in Hr. destruct Hr as [hit [<- Hhit]].
  apply select_documents_In in Hhit. destruct Hhit as (_ & Hs & Hw).
  rewrite forallb_forall in Hw. specialize (Hw _ Hc).
  simpl in *. rewrite Hs. now apply float8_ge_Num.
Qed.

End SearchFacts.

Section AnswerFacts.
Import RagApi.

Variable get_embedding : string -> result vector.
Variable cosine_distance : vector -> vector -> Q.

Lemma answers_sorted db query where_clauses limit resp :
  answers get_embedding cosine_distance db query where_clauses limit resp ->
  StronglySorted by_similarity (results resp).
Proof.
  intros (q & _ & ->). simpl.
  eapply StronglySorted_map; [|apply select_documents_sorted].
  intros a b H. exact H.
Qed.

Lemma answers_limit db query where_clauses limit resp :
  answers get_embedding cosine_distance db query where_clauses limit resp ->
  valid_limit limit = true ->
  (Z.of_nat (List.length (results resp)) <= limit)%Z
  /\ total resp = Z.of_nat (List.length (results resp)).
Proof.
  intros (q & _ & ->) Hl. simpl. rewrite length_map. split; [|reflexivity].
  apply LIMIT_length. unfold valid_limit in Hl. lia.
Qed.

Lemma answers_threshold db query where_clauses limit resp m :
  answers get_embedding cosine_distance db query where_clauses limit resp ->
  (forall q, In (similarity_ge q (Some m)) (where_clauses q)) ->
  Forall (fun r => similarity r = NaN \/ at_least m (similarity r))
         (results resp).
Proof.
  intros (q & _ & ->) Hc. simpl. now apply hits_above_threshold.
Qed.

(** An explicit null threshold compares as unknown with every row, and
    no row is returned. *)
Lemma null_threshold_no_results db query context limit resp :
  contextual_search get_embedding cosine_distance db query context limit
  = Ok resp ->
  min_similarity context = None ->
  results resp = [].
Proof.
  intros H Hm. apply contextual_search_Ok in H.
  destruct H as (_ & q & _ & ->). simpl.
  destruct (select_documents _ _ _ _ _) as [|hit hits] eqn:E; [reflexivity|].
  assert (Hin : In hit (select_documents cosine_distance db q
                          (contextual_where q context)
                          (supplied_or 5%Z limit)))
    by (rewrite E; now left).
  apply select_documents_In in Hin. destruct Hin as (_ & _ & Hw).
  rewrite forallb_forall in Hw.
  specialize (Hw _ (contextual_where_threshold q context)).
  rewrite Hm in Hw. discriminate.
Qed.

End AnswerFacts.

(** A document whose similarity is NaN and that passes the conditions
    heads the hits. *)
Lemma select_documents_NaN_first cosine_distance db q where_clauses limit d :
  (1 <= limit)%Z ->
  In d (document_embeddings db) ->
  forallb (RagApi.holds cosine_distance d) where_clauses = true ->
  RagApi.similarity_to cosine_distance q d = NaN ->
  exists hit rest,
    RagApi.select_documents cosine_distance db q where_clauses limit
    = hit :: rest
    /\ snd hit = NaN.
Proof.
  intros Hl Hd Hw Hs. unfold RagApi.select_documents.
  set (lt := fun r1 r2 : DocumentEmbedding.t * float8 =>
               float8_lt (snd r1) (snd r2)).
  set (rows := map (fun d => (d, RagApi.similarity_to cosine_distance q d))
                 (filter (fun d => forallb (RagApi.holds cosine_distance d)
                                     where_clauses)
                    (document_embeddings db))).
  assert (Hin : In (d, NaN) (ORDER_BY_DESC lt rows)).
  { apply (Permutation_in _ (Permutation_sym (ORDER_BY_DESC_perm lt rows))).
    apply in_map_iff. exists d. rewrite Hs. split; [reflexivity|].
    apply filter_In. now split. }
  assert (HS : StronglySorted (not_below lt) (ORDER_BY_DESC lt rows)).
  { apply ORDER_BY_DESC_sorted.
    - intros a b. apply float8_lt_asym.
    - intros a b c. apply float8_lt_trans. }
  destruct (ORDER_BY_DESC lt rows) as [|hit sorted]; [destruct Hin|].
  exists hit, (firstn (Z.to_nat limit - 1) sorted). split.
  - unfold LIMIT. destruct (Z.to_nat limit) as [|n] eqn:En; [lia|].
    simpl. now rewrite Nat.sub_0_r.
  - destruct Hin as [->|Hin]; [reflexivity|].
    inversion HS as [|? ? _ Hhit]; subst.
    rewrite Forall_forall in Hhit. specialize (Hhit _ Hin).
    unfold not_below, lt in Hhit. simpl in Hhit.
    destruct (snd hit); [reflexivity | discriminate].
Qed.

Lemma zero_vector_holds cosine_distance q m d :
  RagApi.zero_vector (DocumentEmbedding.embedding d) = true ->
  RagApi.holds cosine_distance d (RagApi.similarity_ge q (Some m)) = true.
Proof.
  intros Hz. simpl. apply float8_ge_Num. left.
  apply similarity_to_NaN. now left.
Qed.

Lemma semantic_where_holds cosine_distance q m source_type d :
  RagApi.zero_vector (DocumentEmbedding.embedding d) = true ->
  of_source_type source_type d ->
  forallb (RagApi.holds cosine_distance d)
          (RagApi.semantic_where q m source_type) = true.
Proof.
  intros Hz Hs. unfold RagApi.semantic_where.
  cbn [forallb]. rewrite (zero_vector_holds cosine_distance q m d Hz).
  destruct source_type as [[|c s]|]; simpl; try reflexivity.
  simpl in Hs. rewrite Hs, String.eqb_refl. reflexivity.
Qed.

Lemma contextual_where_holds cosine_distance q context m d :
  RagApi.zero_vector (DocumentEmbedding.embedding d) = true ->
  RagApi.min_similarity context = Some m ->
  in_context context d ->
  forallb (RagApi.holds cosine_distance d)
          (RagApi.contextual_where q context) = true.
Proof.
  intros Hz Hm (Hu & Hab & Hs). unfold RagApi.contextual_where.
  cbn [forallb]. rewrite Hm, (zero_vector_holds cosine_distance q m d Hz).
  rewrite !forallb_app. simpl.
  assert (H1 : forallb (RagApi.holds cosine_distance d)
                 match RagApi.customer_id context with
                 | Some u => [RagApi.source_id_eq u]
                 | None => []
                 end = true).
  { destruct (RagApi.customer_id context) as [u|]; [|reflexivity].
    simpl. rewrite (Hu u eq_refl), N.eqb_refl. reflexivity. }
  assert (H2 : forallb (RagApi.holds cosine_distance d)
                 match RagApi.start_date context, RagApi.end_date context with
                 | Some a, Some b => [RagApi.created_at_between a b]
                 | _, _ => []
                 end = true).
  { destruct (RagApi.start_date context) as [a|]; [|reflexivity].
    destruct (RagApi.end_date context) as [b|]; [|reflexivity].
    simpl. destruct (Hab a b eq_refl eq_refl) as [Ha Hb].
    apply Z.leb_le in Ha, Hb. rewrite Ha, Hb. reflexivity. }
  assert (H3 : forallb (RagApi.holds cosine_distance d)
                 match RagApi.source_types context with
                 | Some (s :: l) => [RagApi.source_type_any (s :: l)]
                 | Some [] | None => []
                 end = true).
  { destruct (RagApi.source_types context) as [[|s l]|]; try reflexivity.
    cbn [forallb RagApi.holds]. rewrite andb_true_r.
    apply existsb_exists. exists (DocumentEmbedding.source_type d).
    split; [now apply Hs | apply String.eqb_refl]. }
  rewrite H1, H2, H3. reflexivity.
Qed.

(** A hit whose similarity is NaN heads the results of an answer, and is
    not at least any threshold. *)
Lemma answers_NaN_first
      (get_embedding : string -> result vector)
      (cosine_distance : vector -> vector -> Q)
      (db : DB) (query : string)
      (conditions : vector -> list RagApi.condition) (limit : Z)
      (resp : RagApi.SearchResponse) (d : DocumentEmbedding.t) (m : Q) :
  answers get_embedding cosine_distance db query conditions limit resp ->
  RagApi.valid_limit limit = true ->
  In d (document_embeddings db) ->
  RagApi.zero_vector (DocumentEmbedding.embedding d) = true ->
  (forall q, forallb (RagApi.holds cosine_distance d) (conditions q) = true) ->
  (exists r rest, RagApi.results resp = r :: rest
                  /\ RagApi.similarity r = NaN)
  /\ ~ Forall (fun r => at_least m (RagApi.similarity r))
              (RagApi.results resp).
Proof.
  intros (q & _ & ->) Hl Hd Hz Hw.
  destruct (@select_documents_NaN_first cosine_distance db q (conditions q)
              limit d) as (hit & rest & E & Hs); auto.
  { unfold RagApi.valid_limit in Hl. lia. }
  { apply similarity_to_NaN. now left. }
  simpl. rewrite E. simpl. split.
  - eexists. eexists. split; [reflexivity|]. exact Hs.
  - intros Hall. inversion Hall as [|? ? Hhit _]; subst.
    simpl in Hhit. rewrite Hs in Hhit. exact Hhit.
Qed.

(** C6: the threshold clause of [semantic_search] and [contextual_search]
    lets pass the results whose similarity is a number of at least the
    effective threshold (the supplied [min_similarity], or 0.5 when it is
    omitted), and those whose similarity is NaN.  A document whose
    embedding is a zero vector has the similarity NaN: when it passes
    the other filters of the call it is returned, at the head of the
    results, whatever the threshold, so the results are not all at
    least the threshold. *)
Theorem zero_vector_passes_min_similarity
        (get_embedding : string -> result vector)
        (cosine_distance : vector -> vector -> Q)
        (db : DB) (query : string) (limit : option Z)
        (min_similarity : option Q) (resp : RagApi.SearchResponse) :
  let m := supplied_or (1 # 2)%Q min_similarity in
  let zero_vector_document d :=
    In d (document_embeddings db)
    /\ RagApi.zero_vector (DocumentEmbedding.embedding d) = true in
  let NaN_first :=
    (exists r rest, RagApi.results resp = r :: rest
                    /\ RagApi.similarity r = NaN)
    /\ ~ Forall (fun r => at_least m (RagApi.similarity r))
                (RagApi.results resp) in
  (forall source_type,
      RagApi.semantic_search get_embedding cosine_distance db query
        source_type limit min_similarity = Ok resp ->
      Forall (fun r => RagApi.similarity r = NaN
                       \/ at_least m (RagApi.similarity r))
             (RagApi.results resp)
      /\ (forall d, zero_vector_document d -> of_source_type source_type d ->
                    NaN_first))
  /\ (forall customer_id start_date end_date source_types,
         let context :=
           RagApi.ContextFilter_of_body customer_id start_date end_date
             source_types min_similarity in
         RagApi.contextual_search get_embedding cosine_distance db query
           context limit = Ok resp ->
         Forall (fun r => RagApi.similarity r = NaN
                          \/ at_least m (RagApi.similarity r))
                (RagApi.results resp)
         /\ (forall d, zero_vector_document d -> in_context context d ->
                       NaN_first)).
Proof.
  intros m zero_vector_document NaN_first. split.
  - intros source_type H. apply semantic_search_Ok in H.
    destruct H as [Hl H]. split.
    + eapply answers_threshold; [exact H|].
      intros q. apply semantic_where_threshold.
    + intros d [Hd Hz] Hs.
      apply (@answers_NaN_first _ _ _ _ _ _ _ d m H Hl Hd Hz).
      intros q. now apply semantic_where_holds.
  - intros customer_id start_date end_date source_types context H.
    apply contextual_search_Ok in H. destruct H as [Hl H]. split.
    + eapply answers_threshold; [exact H|].
      intros q. apply (contextual_where_threshold q context).
    + intros d [Hd Hz] Hc.
      apply (@answers_NaN_first _ _ _ _ _ _ _ d m H Hl Hd Hz).
      intros q. now apply contextual_where_holds with m.
Qed.

Lemma zero_vector_passes_min_similarity_witness :
  exists resp r rest,
    RagApi.semantic_search Fixture.encoder Fixture.distance Fixture.documents
      "pricing" None None None = Ok resp
    /\ List.length (RagApi.results resp) = 4%nat
    /\ RagApi.results resp = r :: rest
    /\ r = RagApi.to_SearchResult (Fixture.doc_far, NaN)
    /\ ~ Forall (fun r => at_least (1 # 2) (RagApi.similarity r))
                (RagApi.results resp).
Proof.
  eexists. eexists. eexists. split; [reflexivity|].
  split; [reflexivity|]. split; [reflexivity|]. split; [reflexivity|].
  refine (proj2 (proj2 (proj1 (zero_vector_passes_min_similarity
                                 Fixture.encoder Fixture.distance
                                 Fixture.documents "pricing" None None _)
                              None eq_refl)
                       Fixture.doc_far _ I)).
  split; [right; right; left; reflexivity | reflexivity].
Defined.

(** C7: a successful [semantic_search] or [contextual_search] returns at
    most [limit] results (5 when [limit] is omitted), and [total] is the
    number of results returned. *)
Theorem results_within_limit_and_total
        (get_embedding : string -> result vector)
        (cosine_distance : vector -> vector -> Q)
        (db : DB) (query : string) (limit : option Z)
        (resp : RagApi.SearchResponse) :
  (forall source_type min_similarity,
      RagApi.semantic_search get_embedding cosine_distance db query
        source_type limit min_similarity = Ok resp ->
      (Z.of_nat (List.length (RagApi.results resp)) <= supplied_or 5 limit)%Z
      /\ RagApi.total resp = Z.of_nat (List.length (RagApi.results resp)))
  /\ (forall context,
         RagApi.contextual_search get_embedding cosine_distance db query
           context limit = Ok resp ->
         (Z.of_nat (List.length (RagApi.results resp)) <= supplied_or 5 limit)%Z
         /\ RagApi.total resp = Z.of_nat (List.length (RagApi.results resp))).
Proof.
  split.
  - intros source_type min_similarity H.
    apply semantic_search_Ok in H. destruct H as [Hl H].
    eapply answers_limit; eauto.
  - intros context H.
    apply contextual_search_Ok in H. destruct H as [Hl H].
    eapply answers_limit; eauto.
Qed.

Lemma results_within_limit_and_total_witness :
  exists resp,
    RagApi.semantic_search Fixture.encoder Fixture.distance Fixture.documents
      "pricing" None (Some 2%Z) None = Ok resp
    /\ (Z.of_nat (List.length (RagApi.results resp)) <= 2)%Z
    /\ RagApi.total resp = 2%Z.
Proof.
  eexists. split; [reflexivity|].
  destruct (proj1 (results_within_limit_and_total Fixture.encoder
                     Fixture.distance Fixture.documents "pricing"
                     (Some 2%Z) _) None None eq_refl) as [H1 H2].
  split; [exact H1 | exact H2].
Defined.

(** Two filters that pass validation alike and assemble the same clauses
    and parameters get the same answer. *)
Lemma contextual_search_same_query
      (get_embedding : string -> result vector)
      (cosine_distance : vector -> vector -> Q)
      (db : DB) (query : string) (limit : option Z)
      (context1 context2 : RagApi.ContextFilter) :
  RagApi.valid_context context1 = RagApi.valid_context context2 ->
  (forall q, RagApi.contextual_query q context1
             = RagApi.contextual_query q context2) ->
  RagApi.contextual_search get_embedding cosine_distance db query
    context1 limit
  = RagApi.contextual_search get_embedding cosine_distance db query
      context2 limit.
Proof.
  intros Hvalid Hquery. unfold RagApi.contextual_search, bind.
  rewrite Hvalid.
  destruct (Query 5%Z RagApi.valid_limit limit); [|reflexivity].
  destruct (RagApi.valid_context context2); [|reflexivity].
  destruct (get_embedding query) as [q|]; [|reflexivity].
  now rewrite Hquery.
Qed.

(** [if context.source_types:] an empty list adds no clause and no
    parameter, just as a missing one. *)
Lemma empty_source_types_same_query
      (query_embedding : vector) (customer_id : option UUID)
      (start_date end_date : option datetime) (min_similarity : option Q) :
  RagApi.contextual_query query_embedding
    (RagApi.mkContextFilter customer_id start_date end_date (Some [])
       min_similarity)
  = RagApi.contextual_query query_embedding
      (RagApi.mkContextFilter customer_id start_date end_date None
         min_similarity).
Proof.
  unfold RagApi.contextual_query. simpl.
  destruct customer_id, start_date, end_date; reflexivity.
Qed.

(** C10: [contextual_search] with an empty [source_types] list returns what
    the same call returns with [source_types] omitted. *)
Theorem empty_source_types_is_no_filter
        (get_embedding : string -> result vector)
        (cosine_distance : vector -> vector -> Q)
        (db : DB) (query : string) (limit : option Z)
        (customer_id : option UUID) (start_date end_date : option datetime)
        (min_similarity : option Q) :
  RagApi.contextual_search get_embedding cosine_distance db query
    (RagApi.mkContextFilter customer_id start_date end_date (Some [])
       min_similarity) limit
  = RagApi.contextual_search get_embedding cosine_distance db query
      (RagApi.mkContextFilter customer_id start_date end_date None
         min_similarity) limit.
Proof.
  apply contextual_search_same_query; [reflexivity|].
  intros q. apply empty_source_types_same_query.
Qed.

(** [if context.start_date and context.end_date:] a lone bound adds no
    clause and no parameter. *)
Lemma partial_range_same_query
      (query_embedding : vector) (context : RagApi.ContextFilter) :
  partial_range context = true ->
  RagApi.contextual_query query_embedding context
  = RagApi.contextual_query query_embedding (without_dates context).
Proof.
  destruct context as [customer_id [a|] [b|] source_types min_similarity];
    simpl; try discriminate; intros _;
    unfold RagApi.contextual_query; simpl;
    destruct customer_id; reflexivity.
Qed.

(** C1, as the code has it: a [ContextFilter] with exactly one of
    [start_date] and [end_date] set is not refused; the lone bound is left
    out of the query, and the call returns what it returns with neither
    bound set. *)
Theorem partial_date_range_ignored
        (get_embedding : string -> result vector)
        (cosine_distance : vector -> vector -> Q)
        (db : DB) (query : string) (context : RagApi.ContextFilter)
        (limit : option Z) :
  partial_range context = true ->
  RagApi.contextual_search get_embedding cosine_distance db query context limit
  = RagApi.contextual_search get_embedding cosine_distance db query
      (without_dates context) limit.
Proof.
  intros Hpartial.
  apply contextual_search_same_query; [reflexivity|].
  intros q. now apply partial_range_same_query.
Qed.

Lemma partial_date_range_ignored_witness :
  partial_range Fixture.since_150 = true
  /\ RagApi.contextual_search Fixture.encoder Fixture.distance
       Fixture.documents "pricing" Fixture.since_150 None
     = RagApi.contextual_search Fixture.encoder Fixture.distance
         Fixture.documents "pricing" (without_dates Fixture.since_150) None.
Proof.
  split; [reflexivity|].
  apply (partial_date_range_ignored Fixture.encoder Fixture.distance
           Fixture.documents "pricing" Fixture.since_150 None).
  reflexivity.
Defined.

(** C1, as stated, fails: with only [start_date] set (to 150) the call
    answers, and among its four results are the documents created at 50
    and at 100. *)
Lemma partial_date_range_not_refused :
  partial_range Fixture.since_150 = true
  /\ RagApi.contextual_search Fixture.encoder Fixture.distance
       Fixture.documents "pricing" Fixture.since_150 None
     = Ok (RagApi.mkSearchResponse
             (map RagApi.to_SearchResult
                  [(Fixture.doc_far, NaN); (Fixture.doc_best, Num 1);
                   (Fixture.doc_old, Num (3 # 4));
                   (Fixture.doc_new, Num (3 # 4))])
             4 "pricing")
  /\ ~ (exists e,
           RagApi.contextual_search Fixture.encoder Fixture.distance
             Fixture.documents "pricing" Fixture.since_150 None = Raise e).
Proof.
  split; [reflexivity|]. split; [reflexivity|].
  intros [e He]. discriminate He.
Qed.

(** C2, as the code has it: the results of a successful [semantic_search]
    or [contextual_search] are in descending order of similarity, in the
    order of the store: the results whose similarity is NaN come first,
    the others follow from the highest similarity down.  The query
    orders by similarity alone. *)
Theorem results_sorted_by_similarity
        (get_embedding : string -> result vector)
        (cosine_distance : vector -> vector -> Q)
        (db : DB) (query : string) (limit : option Z)
        (resp : RagApi.SearchResponse) :
  (forall source_type min_similarity,
      RagApi.semantic_search get_embedding cosine_distance db query
        source_type limit min_similarity = Ok resp ->
      StronglySorted by_similarity (RagApi.results resp))
  /\ (forall context,
         RagApi.contextual_search get_embedding cosine_distance db query
           context limit = Ok resp ->
         StronglySorted by_similarity (RagApi.results resp)).
Proof.
  split.
  - intros source_type min_similarity H.
    apply semantic_search_Ok in H. destruct H as [_ H].
    eapply answers_sorted; eauto.
  - intros context H.
    apply contextual_search_Ok in H. destruct H as [_ H].
    eapply answers_sorted; eauto.
Qed.

Lemma results_sorted_by_similarity_witness :
  exists resp,
    RagApi.contextual_search Fixture.encoder Fixture.distance
      Fixture.documents "pricing" Fixture.since_150 None = Ok resp
    /\ StronglySorted by_similarity (RagApi.results resp).
Proof.
  eexists. split; [reflexivity|].
  apply (proj2 (results_sorted_by_similarity Fixture.encoder Fixture.distance
                  Fixture.documents "pricing" None _) Fixture.since_150).
  reflexivity.
Defined.

(** C2, as stated, fails: two documents with the same similarity come back
    with the one created earlier (at 100) before the one created later
    (at 200). *)
Lemma ties_not_ordered_by_recency :
  let hits :=
    RagApi.select_documents Fixture.distance Fixture.documents [1; 0]%Q
      (RagApi.semantic_where [1; 0]%Q (1 # 2)%Q None) 5 in
  RagApi.semantic_search Fixture.encoder Fixture.distance Fixture.documents
    "pricing" None None None
  = Ok (RagApi.mkSearchResponse (map RagApi.to_SearchResult hits) 4 "pricing")
  /\ hits = [(Fixture.doc_far, NaN); (Fixture.doc_best, Num 1);
             (Fixture.doc_old, Num (3 # 4)); (Fixture.doc_new, Num (3 # 4))]
  /\ ~ recent_first_on_ties hits.
Proof.
  split; [reflexivity|]. split; [reflexivity|].
  intros H.
  specialize (H 2%nat 3%nat (Fixture.doc_old, Num (3 # 4))
                (Fixture.doc_new, Num (3 # 4))).
  simpl in H.
  assert (200 <= 100)%Z; [|lia].
  apply H; try reflexivity. lia.
Qed.

(** ** Grouping and validation *)

Section GroupByFacts.
Variables A K : Type.
Variable K_eq_dec : forall x y : K, {x = y} + {x <> y}.
Variable key : A -> K.

Lemma has_key_true (k : K) (r : A) :
  has_key K_eq_dec key k r = true <-> key r = k.
Proof. unfold has_key. destruct (K_eq_dec (key r) k); intuition congruence. Qed.

Lemma GROUP_BY_keys (rows : list A) :
  map fst (GROUP_BY K_eq_dec key rows) = nodup K_eq_dec (map key rows).
Proof. unfold GROUP_BY. rewrite map_map. simpl. apply map_id. Qed.

Lemma GROUP_BY_NoDup (rows : list A) :
  NoDup (map fst (GROUP_BY K_eq_dec key rows)).
Proof. rewrite GROUP_BY_keys. apply NoDup_nodup. Qed.

Lemma GROUP_BY_In (rows : list A) (g : K * list A) :
  In g (GROUP_BY K_eq_dec key rows) ->
  In (fst g) (map key rows)
  /\ snd g = filter (has_key K_eq_dec key (fst g)) rows.
Proof.
  unfold GROUP_BY. rewrite in_map_iff. intros [k [<- Hk]].
  apply nodup_In in Hk. now split.
Qed.

Lemma GROUP_BY_nonempty (rows : list A) (g : K * list A) :
  In g (GROUP_BY K_eq_dec key rows) -> snd g <> [].
Proof.
  intros H. apply GROUP_BY_In in H. destruct H as [Hk ->].
  apply in_map_iff in Hk. destruct Hk as [r [Hr Hin]].
  intros E.
  assert (Hf : In r (filter (has_key K_eq_dec key (fst g)) rows))
    by (apply filter_In; split; [exact Hin | now apply has_key_true]).
  rewrite E in Hf. exact Hf.
Qed.

(** Rows with pairwise distinct keys are each a group of their own. *)
Lemma GROUP_BY_distinct (rows : list A) :
  NoDup (map key rows) ->
  map fst (GROUP_BY K_eq_dec key rows) = map key rows.
Proof. intros H. rewrite GROUP_BY_keys. now apply nodup_fixed_point. Qed.
End GroupByFacts.

Lemma mapM_Ok {A B} (f : A -> result B) (l : list A) :
  (forall a, In a l -> exists b, f a = Ok b) ->
  exists l', mapM f l = Ok l' /\ Forall2 (fun a b => f a = Ok b) l l'.
Proof.
  induction l as [|a l IH]; intros H; simpl.
  - exists []. split; [reflexivity | constructor].
  - destruct (H a (or_introl eq_refl)) as [b Hb].
    destruct IH as [l' [Hl' HF]]; [intros x Hx; apply H; now right|].
    exists (b :: l'). rewrite Hb. simpl. rewrite Hl'. simpl.
    split; [reflexivity | now constructor].
Qed.

Lemma Forall2_In_r {A B} (R : A -> B -> Prop) (l : list A) (l' : list B)
      (b : B) :
  Forall2 R l l' -> In b l' -> exists a, In a l /\ R a b.
Proof.
  induction 1 as [|a b' l l' HR HF IH]; simpl; [tauto|].
  intros [->|Hb].
  - exists a. auto.
  - destruct (IH Hb) as [a' [Ha' HR']]. exists a'. auto.
Qed.

Lemma Forall2_map_eq {A B C} (R : A -> B -> Prop) (f : A -> C) (g : B -> C)
      (l : list A) (l' : list B) :
  (forall a b, R a b -> f a = g b) ->
  Forall2 R l l' -> map f l = map g l'.
Proof.
  intros H. induction 1; simpl; [reflexivity|].
  f_equal; auto.
Qed.

Lemma StronglySorted_Forall2 {A B} (R : A -> B -> Prop)
      (S : A -> A -> Prop) (S' : B -> B -> Prop) (l : list A) (l' : list B) :
  (forall a1 a2 b1 b2, R a1 b1 -> R a2 b2 -> S a1 a2 -> S' b1 b2) ->
  Forall2 R l l' -> StronglySorted S l -> StronglySorted S' l'.
Proof.
  intros H HF. induction HF as [|a b l l' HR HF IH]; intros HS.
  - constructor.
  - inversion HS as [|? ? HS' Ha]; subst. constructor; [now apply IH|].
    rewrite Forall_forall in *. intros b2 Hb2.
    eapply Forall2_In_r in Hb2; [|exact HF].
    destruct Hb2 as [a2 [Ha2 HR2]].
    eapply H; eauto.
Qed.

Lemma omit_nulls_map_Some {A B} (f : A -> option B) (l : list A) :
  (forall a, In a l -> f a <> None) -> l <> [] ->
  omit_nulls (map f l) <> [].
Proof.
  destruct l as [|a l]; [congruence|]. intros H _. simpl.
  destruct (f a) eqn:E; [discriminate|].
  exfalso. apply (H a); [now left | exact E].
Qed.

Lemma AVG_Some (l : list Q) : l <> [] -> exists q, AVG l = Some q.
Proof. destruct l; [congruence|]. intros _. simpl. eauto. Qed.

(** ** get_successful_patterns *)

Lemma Zltb_asym (x y : Z) : (x <? y)%Z = true -> (y <? x)%Z = false.
Proof. rewrite Z.ltb_lt, Z.ltb_ge. lia. Qed.

Lemma Zltb_ge_trans (x y z : Z) :
  (x <? y)%Z = false -> (y <? z)%Z = false -> (x <? z)%Z = false.
Proof. rewrite !Z.ltb_ge. lia. Qed.

Section SuccessfulPatternsFacts.
Import Patterns.

Variable db : DB.
Variable industry : string.
Variable cutoff_date : datetime.
Variable min_success_rate : Q.

Let retained :=
  successful_interactions db industry cutoff_date min_success_rate.
Let groups := GROUP_BY string_dec SuccessfulInteraction.type retained.
Let rows :=
  successful_patterns_query db industry cutoff_date min_success_rate.

Lemma retained_rate_not_null (r : SuccessfulInteraction.t) :
  In r retained -> SuccessfulInteraction.success_rate r <> None.
Proof.
  unfold retained, successful_interactions. rewrite filter_In.
  unfold rate_at_least. intros [_ H] E. rewrite E in H. discriminate.
Qed.

Lemma pattern_rows_perm : Permutation rows (map pattern_group groups).
Proof. apply ORDER_BY_DESC_perm. Qed.

(** The retained groups of a type are the rows of the type that the
    query's HAVING clause lets into [successful_interactions]. *)
Lemma retained_groups_of_type_HAVING (type : string) :
  retained_groups_of_type db industry cutoff_date min_success_rate type
  = filter (has_key string_dec SuccessfulInteraction.type type) retained.
Proof.
  unfold retained_groups_of_type, retained, successful_interactions,
    interaction_groups.
  induction (map interaction_group _) as [|g l IH]; [reflexivity|].
  cbn [filter]. unfold rate_at_least at 1, has_key.
  destruct (SuccessfulInteraction.success_rate g) as [rate|] eqn:Erate.
  - destruct (Qle_bool min_success_rate rate); cbn [filter].
    + unfold has_key. rewrite IH.
      destruct (string_dec (SuccessfulInteraction.type g) type) as [E|E].
      * apply String.eqb_eq in E. now rewrite E.
      * apply String.eqb_neq in E. now rewrite E.
    + rewrite andb_false_r. exact IH.
  - rewrite andb_false_r. exact IH.
Qed.

(** No group comes twice: two groups differ in their key. *)
Lemma retained_groups_of_type_NoDup (type : string) :
  NoDup (retained_groups_of_type db industry cutoff_date min_success_rate
           type).
Proof.
  unfold retained_groups_of_type, interaction_groups.
  apply NoDup_filter.
  apply (NoDup_map_inv
           (fun g => (SuccessfulInteraction.type g,
                      SuccessfulInteraction.notes g,
                      SuccessfulInteraction.topics g,
                      SuccessfulInteraction.sentiment g,
                      SuccessfulInteraction.outcome g))).
  rewrite map_map.
  rewrite (map_ext _ fst); [apply (GROUP_BY_NoDup interaction_key_eq_dec)|].
  intros [[[[[type' notes] topics] sentiment] status] joined]. reflexivity.
Qed.

Lemma retained_groups_of_type_In (type : string)
      (g : SuccessfulInteraction.t) :
  In g (retained_groups_of_type db industry cutoff_date min_success_rate
          type)
  <-> In g (interaction_groups db industry cutoff_date)
      /\ SuccessfulInteraction.type g = type
      /\ success_rate_at_least min_success_rate g.
Proof.
  unfold retained_groups_of_type, success_rate_at_least.
  rewrite filter_In, andb_true_iff, String.eqb_eq.
  destruct (SuccessfulInteraction.success_rate g) as [rate|].
  - rewrite Qle_bool_iff. split.
    + intros (Hg & Ht & Hrate). eauto.
    + intros (Hg & Ht & rate' & [= <-] & Hrate). auto.
  - split.
    + intros (_ & _ & H). discriminate.
    + intros (_ & _ & rate & H & _). discriminate.
Qed.

Lemma pattern_row_In (row : PatternRow.t) :
  In row rows ->
  exists q,
    row = PatternRow.mk (PatternRow.pattern_type row)
            (COUNT (retained_groups_of_type db industry cutoff_date
                      min_success_rate (PatternRow.pattern_type row)))
            (Some q)
            (PatternRow.example_interactions row)
    /\ AVG (omit_nulls
              (map SuccessfulInteraction.success_rate
                 (retained_groups_of_type db industry cutoff_date
                    min_success_rate (PatternRow.pattern_type row))))
       = Some q.
Proof.
  intros H. apply (Permutation_in _ pattern_rows_perm) in H.
  apply in_map_iff in H. destruct H as [g [<- Hg]].
  pose proof (GROUP_BY_nonempty _ _ _ _ Hg) as Hne.
  apply GROUP_BY_In in Hg. destruct Hg as [_ Hsnd].
  rewrite !retained_groups_of_type_HAVING.
  unfold pattern_group. simpl. rewrite <- Hsnd.
  destruct (AVG_Some (l := omit_nulls
              (map SuccessfulInteraction.success_rate (snd g)))) as [q Hq].
  - apply omit_nulls_map_Some; [|exact Hne].
    intros r Hr. apply retained_rate_not_null.
    rewrite Hsnd in Hr. apply filter_In in Hr. tauto.
  - exists q. rewrite Hq. now split.
Qed.

Lemma pattern_rows_sorted :
  StronglySorted
    (fun r1 r2 => (PatternRow.frequency r2 <= PatternRow.frequency r1)%Z)
    rows.
Proof.
  eapply StronglySorted_impl; [|apply ORDER_BY_DESC_sorted].
  - unfold not_below. intros a b H. now apply Z.ltb_ge.
  - intros a b. apply Zltb_asym.
  - intros a b c. apply Zltb_ge_trans.
Qed.

Lemma pattern_rows_types_NoDup : NoDup (map PatternRow.pattern_type rows).
Proof.
  eapply Permutation_NoDup.
  - symmetry. apply Permutation_map. apply pattern_rows_perm.
  - rewrite map_map. simpl. apply (GROUP_BY_NoDup string_dec).
Qed.
End SuccessfulPatternsFacts.

Lemma to_SalesPattern_Ok (row : Patterns.PatternRow.t) (p : Patterns.SalesPattern) :
  Patterns.to_SalesPattern row = Ok p ->
  Patterns.pattern_type p = Patterns.PatternRow.pattern_type row
  /\ Patterns.frequency p = Patterns.PatternRow.frequency row
  /\ Patterns.PatternRow.avg_success_rate row
     = Some (Patterns.avg_success_rate p).
Proof.
  unfold Patterns.to_SalesPattern.
  destruct (Patterns.PatternRow.avg_success_rate row); [|discriminate].
  intros [= <-]. simpl. auto.
Qed.

(** C3, as the code has it: the result has at most one pattern per
    interaction type; a pattern's [frequency] is the number of retained
    groups of its type (the groups of that type whose success rate is at
    least [min_success_rate], 0.6 when omitted), its [avg_success_rate]
    is the mean of those groups' success rates, and the patterns are in
    descending order of frequency. *)
Theorem successful_patterns_per_type
        (db : DB) (now : datetime) (industry : string)
        (min_success_rate : option Q) (days : option Z) :
  let rate := supplied_or (6 # 10)%Q min_success_rate in
  let cutoff_date := (now - timedelta (supplied_or 90 days))%Z in
  Patterns.valid_rate rate = true ->
  Patterns.valid_days (supplied_or 90%Z days) = true ->
  exists patterns,
    Patterns.get_successful_patterns db now industry min_success_rate days
    = Ok patterns
    /\ NoDup (map Patterns.pattern_type patterns)
    /\ StronglySorted by_frequency patterns
    /\ forall p, In p patterns ->
         let groups := retained_groups_of_type db industry cutoff_date rate
                         (Patterns.pattern_type p) in
         (forall g,
             In g groups
             <-> In g (interaction_groups db industry cutoff_date)
                 /\ Patterns.SuccessfulInteraction.type g
                    = Patterns.pattern_type p
                 /\ success_rate_at_least rate g)
         /\ NoDup groups
         /\ Patterns.frequency p = COUNT groups
         /\ AVG (omit_nulls
                   (map Patterns.SuccessfulInteraction.success_rate groups))
            = Some (Patterns.avg_success_rate p).
Proof.
  intros rate cutoff_date Hrate Hdays.
  unfold Patterns.get_successful_patterns, Query.
  fold rate. rewrite Hrate, Hdays. simpl. fold cutoff_date.
  destruct (mapM_Ok Patterns.to_SalesPattern
              (Patterns.successful_patterns_query db industry cutoff_date rate))
    as [patterns [HOk HF]].
  - intros row Hrow. apply pattern_row_In in Hrow.
    destruct Hrow as [q [Hrow _]]. rewrite Hrow.
    unfold Patterns.to_SalesPattern. simpl. eauto.
  - exists patterns. rewrite HOk. simpl. split; [reflexivity|].
    split; [|split].
    + erewrite <- Forall2_map_eq; [apply pattern_rows_types_NoDup| |exact HF].
      intros a b H. apply to_SalesPattern_Ok in H. symmetry. tauto.
    + eapply StronglySorted_Forall2; [|exact HF|apply pattern_rows_sorted].
      intros a1 a2 b1 b2 H1 H2 H.
      apply to_SalesPattern_Ok in H1, H2. unfold by_frequency.
      destruct H1 as (_ & -> & _), H2 as (_ & -> & _). exact H.
    + intros p Hp. eapply Forall2_In_r in Hp; [|exact HF].
      destruct Hp as [row [Hrow Hp]].
      apply to_SalesPattern_Ok in Hp. destruct Hp as (Ht & Hf & Ha).
      apply pattern_row_In in Hrow. destruct Hrow as [q [Hrow Hq]].
      split; [intros g; apply retained_groups_of_type_In|].
      split; [apply retained_groups_of_type_NoDup|].
      simpl. rewrite Ht, Hf, Hq, <- Ha.
      rewrite Hrow at 1. simpl. split; [reflexivity|].
      rewrite Hrow. reflexivity.
Qed.

Lemma successful_patterns_per_type_witness :
  exists patterns,
    Patterns.get_successful_patterns Fixture.sales 2000%Z "tech" None None
    = Ok patterns
    /\ NoDup (map Patterns.pattern_type patterns)
    /\ StronglySorted by_frequency patterns
    /\ forall p, In p patterns ->
         let groups :=
           retained_groups_of_type Fixture.sales "tech"
             (2000 - timedelta 90)%Z (6 # 10)%Q (Patterns.pattern_type p) in
         (forall g,
             In g groups
             <-> In g (interaction_groups Fixture.sales "tech"
                         (2000 - timedelta 90)%Z)
                 /\ Patterns.SuccessfulInteraction.type g
                    = Patterns.pattern_type p
                 /\ success_rate_at_least (6 # 10) g)
         /\ NoDup groups
         /\ Patterns.frequency p = COUNT groups
         /\ AVG (omit_nulls
                   (map Patterns.SuccessfulInteraction.success_rate groups))
            = Some (Patterns.avg_success_rate p).
Proof.
  apply (successful_patterns_per_type Fixture.sales 2000%Z "tech" None None);
    reflexivity.
Defined.

(** C3, as stated, fails: one call joined to two won opportunities makes
    one retained group of size 2; the pattern's frequency is 1, not 2. *)
Lemma pattern_frequency_is_not_total_size :
  exists p,
    Patterns.get_successful_patterns Fixture.sales 2000%Z "tech" None None
    = Ok [p]
    /\ Patterns.frequency p = 1%Z
    /\ total_size (retained_groups_of_type Fixture.sales "tech"
                     (2000 - timedelta 90)%Z (6 # 10)%Q
                     (Patterns.pattern_type p)) = 2%Z.
Proof. eexists. repeat split; reflexivity. Qed.

(** ** get_objection_handling *)

Section JoinFacts.
Variables A B : Type.
Variable on : A -> B -> bool.

Lemma JOIN_In (l : list A) (r : list B) (a : A) (b : B) :
  In (a, b) (JOIN on l r) <-> In a l /\ In b r /\ on a b = true.
Proof.
  unfold JOIN. rewrite in_flat_map. split.
  - intros [a' [Ha' H]]. apply in_map_iff in H.
    destruct H as [b' [[= <- <-] Hb']]. apply filter_In in Hb'. tauto.
  - intros (Ha & Hb & Hon). exists a. split; [exact Ha|].
    apply in_map_iff. exists b. split; [reflexivity|].
    apply filter_In. tauto.
Qed.

(** A WHERE clause that implies a condition on the right table sees the
    same rows when that table is cut down to the condition first. *)
Lemma filter_JOIN_right (P : A * B -> bool) (q : B -> bool)
      (l : list A) (r : list B) :
  (forall a b, P (a, b) = true -> q b = true) ->
  filter P (JOIN on l (filter q r)) = filter P (JOIN on l r).
Proof.
  intros HPq. unfold JOIN.
  induction l as [|a l IH]; simpl; [reflexivity|].
  rewrite !filter_app, IH. f_equal. clear IH.
  induction r as [|b r IH]; simpl; [reflexivity|].
  destruct (q b) eqn:Eq; simpl.
  - destruct (on a b); simpl; [|exact IH].
    destruct (P (a, b)); [f_equal|]; exact IH.
  - destruct (on a b); simpl; [|exact IH].
    destruct (P (a, b)) eqn:EP; [|exact IH].
    apply HPq in EP. congruence.
Qed.
End JoinFacts.

Lemma filter_nil {A} (p : A -> bool) (l : list A) :
  (forall a, In a l -> p a = false) -> filter p l = [].
Proof.
  induction l as [|a l IH]; intros H; simpl; [reflexivity|].
  rewrite (H a (or_introl eq_refl)). apply IH. intros x Hx. apply H. now right.
Qed.

Lemma existsb_eqb_false (s : string) (l : list string) :
  ~ In s l -> existsb (String.eqb s) l = false.
Proof.
  intros H. destruct (existsb (String.eqb s) l) eqn:E; [|reflexivity].
  apply existsb_exists in E. destruct E as [x [Hx E]].
  apply String.eqb_eq in E. subst. contradiction.
Qed.

Lemma objection_interactions_nil (db : DB) (objection_type : string) :
  (forall i, In i (interactions db) ->
             ~ In objection_type (Interaction.topics i)) ->
  Patterns.objection_interactions db objection_type = [].
Proof.
  intros H. unfold Patterns.objection_interactions.
  apply filter_nil. intros [i o] Hio. apply JOIN_In in Hio.
  simpl. rewrite existsb_eqb_false; [reflexivity|].
  apply H. tauto.
Qed.

(** The 404 of [get_objection_handling] is never seen by a caller: the
    query always yields a row, and the enclosing [except] turns every
    exception into status 500. *)
Lemma get_objection_handling_never_404 (db : DB) (objection_type : string) :
  status_of (Patterns.get_objection_handling db objection_type) <> Some 404%Z.
Proof.
  unfold Patterns.get_objection_handling, Patterns.objection_query. simpl.
  destruct (Patterns.to_ObjectionResponse _); simpl; congruence.
Qed.

(** C4, on the code: when no interaction's topics contain the objection
    type, the call fails with status 500 (a validation error on the
    all-NULL row), not with the 404 its [if not responses] branch raises. *)
Theorem no_matching_interaction_status_500
        (db : DB) (objection_type : string) :
  (forall i, In i (interactions db) ->
             ~ In objection_type (Interaction.topics i)) ->
  Patterns.fetchrow (Patterns.objection_query db objection_type)
  = Some (Patterns.ObjectionRow.mk objection_type None None None)
  /\ exists detail,
      Patterns.get_objection_handling db objection_type
      = Raise (HTTPException 500 detail).
Proof.
  intros H.
  unfold Patterns.get_objection_handling, Patterns.objection_query,
    Patterns.objection_responses.
  rewrite (objection_interactions_nil db objection_type H). simpl.
  split; [reflexivity|]. eexists. reflexivity.
Qed.

Lemma no_matching_interaction_status_500_witness :
  (forall i, In i (interactions Fixture.sales) ->
             ~ In "timeline"%string (Interaction.topics i))
  /\ status_of (Patterns.get_objection_handling Fixture.sales "timeline")
     = Some 500%Z.
Proof.
  assert (H : forall i, In i (interactions Fixture.sales) ->
                        ~ In "timeline"%string (Interaction.topics i)).
  { simpl. intros i [<-|[]]. simpl. intros [E|[]]. discriminate E. }
  split; [exact H|].
  destruct (no_matching_interaction_status_500 Fixture.sales "timeline" H)
    as [_ [detail ->]].
  reflexivity.
Defined.

Lemma objection_interactions_closed_only (db : DB) (objection_type : string) :
  Patterns.objection_interactions (closed_only db) objection_type
  = Patterns.objection_interactions db objection_type.
Proof.
  unfold Patterns.objection_interactions, closed_only. simpl.
  apply filter_JOIN_right with
    (q := fun o => Patterns.is_closed (Opportunity.status o)).
  intros i o H. simpl in H. apply andb_true_iff in H. tauto.
Qed.

Lemma objection_group_outcome
      (g : Patterns.objection_key * list (Interaction.t * Opportunity.t)) :
  Patterns.ObjectionGroup.outcome (Patterns.objection_group g) = snd (fst g).
Proof. destruct g as [[[[notes next_steps] sentiment] status] rows]. reflexivity. Qed.

Lemma inject_Z_COUNT_cons {A} (a : A) (l : list A) :
  (inject_Z (COUNT (a :: l)) == 1 + inject_Z (COUNT l))%Q.
Proof.
  unfold COUNT. simpl List.length. rewrite Nat2Z.inj_succ.
  unfold Z.succ. rewrite inject_Z_plus. ring.
Qed.

Lemma SUM_won_indicator {A} (status : A -> string) (rows : list A) :
  (SUM (map (fun r => Patterns.won_indicator (status r)) rows)
   == inject_Z (COUNT (filter (fun r => String.eqb (status r) "won") rows)))%Q.
Proof.
  induction rows as [|r rows IH]; simpl; [reflexivity|].
  unfold Patterns.won_indicator at 1.
  destruct (String.eqb (status r) "won").
  - rewrite inject_Z_COUNT_cons, IH. reflexivity.
  - rewrite IH. ring.
Qed.

Lemma COUNT_won_lost {A} (status : A -> string) (rows : list A) :
  Forall (fun r => Patterns.is_closed (status r) = true) rows ->
  COUNT rows
  = (COUNT (filter (fun r => String.eqb (status r) "won") rows)
     + COUNT (filter (fun r => String.eqb (status r) "lost") rows))%Z.
Proof.
  intros H. unfold COUNT. rewrite <- Nat2Z.inj_add. f_equal.
  induction H as [|r rows Hr _ IH]; simpl; [reflexivity|].
  unfold Patterns.is_closed in Hr.
  destruct (String.eqb (status r) "won") eqn:Ew.
  - apply String.eqb_eq in Ew. rewrite Ew. simpl. now rewrite IH.
  - simpl in Hr. rewrite Hr. simpl. rewrite IH. lia.
Qed.

Lemma objection_interactions_closed (db : DB) (objection_type : string) :
  Forall (fun r => Patterns.is_closed (Opportunity.status (snd r)) = true)
         (Patterns.objection_interactions db objection_type).
Proof.
  rewrite Forall_forall. intros r Hr.
  unfold Patterns.objection_interactions in Hr.
  apply filter_In in Hr. destruct Hr as [_ Hr].
  apply andb_true_iff in Hr. tauto.
Qed.

Lemma length_COUNT_map {A B} (f : A -> B) (l : list A) :
  COUNT (map f l) = COUNT l.
Proof. unfold COUNT. now rewrite length_map. Qed.

Lemma AVG_eq (l : list Q) (q : Q) :
  AVG l = Some q -> q = (SUM l / inject_Z (COUNT l))%Q.
Proof. destruct l; simpl; congruence. Qed.

Lemma get_objection_handling_rate (db : DB) (objection_type : string)
      (resp : Patterns.ObjectionResponse) :
  Patterns.get_objection_handling db objection_type = Ok resp ->
  AVG (map (fun g => Patterns.won_indicator (Patterns.ObjectionGroup.outcome g))
           (Patterns.objection_responses db objection_type))
  = Some (Patterns.success_rate resp).
Proof.
  unfold Patterns.get_objection_handling, Patterns.objection_query.
  simpl. intros H. apply try_except_500_Ok in H.
  unfold Patterns.to_ObjectionResponse in H. simpl in H.
  destruct (Patterns.jsonb_agg _); [|discriminate].
  destruct (AVG _); [|discriminate].
  destruct (MODE _); [|discriminate].
  injection H as <-. reflexivity.
Qed.

(** The outcomes of the groups are the outcomes in the distinct keys of
    the joined rows. *)
Lemma objection_group_outcomes (db : DB) (objection_type : string) :
  map (fun g => Patterns.won_indicator (Patterns.ObjectionGroup.outcome g))
      (Patterns.objection_responses db objection_type)
  = map (fun k : Patterns.objection_key => Patterns.won_indicator (snd k))
        (nodup Patterns.objection_key_eq_dec
           (map Patterns.objection_group_key
              (Patterns.objection_interactions db objection_type))).
Proof.
  unfold Patterns.objection_responses.
  rewrite <- (GROUP_BY_keys Patterns.objection_key_eq_dec
                Patterns.objection_group_key).
  rewrite !map_map. apply map_ext.
  intros g. now rewrite objection_group_outcome.
Qed.

(** The groups of an outcome are the keys of that outcome among the
    distinct keys of all joined rows. *)
Lemma outcome_groups_kept (db : DB) (objection_type status : string) :
  filter (fun k : Patterns.objection_key => String.eqb (snd k) status)
    (nodup Patterns.objection_key_eq_dec
       (map Patterns.objection_group_key
          (Patterns.objection_interactions db objection_type)))
  = outcome_groups db objection_type status.
Proof.
  unfold outcome_groups, outcome_rows.
  now rewrite nodup_kept, map_kept.
Qed.




(** ** analyze_competitor_mentions *)

(** The expression named [sentiment_distribution] sets an aggregate and
    a window call inside the aggregate [jsonb_object_agg]; the other
    expressions of the select list pass. *)
Lemma competitor_select_list_accepted :
  map (fun column => (snd column, accepted (fst column)))
      Patterns.competitor_select_list
  = [("competitor_name", true); ("mention_count", true); ("context", true);
     ("sentiment_distribution", false)]%string.
Proof. reflexivity. Qed.

Lemma competitor_query_refused
      (rows_of : DB -> UUID -> datetime -> Z -> list Patterns.CompetitorMention)
      (db : DB) (customer_id : UUID) (cutoff_date : datetime)
      (min_mentions : Z) :
  exists detail,
    Patterns.competitor_query rows_of db customer_id cutoff_date min_mentions
    = Raise (PostgresError detail).
Proof. eexists. reflexivity. Qed.



(** ** get_sales_suggestions *)

(** Where [suggest] answers, the executive-sponsorship risk factor is
    there exactly for a value above 100000. *)
Lemma suggest_risk_factor (context : Patterns.OpportunityContext.t)
      (s : Patterns.Suggestions) :
  Patterns.suggest context = Ok s ->
  (In Patterns.executive_sponsorship (Patterns.risk_factors s)
   <-> (100000 < Patterns.OpportunityContext.value context)%Q).
Proof.
  unfold Patterns.suggest, bind.
  destruct (mapM Patterns.topics_of _); [|discriminate].
  intros [= <-]. simpl.
  destruct (Qltb 100000 (Patterns.OpportunityContext.value context)) eqn:E.
  - apply Qltb_true in E. simpl. tauto.
  - apply Qltb_false in E. simpl. split; [tauto|].
    intros H. exfalso. now apply (Qlt_not_le _ _ H).
Qed.

(** With a call on record the suggestions for the opportunity worth 150000
    carry the risk factor, and those for the one worth 50000 do not. *)
Lemma suggestions_after_call :
  (exists s, Patterns.get_sales_suggestions Fixture.big_deal_after_call 7%N
             = Ok s
             /\ Patterns.risk_factors s = [Patterns.executive_sponsorship])
  /\ (exists s, Patterns.get_sales_suggestions Fixture.small_deal_after_call 7%N
                = Ok s
                /\ Patterns.risk_factors s = []).
Proof. split; eexists; split; reflexivity. Qed.

(** The trace on the sample store: opportunity 7 is there, worth 150000,
    its customer has no interaction on record; the row of the query has
    one recent interaction, all null; [suggest] raises on its topics. *)
Lemma big_deal_trace :
  map (fun o => (Opportunity.id o, Opportunity.value o))
      (opportunities Fixture.big_deal) = [(7%N, 150000)]
  /\ Patterns.suggestions_query Fixture.big_deal 7%N
     = [Patterns.OpportunityContext.mk 150000 "tech" "large"
          [Patterns.RecentInteraction.mk None None None] None]
  /\ Patterns.suggest
       (Patterns.OpportunityContext.mk 150000 "tech" "large"
          [Patterns.RecentInteraction.mk None None None] None)
     = Raise (TypeError "'NoneType' object is not iterable").
Proof. repeat split; reflexivity. Qed.

(** C9, on the code: for an opportunity that exists, with its customer,
    when the customer has no interaction on record, the LEFT JOIN row has
    null topics, iterating over them raises, and the call ends with
    status 500 and no suggestions at all, whatever the opportunity is
    worth. *)
Theorem opportunity_without_interactions_status_500
        (db : DB) (opportunity_id : UUID)
        (o : Opportunity.t) (os : list Opportunity.t)
        (c : Customer.t) (cs : list Customer.t) :
  filter (fun o => N.eqb (Opportunity.id o) opportunity_id)
         (opportunities db) = o :: os ->
  filter (fun c => N.eqb (Opportunity.customer_id o) (Customer.id c))
         (customers db) = c :: cs ->
  filter (fun i => N.eqb (Opportunity.customer_id o)
                         (Interaction.customer_id i))
         (interactions db) = [] ->
  status_of (Patterns.get_sales_suggestions db opportunity_id) = Some 500%Z.
Proof.
  intros Ho Hc Hi.
  unfold Patterns.get_sales_suggestions, Patterns.suggestions_query, JOIN.
  rewrite Ho. simpl. rewrite Hc. simpl.
  unfold LEFT_JOIN. simpl. rewrite Hi. reflexivity.
Qed.

Lemma opportunity_without_interactions_status_500_witness :
  Opportunity.value (Opportunity.mk 7%N 1%N "negotiating" 150000 900%Z)
  = 150000
  /\ status_of (Patterns.get_sales_suggestions Fixture.big_deal 7%N)
     = Some 500%Z.
Proof.
  split; [reflexivity|].
  apply (opportunity_without_interactions_status_500 Fixture.big_deal 7%N
           (o := Opportunity.mk 7%N 1%N "negotiating" 150000 900%Z)
           (os := []) (c := Fixture.acme) (cs := []));
    reflexivity.
Defined.

(** * Further properties of the endpoints *)

(** ** The two searches: failures, filters, best matches *)

Lemma status_of_Ok {A} (a : A) : status_of (Ok a) = None.
Proof. reflexivity. Qed.

Lemma Query_cases {A} (default : A) (valid : A -> bool) (supplied : option A) :
  (valid (supplied_or default supplied) = true
   /\ Query default valid supplied = Ok (supplied_or default supplied))
  \/ (valid (supplied_or default supplied) = false
      /\ exists detail,
          Query default valid supplied = Raise (HTTPException 422 detail)).
Proof.
  unfold Query. destruct (valid (supplied_or default supplied)).
  - left. now split.
  - right. split; [reflexivity|]. eexists. reflexivity.
Qed.

(** What [semantic_search] does with valid parameters. *)
Lemma semantic_search_valid
      (get_embedding : string -> result vector)
      (cosine_distance : vector -> vector -> Q)
      (db : DB) (query : string) (source_type : option string)
      (limit : option Z) (min_similarity : option Q) :
  RagApi.valid_limit (supplied_or 5%Z limit) = true ->
  RagApi.valid_similarity (supplied_or (1 # 2)%Q min_similarity) = true ->
  RagApi.semantic_search get_embedding cosine_distance db query source_type
    limit min_similarity
  = match get_embedding query with
    | Ok q =>
        let hits :=
          RagApi.select_documents cosine_distance db q
            (RagApi.semantic_where q (supplied_or (1 # 2)%Q min_similarity)
               source_type)
            (supplied_or 5%Z limit) in
        Ok (RagApi.mkSearchResponse (map RagApi.to_SearchResult hits)
              (Z.of_nat (List.length hits)) query)
    | Raise e => Raise (HTTPException 500 (str e))
    end.
Proof.
  intros Hl Hm. unfold RagApi.semantic_search, Query.
  rewrite Hl, Hm. simpl.
  destruct (get_embedding query) as [q|e]; [|reflexivity]. simpl.
  pose proof (semantic_query_fetch cosine_distance db q
                (supplied_or (1 # 2)%Q min_similarity) source_type
                (supplied_or 5%Z limit)) as Hfetch.
  destruct (RagApi.semantic_query q _ source_type) as [where_clauses params].
  simpl in Hfetch. rewrite Hfetch. reflexivity.
Qed.

(** What [contextual_search] does with valid parameters. *)
Lemma contextual_search_valid
      (get_embedding : string -> result vector)
      (cosine_distance : vector -> vector -> Q)
      (db : DB) (query : string) (context : RagApi.ContextFilter)
      (limit : option Z) :
  RagApi.valid_limit (supplied_or 5%Z limit) = true ->
  RagApi.valid_context context = true ->
  RagApi.contextual_search get_embedding cosine_distance db query context limit
  = match get_embedding query with
    | Ok q =>
        let hits :=
          RagApi.select_documents cosine_distance db q
            (RagApi.contextual_where q context) (supplied_or 5%Z limit) in
        Ok (RagApi.mkSearchResponse (map RagApi.to_SearchResult hits)
              (Z.of_nat (List.length hits)) query)
    | Raise e => Raise (HTTPException 500 (str e))
    end.
Proof.
  intros Hl Hc. unfold RagApi.contextual_search, Query.
  rewrite Hl, Hc. simpl.
  destruct (get_embedding query) as [q|e]; [|reflexivity]. simpl.
  pose proof (contextual_query_fetch cosine_distance db q context
                (supplied_or 5%Z limit)) as Hfetch.
  destruct (RagApi.contextual_query q context) as [where_clauses params].
  simpl in Hfetch. rewrite Hfetch. reflexivity.
Qed.

(** Settles the cases of an outcome: every side is an equation between
    results, or a conjunction or an existence of such. *)
Ltac settle_outcome :=
  repeat split; intros;
  repeat match goal with
         | H : exists _, _ |- _ => destruct H
         | H : _ /\ _ |- _ => destruct H
         end;
  try discriminate; try congruence; eauto;
  try match goal with
      | H : Raise _ = Raise _ |- exists _, _ =>
          injection H as <-; eexists;
          first [left; reflexivity | right; reflexivity]
      end.

(** X1: the outcomes of [semantic_search] and [contextual_search].  A call
    is refused with status 422 exactly when a parameter is out of
    bounds.  An answer needs parameters within their bounds and a vector
    from the encoder.  With the parameters within their bounds, an
    exception of the encoder comes out as status 500 with the
    exception's message.  Nothing but an answer, a 422 or a 500 leaves
    the endpoint. *)
Theorem search_outcomes
        (get_embedding : string -> result vector)
        (cosine_distance : vector -> vector -> Q)
        (db : DB) (query : string) (limit : option Z) :
  let outcome valid (r : result RagApi.SearchResponse) :=
    (status_of r = Some 422%Z <-> valid = false)
    /\ ((exists resp, r = Ok resp) ->
        valid = true /\ exists q, get_embedding query = Ok q)
    /\ (valid = true ->
        forall e, get_embedding query = Raise e ->
                  r = Raise (HTTPException 500 (str e)))
    /\ (forall e, r = Raise e ->
                  exists detail, e = HTTPException 422 detail
                                 \/ e = HTTPException 500 detail) in
  (forall source_type min_similarity,
      outcome
        (RagApi.valid_limit (supplied_or 5%Z limit)
         && RagApi.valid_similarity (supplied_or (1 # 2)%Q min_similarity))
        (RagApi.semantic_search get_embedding cosine_distance db query
           source_type limit min_similarity))
  /\ (forall context,
         outcome
           (RagApi.valid_limit (supplied_or 5%Z limit)
            && RagApi.valid_context context)
           (RagApi.contextual_search get_embedding cosine_distance db
              query context limit)).
Proof.
  intros outcome. subst outcome. cbv beta. split.
  - intros source_type min_similarity.
    destruct (RagApi.valid_limit (supplied_or 5%Z limit)) eqn:Hl;
      [destruct (RagApi.valid_similarity
                   (supplied_or (1 # 2)%Q min_similarity)) eqn:Hm|].
    + rewrite (semantic_search_valid _ _ _ _ _ _ _ Hl Hm). simpl.
      destruct (get_embedding query) as [q|e]; simpl; settle_outcome.
    + unfold RagApi.semantic_search, Query. rewrite Hl, Hm. simpl.
      settle_outcome.
    + unfold RagApi.semantic_search, Query. rewrite Hl. simpl.
      settle_outcome.
  - intros context.
    destruct (RagApi.valid_limit (supplied_or 5%Z limit)) eqn:Hl;
      [destruct (RagApi.valid_context context) eqn:Hc|].
    + rewrite (contextual_search_valid _ _ _ _ _ _ Hl Hc). simpl.
      destruct (get_embedding query) as [q|e]; simpl; settle_outcome.
    + unfold RagApi.contextual_search, Query. rewrite Hl, Hc. simpl.
      settle_outcome.
    + unfold RagApi.contextual_search, Query. rewrite Hl. simpl.
      settle_outcome.
Qed.

Lemma StronglySorted_app_inv {A} (R : A -> A -> Prop) (l1 l2 : list A) :
  StronglySorted R (l1 ++ l2) ->
  forall a b, In a l1 -> In b l2 -> R a b.
Proof.
  induction l1 as [|x l1 IH]; simpl; intros HS a b Ha Hb; [contradiction|].
  inversion HS as [|? ? HS' Hx]; subst.
  destruct Ha as [<-|Ha].
  - rewrite Forall_forall in Hx. apply Hx. apply in_or_app. now right.
  - now apply IH.
Qed.

(** What [ORDER BY .. DESC LIMIT n] leaves out is not above anything it
    keeps. *)
Lemma LIMIT_ORDER_BY_DESC_best {A} (lt : A -> A -> bool) (n : Z) (l : list A)
      (x : A) :
  (forall a b, lt a b = true -> lt b a = false) ->
  (forall a b c, lt a b = false -> lt b c = false -> lt a c = false) ->
  In x l ->
  In x (LIMIT n (ORDER_BY_DESC lt l))
  \/ Forall (fun y => lt y x = false) (LIMIT n (ORDER_BY_DESC lt l)).
Proof.
  intros Hasym Htrans Hx.
  pose proof (ORDER_BY_DESC_sorted lt Hasym Htrans l) as HS.
  apply (Permutation_in _ (Permutation_sym (ORDER_BY_DESC_perm lt l))) in Hx.
  unfold LIMIT.
  rewrite <- (firstn_skipn (Z.to_nat n) (ORDER_BY_DESC lt l)) in Hx, HS.
  apply in_app_or in Hx. destruct Hx as [Hx|Hx]; [now left|right].
  rewrite Forall_forall. intros y Hy.
  exact (StronglySorted_app_inv _ _ HS y x Hy Hx).
Qed.

(** Where a result of a search comes from. *)
Lemma answers_In
      (get_embedding : string -> result vector)
      (cosine_distance : vector -> vector -> Q)
      (db : DB) (query : string)
      (conditions : vector -> list RagApi.condition) (limit : Z)
      (resp : RagApi.SearchResponse) (r : RagApi.SearchResult) :
  answers get_embedding cosine_distance db query conditions limit resp ->
  In r (RagApi.results resp) ->
  exists q d,
    get_embedding query = Ok q
    /\ In d (document_embeddings db)
    /\ r = RagApi.to_SearchResult (d, RagApi.similarity_to cosine_distance q d)
    /\ forallb (RagApi.holds cosine_distance d) (conditions q) = true.
Proof.
  intros (q & Hq & ->) Hr. simpl in Hr.
  apply in_map_iff in Hr. destruct Hr as [[d s] [<- Hhit]].
  apply select_documents_In in Hhit. simpl in Hhit.
  destruct Hhit as (Hd & -> & Hw).
  exists q, d. auto.
Qed.

Lemma answers_best
      (get_embedding : string -> result vector)
      (cosine_distance : vector -> vector -> Q)
      (db : DB) (query : string)
      (conditions : vector -> list RagApi.condition) (limit : Z)
      (resp : RagApi.SearchResponse) (q : vector) (d : DocumentEmbedding.t) :
  answers get_embedding cosine_distance db query conditions limit resp ->
  get_embedding query = Ok q ->
  In d (document_embeddings db) ->
  forallb (RagApi.holds cosine_distance d) (conditions q) = true ->
  In (RagApi.to_SearchResult (d, RagApi.similarity_to cosine_distance q d))
     (RagApi.results resp)
  \/ Forall (fun r => float8_le (RagApi.similarity_to cosine_distance q d)
                                (RagApi.similarity r))
            (RagApi.results resp).
Proof.
  intros (q' & Hq' & ->) Hq Hd Hw.
  assert (q' = q) as -> by congruence. simpl.
  unfold RagApi.select_documents.
  destruct (LIMIT_ORDER_BY_DESC_best
              (fun r1 r2 : DocumentEmbedding.t * float8 =>
                 float8_lt (snd r1) (snd r2))
              limit
              (map (fun d => (d, RagApi.similarity_to cosine_distance q d))
                 (filter (fun d => forallb (RagApi.holds cosine_distance d)
                                     (conditions q))
                    (document_embeddings db)))
              (d, RagApi.similarity_to cosine_distance q d)) as [Hin|Hall].
  - intros a b. apply float8_lt_asym.
  - intros a b c. apply float8_lt_trans.
  - apply in_map_iff. exists d. split; [reflexivity|].
    apply filter_In. now split.
  - left. apply in_map_iff. eexists. split; [|exact Hin]. reflexivity.
  - right. rewrite Forall_forall in *. intros r Hr.
    apply in_map_iff in Hr. destruct Hr as [hit [<- Hhit]].
    specialize (Hall hit Hhit). simpl in Hall.
    now apply float8_lt_false in Hall.
Qed.

(** X2: a filter of a search holds of every result: the [source_type] of
    [semantic_search] when it is not empty, the [customer_id] of
    [contextual_search] (matched against the document's [source_id]) and
    its [source_types] when the list is not empty. *)
Theorem search_filters_hold
        (get_embedding : string -> result vector)
        (cosine_distance : vector -> vector -> Q)
        (db : DB) (query : string) (limit : option Z)
        (resp : RagApi.SearchResponse) (r : RagApi.SearchResult) :
  In r (RagApi.results resp) ->
  (forall c s min_similarity,
      RagApi.semantic_search get_embedding cosine_distance db query
        (Some (String c s)) limit min_similarity = Ok resp ->
      RagApi.source_type r = String c s)
  /\ (forall context,
         RagApi.contextual_search get_embedding cosine_distance db query
           context limit = Ok resp ->
         (forall u, RagApi.customer_id context = Some u ->
                    RagApi.source_id r = u)
         /\ (forall s l, RagApi.source_types context = Some (s :: l) ->
                         In (RagApi.source_type r) (s :: l))).
Proof.
  intros Hr. split.
  - intros c s min_similarity H.
    apply semantic_search_Ok in H. destruct H as [_ H].
    eapply answers_In in Hr; [|exact H].
    destruct Hr as (q & d & _ & _ & -> & Hw).
    rewrite forallb_forall in Hw.
    specialize (Hw (RagApi.source_type_eq (String c s))).
    simpl in *. apply String.eqb_eq. apply Hw. auto.
  - intros context H.
    apply contextual_search_Ok in H. destruct H as [_ H].
    eapply answers_In in Hr; [|exact H].
    destruct Hr as (q & d & _ & _ & -> & Hw).
    rewrite forallb_forall in Hw. split.
    + intros u Hu.
      specialize (Hw (RagApi.source_id_eq u)). simpl in *.
      apply N.eqb_eq. apply Hw. unfold RagApi.contextual_where.
      rewrite Hu. simpl. auto.
    + intros s l Hs.
      specialize (Hw (RagApi.source_type_any (s :: l))).
      cbn [RagApi.holds RagApi.to_SearchResult RagApi.source_type fst] in *.
      assert (Hex : existsb (String.eqb (DocumentEmbedding.source_type d))
                            (s :: l) = true).
      { apply Hw. unfold RagApi.contextual_where. rewrite Hs.
        right. apply in_or_app. right. apply in_or_app. right. now left. }
      apply existsb_exists in Hex. destruct Hex as [x [Hx E]].
      apply String.eqb_eq in E. now rewrite E.
Qed.

Lemma search_filters_hold_witness :
  exists resp r,
    RagApi.semantic_search Fixture.encoder Fixture.distance Fixture.documents
      "pricing" (Some "customer"%string) None None = Ok resp
    /\ RagApi.results resp
       = [RagApi.to_SearchResult (Fixture.doc_far, NaN); r]
    /\ RagApi.source_type r = "customer"%string.
Proof.
  eexists. eexists. split; [reflexivity|]. split; [reflexivity|].
  refine (proj1 (search_filters_hold Fixture.encoder Fixture.distance
                   Fixture.documents "pricing" None _ _ _)
                _ _ None eq_refl).
  right. left. reflexivity.
Defined.

(** X3: with both [start_date] and [end_date] set, every result of
    [contextual_search] is the row of a document created between the two
    dates, bounds included. *)
Theorem search_date_range_holds
        (get_embedding : string -> result vector)
        (cosine_distance : vector -> vector -> Q)
        (db : DB) (query : string) (limit : option Z)
        (context : RagApi.ContextFilter)
        (resp : RagApi.SearchResponse) (r : RagApi.SearchResult)
        (a b : datetime) :
  RagApi.contextual_search get_embedding cosine_distance db query
    context limit = Ok resp ->
  RagApi.start_date context = Some a ->
  RagApi.end_date context = Some b ->
  In r (RagApi.results resp) ->
  exists d similarity,
    In d (document_embeddings db)
    /\ r = RagApi.to_SearchResult (d, similarity)
    /\ (a <= DocumentEmbedding.created_at d <= b)%Z.
Proof.
  intros H Ha Hb Hr.
  apply contextual_search_Ok in H. destruct H as [_ H].
  eapply answers_In in Hr; [|exact H].
  destruct Hr as (q & d & _ & Hd & -> & Hw).
  exists d. eexists. split; [exact Hd|]. split; [reflexivity|].
  rewrite forallb_forall in Hw.
  specialize (Hw (RagApi.created_at_between a b)). simpl in Hw.
  assert (Hin : In (RagApi.created_at_between a b)
                   (RagApi.contextual_where q context)).
  { unfold RagApi.contextual_where. rewrite Ha, Hb.
    right. apply in_or_app. right. apply in_or_app. left. now left. }
  apply Hw in Hin. apply andb_true_iff in Hin.
  rewrite !Z.leb_le in Hin. exact Hin.
Qed.

Lemma search_date_range_holds_witness :
  exists resp r,
    RagApi.contextual_search Fixture.encoder Fixture.distance
      Fixture.documents "pricing"
      (RagApi.mkContextFilter None (Some 60%Z) (Some 250%Z) None
         (Some (1 # 2)%Q)) None = Ok resp
    /\ In r (RagApi.results resp)
    /\ exists d similarity,
        In d (document_embeddings Fixture.documents)
        /\ r = RagApi.to_SearchResult (d, similarity)
        /\ (60 <= DocumentEmbedding.created_at d <= 250)%Z.
Proof.
  eexists. eexists. split; [reflexivity|].
  assert (Hr : In (RagApi.to_SearchResult (Fixture.doc_old, Num (3 # 4)))
                  (map RagApi.to_SearchResult
                     [(Fixture.doc_old, Num (3 # 4));
                      (Fixture.doc_new, Num (3 # 4))]))
    by (left; reflexivity).
  split; [exact Hr|].
  exact (search_date_range_holds Fixture.encoder Fixture.distance
           Fixture.documents "pricing" None
           (RagApi.mkContextFilter None (Some 60%Z) (Some 250%Z) None
              (Some (1 # 2)%Q))
           _ eq_refl eq_refl eq_refl Hr).
Defined.

(** X4: a search returns the best matches in the order of the store, which
    puts NaN above every number: a document that passes every condition
    of the query and is not among the results has a similarity that is
    not above any result's in that order. *)
Theorem search_returns_best_matches
        (get_embedding : string -> result vector)
        (cosine_distance : vector -> vector -> Q)
        (db : DB) (query : string) (limit : option Z)
        (resp : RagApi.SearchResponse) (q : vector) (d : DocumentEmbedding.t) :
  get_embedding query = Ok q ->
  In d (document_embeddings db) ->
  let result_of_d :=
    RagApi.to_SearchResult (d, RagApi.similarity_to cosine_distance q d) in
  let not_above_results :=
    Forall (fun r => float8_le (RagApi.similarity_to cosine_distance q d)
                               (RagApi.similarity r))
           (RagApi.results resp) in
  (forall source_type min_similarity,
      RagApi.semantic_search get_embedding cosine_distance db query
        source_type limit min_similarity = Ok resp ->
      forallb (RagApi.holds cosine_distance d)
              (RagApi.semantic_where q (supplied_or (1 # 2)%Q min_similarity)
                 source_type) = true ->
      In result_of_d (RagApi.results resp) \/ not_above_results)
  /\ (forall context,
         RagApi.contextual_search get_embedding cosine_distance db query
           context limit = Ok resp ->
         forallb (RagApi.holds cosine_distance d)
                 (RagApi.contextual_where q context) = true ->
         In result_of_d (RagApi.results resp) \/ not_above_results).
Proof.
  intros Hq Hd result_of_d not_above_results. split.
  - intros source_type min_similarity H Hw.
    apply semantic_search_Ok in H. destruct H as [_ H].
    exact (answers_best _ H Hq Hd Hw).
  - intros context H Hw.
    apply contextual_search_Ok in H. destruct H as [_ H].
    exact (answers_best _ H Hq Hd Hw).
Qed.

Lemma search_returns_best_matches_witness :
  exists resp,
    RagApi.semantic_search Fixture.encoder Fixture.distance Fixture.documents
      "pricing" None (Some 1%Z) None = Ok resp
    /\ RagApi.results resp = [RagApi.to_SearchResult (Fixture.doc_far, NaN)]
    /\ (In (RagApi.to_SearchResult (Fixture.doc_best, Num 1))
           (RagApi.results resp)
        \/ Forall (fun r => float8_le (Num 1) (RagApi.similarity r))
                  (RagApi.results resp)).
Proof.
  eexists. split; [reflexivity|]. split; [reflexivity|].
  refine (proj1 (@search_returns_best_matches Fixture.encoder
                   Fixture.distance Fixture.documents "pricing" (Some 1%Z) _
                   [1; 0]%Q Fixture.doc_best eq_refl _)
                None None eq_refl eq_refl).
  right. right. right. left. reflexivity.
Defined.

(** X5: a [ContextFilter] whose [min_similarity] is an explicit null makes
    [contextual_search] return no result at all: the threshold clause
    compares every row with NULL. *)
Theorem null_min_similarity_returns_nothing
        (get_embedding : string -> result vector)
        (cosine_distance : vector -> vector -> Q)
        (db : DB) (query : string) (context : RagApi.ContextFilter)
        (limit : option Z) (resp : RagApi.SearchResponse) :
  RagApi.contextual_search get_embedding cosine_distance db query context limit
  = Ok resp ->
  RagApi.min_similarity context = None ->
  RagApi.results resp = [] /\ RagApi.total resp = 0%Z.
Proof.
  intros H Hm. pose proof H as H'.
  apply contextual_search_Ok in H'. destruct H' as (_ & q & _ & Hresp).
  assert (Hnil : RagApi.results resp = []).
  { destruct (RagApi.results resp) as [|r rs] eqn:E; [reflexivity|].
    assert (Hr : In r (RagApi.results resp)) by (rewrite E; now left).
    apply contextual_search_Ok in H. destruct H as [_ H].
    eapply answers_In in Hr; [|exact H].
    destruct Hr as (q' & d & _ & _ & _ & Hw).
    rewrite forallb_forall in Hw.
    specialize (Hw _ (contextual_where_threshold q' context)).
    rewrite Hm in Hw. discriminate. }
  split; [exact Hnil|].
  rewrite Hresp in *. simpl in *.
  apply map_eq_nil in Hnil. now rewrite Hnil.
Qed.

Lemma null_min_similarity_returns_nothing_witness :
  exists resp,
    RagApi.contextual_search Fixture.encoder Fixture.distance
      Fixture.documents "pricing"
      (RagApi.mkContextFilter None None None None None) None = Ok resp
    /\ RagApi.results resp = [] /\ RagApi.total resp = 0%Z.
Proof.
  eexists. split; [reflexivity|].
  exact (null_min_similarity_returns_nothing Fixture.encoder Fixture.distance
           Fixture.documents "pricing"
           (RagApi.mkContextFilter None None None None None) None
           eq_refl eq_refl).
Defined.

(** ** get_successful_patterns: what the rates and frequencies are *)

Lemma GROUP_BY_same_key {A K} (K_eq_dec : forall x y : K, {x = y} + {x <> y})
      (key : A -> K) (rows : list A) (g : K * list A) (r : A) :
  In g (GROUP_BY K_eq_dec key rows) -> In r (snd g) ->
  In r rows /\ key r = fst g.
Proof.
  intros Hg Hr. apply GROUP_BY_In in Hg. destruct Hg as [_ Hsnd].
  rewrite Hsnd in Hr. apply filter_In in Hr. destruct Hr as [Hin Hk].
  split; [exact Hin|]. now apply has_key_true in Hk.
Qed.

Lemma SUM_const (l : list Q) (c : Q) :
  (forall x, In x l -> (x == c)%Q) ->
  (SUM l == c * inject_Z (COUNT l))%Q.
Proof.
  induction l as [|x l IH]; intros H.
  - simpl. change (inject_Z (COUNT [])) with 0%Q. ring.
  - cbn [SUM fold_right]. fold (SUM l).
    assert (Hx : (x == c)%Q) by (apply H; now left).
    assert (Hl : (SUM l == c * inject_Z (COUNT l))%Q)
      by (apply IH; intros y Hy; apply H; now right).
    rewrite inject_Z_COUNT_cons, Hl, Hx. ring.
Qed.

Lemma inject_Z_COUNT_nonzero {A} (l : list A) :
  l <> [] -> ~ (inject_Z (COUNT l) == 0)%Q.
Proof.
  destruct l as [|a l]; [congruence|]. intros _ H.
  rewrite inject_Z_COUNT_cons in H.
  assert (0 <= inject_Z (COUNT l))%Q.
  { change 0%Q with (inject_Z 0). rewrite <- Zle_Qle. unfold COUNT. lia. }
  lra.
Qed.

(** The mean of values that all equal [c] is [c]. *)
Lemma AVG_const (l : list Q) (c : Q) :
  l <> [] -> (forall x, In x l -> (x == c)%Q) ->
  exists q, AVG l = Some q /\ (q == c)%Q.
Proof.
  intros Hne H. destruct (AVG_Some Hne) as [q Hq].
  exists q. split; [exact Hq|].
  apply AVG_eq in Hq. rewrite Hq, (SUM_const l H).
  apply Qdiv_mult_l. now apply inject_Z_COUNT_nonzero.
Qed.

Lemma omit_nulls_In {A B} (f : A -> option B) (l : list A) (b : B) :
  In b (omit_nulls (map f l)) <-> exists a, In a l /\ f a = Some b.
Proof.
  unfold omit_nulls. rewrite in_flat_map. split.
  - intros [o [Ho Hb]]. apply in_map_iff in Ho. destruct Ho as [a [<- Ha]].
    destruct (f a) as [b'|] eqn:E; simpl in Hb; [|contradiction].
    destruct Hb as [<-|[]]. eauto.
  - intros [a [Ha E]]. exists (Some b). split; [|now left].
    apply in_map_iff. eauto.
Qed.

(** A retained group holds rows of one outcome; its success rate is 1 when
    that outcome is won and 0 otherwise. *)
Lemma retained_group_rate (db : DB) (industry : string)
      (cutoff_date : datetime) (min_success_rate : Q)
      (r : Patterns.SuccessfulInteraction.t) :
  In r (Patterns.successful_interactions db industry cutoff_date
          min_success_rate) ->
  exists q,
    Patterns.SuccessfulInteraction.success_rate r = Some q
    /\ (q == Patterns.won_indicator (Patterns.SuccessfulInteraction.outcome r))%Q
    /\ (min_success_rate <= q)%Q
    /\ (1 <= Patterns.SuccessfulInteraction.frequency r)%Z.
Proof.
  unfold Patterns.successful_interactions. rewrite filter_In.
  intros [Hr Hrate]. apply in_map_iff in Hr. destruct Hr as [g [<- Hg]].
  pose proof (GROUP_BY_nonempty _ _ _ _ Hg) as Hne.
  assert (Hkey : forall row, In row (snd g) ->
                   Patterns.group_key row = fst g)
    by (intros row Hrow; eapply GROUP_BY_same_key; eauto).
  destruct g as [[[[[type notes] topics] sentiment] status] rows].
  simpl in *.
  destruct (AVG_const
              (l := map (fun r => Patterns.won_indicator
                                    (Opportunity.status (snd (fst r)))) rows)
              (c := Patterns.won_indicator status)) as [q [Hq Hc]].
  - destruct rows; [congruence|discriminate].
  - intros x Hx. apply in_map_iff in Hx. destruct Hx as [row [<- Hrow]].
    specialize (Hkey row Hrow). destruct row as [[i o] c].
    simpl in Hkey |- *. injection Hkey as _ _ _ _ Hstatus.
    rewrite Hstatus. reflexivity.
  - exists q. unfold Patterns.rate_at_least in Hrate. simpl in Hrate.
    rewrite Hq in Hrate |- *. split; [reflexivity|]. split; [exact Hc|].
    split; [now apply Qle_bool_iff|].
    unfold COUNT. destruct rows; [congruence|]. simpl List.length. lia.
Qed.

(** Where a pattern of an answer comes from. *)
Lemma get_successful_patterns_In
      (db : DB) (now : datetime) (industry : string)
      (min_success_rate : option Q) (days : option Z)
      (patterns : list Patterns.SalesPattern) (p : Patterns.SalesPattern) :
  Patterns.get_successful_patterns db now industry min_success_rate days
  = Ok patterns ->
  In p patterns ->
  exists g,
    In g (GROUP_BY string_dec Patterns.SuccessfulInteraction.type
            (Patterns.successful_interactions db industry
               (now - timedelta (supplied_or 90%Z days))%Z
               (supplied_or (6 # 10)%Q min_success_rate)))
    /\ Patterns.to_SalesPattern (Patterns.pattern_group g) = Ok p.
Proof.
  unfold Patterns.get_successful_patterns, bind.
  destruct (Query (6 # 10)%Q Patterns.valid_rate min_success_rate)
    as [m|] eqn:Em; [|discriminate].
  destruct (Query 90%Z Patterns.valid_days days) as [d|] eqn:Ed;
    [|discriminate].
  apply Query_Ok in Em, Ed. destruct Em as [-> _], Ed as [-> _].
  intros H Hp. apply try_except_500_Ok in H.
  destruct (mapM_Ok Patterns.to_SalesPattern
              (Patterns.successful_patterns_query db industry
                 (now - timedelta (supplied_or 90%Z days))%Z
                 (supplied_or (6 # 10)%Q min_success_rate)))
    as [patterns' [HOk HF]].
  - intros row Hrow. apply pattern_row_In in Hrow.
    destruct Hrow as [q [Hrow _]]. rewrite Hrow.
    unfold Patterns.to_SalesPattern. simpl. eauto.
  - rewrite HOk in H. injection H as <-.
    eapply Forall2_In_r in Hp; [|exact HF].
    destruct Hp as [row [Hrow Hp]].
    apply (Permutation_in _ (pattern_rows_perm _ _ _ _)) in Hrow.
    apply in_map_iff in Hrow. destruct Hrow as [g [<- Hg]].
    exists g. now split.
Qed.

(** The inner query groups by the opportunity's status too, so that a
    group is all won or not won at all; above a threshold of 0 only the
    won ones are retained. *)
Lemma pattern_of_won_groups
        (db : DB) (now : datetime) (industry : string)
        (min_success_rate : option Q) (days : option Z)
        (patterns : list Patterns.SalesPattern) (p : Patterns.SalesPattern) :
  Patterns.get_successful_patterns db now industry min_success_rate days
  = Ok patterns ->
  In p patterns ->
  (0 < supplied_or (6 # 10) min_success_rate)%Q ->
  (Patterns.avg_success_rate p == 1)%Q.
Proof.
  intros H Hp Hpos.
  destruct (@get_successful_patterns_In _ _ _ _ _ _ _ H Hp) as [g [Hg Hpat]].
  pose proof (GROUP_BY_nonempty _ _ _ _ Hg) as Hne.
  apply to_SalesPattern_Ok in Hpat. destruct Hpat as (_ & _ & Havg).
  simpl in Havg.
  destruct (AVG_const
              (l := omit_nulls
                      (map Patterns.SuccessfulInteraction.success_rate (snd g)))
              (c := 1%Q)) as [q [Hq Hone]].
  - apply omit_nulls_map_Some; [|exact Hne].
    intros r Hr. destruct (@GROUP_BY_same_key _ _ _ _ _ _ _ Hg Hr) as [Hin _].
    apply retained_rate_not_null in Hin. exact Hin.
  - intros x Hx. apply omit_nulls_In in Hx. destruct Hx as [r [Hr Hx]].
    destruct (@GROUP_BY_same_key _ _ _ _ _ _ _ Hg Hr) as [Hin _].
    apply retained_group_rate in Hin.
    destruct Hin as (q & Hq & Hc & Hm & _).
    assert (x = q) as -> by congruence.
    unfold Patterns.won_indicator in Hc.
    destruct (String.eqb _ "won"); [exact Hc|].
    exfalso. rewrite Hc in Hm. now apply (Qlt_not_le _ _ Hpos).
  - rewrite Hq in Havg. injection Havg as <-. exact Hone.
Qed.

(** A pattern has one example for each retained group of its type. *)
Lemma pattern_frequency_examples
        (db : DB) (now : datetime) (industry : string)
        (min_success_rate : option Q) (days : option Z)
        (patterns : list Patterns.SalesPattern) (p : Patterns.SalesPattern) :
  Patterns.get_successful_patterns db now industry min_success_rate days
  = Ok patterns ->
  In p patterns ->
  (1 <= Patterns.frequency p)%Z
  /\ Patterns.frequency p = COUNT (Patterns.example_interactions p).
Proof.
  intros H Hp.
  destruct (@get_successful_patterns_In _ _ _ _ _ _ _ H Hp) as [g [Hg Hpat]].
  pose proof (GROUP_BY_nonempty _ _ _ _ Hg) as Hne.
  unfold Patterns.to_SalesPattern in Hpat. simpl in Hpat.
  destruct (AVG _); [|discriminate]. injection Hpat as <-. simpl.
  rewrite length_COUNT_map. split; [|reflexivity].
  unfold COUNT. destruct (snd g); [congruence|]. simpl List.length. lia.
Qed.

(** X6: every pattern of [get_successful_patterns] has a frequency of at
    least 1 and carries exactly [frequency] example interactions; and
    whenever [min_success_rate] is above 0 (as the default 0.6 is), its
    [avg_success_rate] is exactly 1, since only groups of won
    opportunities pass the threshold. *)
Theorem patterns_count_won_groups
        (db : DB) (now : datetime) (industry : string)
        (min_success_rate : option Q) (days : option Z)
        (patterns : list Patterns.SalesPattern) (p : Patterns.SalesPattern) :
  Patterns.get_successful_patterns db now industry min_success_rate days
  = Ok patterns ->
  In p patterns ->
  (1 <= Patterns.frequency p)%Z
  /\ Patterns.frequency p = COUNT (Patterns.example_interactions p)
  /\ ((0 < supplied_or (6 # 10) min_success_rate)%Q ->
      (Patterns.avg_success_rate p == 1)%Q).
Proof.
  intros H Hp.
  destruct (@pattern_frequency_examples db now industry min_success_rate days
              patterns p H Hp) as [Hone Hcount].
  split; [exact Hone|]. split; [exact Hcount|].
  intros Hpos.
  exact (@pattern_of_won_groups db now industry min_success_rate days
           patterns p H Hp Hpos).
Qed.

Lemma patterns_count_won_groups_witness :
  exists p,
    Patterns.get_successful_patterns Fixture.sales 2000%Z "tech" None None
    = Ok [p]
    /\ (1 <= Patterns.frequency p)%Z
    /\ Patterns.frequency p = COUNT (Patterns.example_interactions p)
    /\ (Patterns.avg_success_rate p == 1)%Q.
Proof.
  eexists. split; [reflexivity|].
  destruct (@patterns_count_won_groups Fixture.sales 2000%Z "tech"
              None None _ _ eq_refl (or_introl eq_refl))
    as (Hone & Hcount & Hrate).
  split; [exact Hone|]. split; [exact Hcount|].
  apply Hrate. reflexivity.
Defined.

(** ** get_objection_handling: when it answers, and with what *)

Section ModeFacts.
Variable l : list string.

Let step (s : string) (best : option string) : option string :=
  match best with
  | None => Some s
  | Some b =>
      if (occurrences b l <? occurrences s l)%nat
         || ((occurrences b l =? occurrences s l)%nat && String.ltb s b)
      then Some s else Some b
  end.

Lemma MODE_fold (l' : list string) :
  l' <> [] ->
  exists m,
    fold_right step None l' = Some m
    /\ In m l'
    /\ forall x, In x l' -> (occurrences x l <= occurrences m l)%nat.
Proof.
  induction l' as [|s l' IH]; [congruence|]. intros _.
  destruct l' as [|s' l''].
  - exists s. simpl. split; [reflexivity|]. split; [now left|].
    intros x [<-|[]]. lia.
  - destruct IH as (b & Hb & Hin & Hmax); [discriminate|].
    change (fold_right step None (s :: s' :: l''))
      with (step s (fold_right step None (s' :: l''))).
    rewrite Hb. unfold step at 1.
    destruct ((occurrences b l <? occurrences s l)%nat
              || ((occurrences b l =? occurrences s l)%nat && String.ltb s b))
             eqn:E.
    + exists s. split; [reflexivity|]. split; [now left|].
      intros x [<-|Hx]; [lia|].
      specialize (Hmax x Hx).
      apply orb_true_iff in E. destruct E as [E|E].
      * apply Nat.ltb_lt in E. lia.
      * apply andb_true_iff in E. destruct E as [E _].
        apply Nat.eqb_eq in E. lia.
    + exists b. split; [reflexivity|]. split; [now right|].
      apply orb_false_iff in E. destruct E as [E _].
      apply Nat.ltb_ge in E.
      intros x [<-|Hx]; [exact E | now apply Hmax].
Qed.
End ModeFacts.

(** [MODE] of a list that is not empty is one of its values, and none
    occurs more often. *)
Lemma MODE_Some (l : list string) :
  l <> [] ->
  exists m,
    MODE l = Some m /\ In m l
    /\ forall x, In x l -> (occurrences x l <= occurrences m l)%nat.
Proof. intros H. exact (MODE_fold l H). Qed.

Lemma MODE_nil : MODE [] = None.
Proof. reflexivity. Qed.

(** The won groups of an objection are there exactly when a joined row is
    won. *)
Lemma won_groups_nil_iff (db : DB) (objection_type : string) :
  filter (fun g => Patterns.is_won (Patterns.ObjectionGroup.outcome g))
         (Patterns.objection_responses db objection_type) = []
  <-> outcome_rows db objection_type "won" = [].
Proof.
  unfold outcome_rows, Patterns.objection_responses. split; intros H.
  - apply filter_nil. intros r Hr.
    destruct (String.eqb (Opportunity.status (snd r)) "won") eqn:E;
      [|reflexivity].
    exfalso.
    assert (Hk : In (Patterns.objection_group_key r)
                    (nodup Patterns.objection_key_eq_dec
                       (map Patterns.objection_group_key
                          (Patterns.objection_interactions db objection_type))))
      by (apply nodup_In; now apply in_map).
    set (g := (Patterns.objection_group_key r,
               filter (has_key Patterns.objection_key_eq_dec
                         Patterns.objection_group_key
                         (Patterns.objection_group_key r))
                      (Patterns.objection_interactions db objection_type))).
    assert (Hg : In (Patterns.objection_group g)
                   (filter (fun g => Patterns.is_won
                                       (Patterns.ObjectionGroup.outcome g))
                      (map Patterns.objection_group
                         (GROUP_BY Patterns.objection_key_eq_dec
                            Patterns.objection_group_key
                            (Patterns.objection_interactions
                               db objection_type))))).
    { apply filter_In. split.
      - apply in_map. unfold GROUP_BY. apply in_map_iff.
        exists (Patterns.objection_group_key r). now split.
      - rewrite objection_group_outcome. exact E. }
    rewrite H in Hg. exact Hg.
  - apply filter_nil. intros grp Hgrp.
    apply in_map_iff in Hgrp. destruct Hgrp as [g [<- Hg]].
    rewrite objection_group_outcome.
    destruct (Patterns.is_won (snd (fst g))) eqn:E; [|reflexivity].
    exfalso.
    pose proof (GROUP_BY_nonempty _ _ _ _ Hg) as Hne.
    destruct (snd g) as [|r rs] eqn:Es; [congruence|].
    assert (Hr : In r (snd g)) by (rewrite Es; now left).
    destruct (@GROUP_BY_same_key _ _ _ _ _ _ _ Hg Hr) as [Hin Hk].
    assert (Hw : In r (filter (fun r => String.eqb
                                          (Opportunity.status (snd r)) "won")
                         (Patterns.objection_interactions db objection_type))).
    { apply filter_In. split; [exact Hin|].
      rewrite <- Hk in E. exact E. }
    rewrite H in Hw. exact Hw.
Qed.

(** X7: [get_objection_handling] answers exactly when some interaction
    with the objection among its topics is joined to a won opportunity;
    in every other case, also when all such interactions are joined to
    lost ones, it fails with status 500. *)
Theorem objection_handling_answers_iff_won
        (db : DB) (objection_type : string) :
  (outcome_rows db objection_type "won" <> [] ->
   exists resp, Patterns.get_objection_handling db objection_type = Ok resp)
  /\ (outcome_rows db objection_type "won" = [] ->
      status_of (Patterns.get_objection_handling db objection_type)
      = Some 500%Z).
Proof.
  unfold Patterns.get_objection_handling, Patterns.objection_query.
  cbn [Patterns.fetchrow hd_error]. unfold Patterns.to_ObjectionResponse.
  cbn [Patterns.ObjectionRow.successful_responses
         Patterns.ObjectionRow.success_rate
         Patterns.ObjectionRow.recommended_approach
         Patterns.ObjectionRow.objection_type].
  split; intros H.
  - assert (Hwon : filter (fun g => Patterns.is_won
                                      (Patterns.ObjectionGroup.outcome g))
                          (Patterns.objection_responses db objection_type)
                   <> [])
      by (intros E; apply H; now apply won_groups_nil_iff).
    destruct (filter _ (Patterns.objection_responses db objection_type))
      as [|g won] eqn:Ewon; [congruence|].
    assert (Hgroups : Patterns.objection_responses db objection_type <> []).
    { intros E. rewrite E in Ewon. discriminate. }
    destruct (Patterns.objection_responses db objection_type) as [|g' groups];
      [congruence|].
    destruct (MODE_Some (l := map Patterns.ObjectionGroup.notes (g :: won)))
      as (m & Hm & _); [discriminate|].
    rewrite Hm. simpl. eexists. reflexivity.
  - apply won_groups_nil_iff in H. rewrite H. reflexivity.
Qed.

Lemma objection_handling_answers_iff_won_witness :
  (exists resp,
      Patterns.get_objection_handling Fixture.pricing_distinct "pricing"
      = Ok resp)
  /\ Patterns.objection_interactions Fixture.pricing_repeated "budget" <> []
  /\ status_of (Patterns.get_objection_handling Fixture.pricing_repeated
                  "budget") = Some 500%Z.
Proof.
  split; [|split].
  - apply (proj1 (objection_handling_answers_iff_won
                    Fixture.pricing_distinct "pricing")).
    discriminate.
  - discriminate.
  - apply (proj2 (objection_handling_answers_iff_won
                    Fixture.pricing_repeated "budget")).
    reflexivity.
Defined.

Lemma SUM_indicators (l : list Q) :
  (forall x, In x l -> x = 0%Q \/ x = 1%Q) ->
  (0 <= SUM l <= inject_Z (COUNT l))%Q
  /\ (In 1%Q l -> (1 <= SUM l)%Q).
Proof.
  induction l as [|x l IH]; intros H.
  - simpl. change (inject_Z (COUNT [])) with 0%Q.
    split; [split; lra | contradiction].
  - destruct IH as [[Hlo Hhi] Hone]; [intros y Hy; apply H; now right|].
    cbn [SUM fold_right]. fold (SUM l).
    pose proof (inject_Z_COUNT_cons x l) as Hc.
    destruct (H x (or_introl eq_refl)) as [-> | ->].
    + split; [split; lra|]. intros [E|Hin]; [discriminate E|].
      specialize (Hone Hin). lra.
    + split; [split; lra|]. intros _. lra.
Qed.

Lemma inject_Z_COUNT_pos {A} (l : list A) :
  l <> [] -> (0 < inject_Z (COUNT l))%Q.
Proof.
  destruct l as [|a l]; [congruence|]. intros _.
  rewrite inject_Z_COUNT_cons.
  assert (0 <= inject_Z (COUNT l))%Q.
  { change 0%Q with (inject_Z 0). rewrite <- Zle_Qle. unfold COUNT. lia. }
  lra.
Qed.

Lemma jsonb_agg_Some {A} (l l' : list A) :
  Patterns.jsonb_agg l = Some l' -> l' = l /\ l <> [].
Proof. destruct l; simpl; [discriminate|]. intros [= <-]. now split. Qed.

(** X8: an answer of [get_objection_handling] names the objection asked
    about; its [recommended_approach] is the text of one of its
    [successful_responses], and no text occurs in more of them; its
    [success_rate] is above 0 and at most 1. *)
Theorem objection_response_contents
        (db : DB) (objection_type : string)
        (resp : Patterns.ObjectionResponse) :
  Patterns.get_objection_handling db objection_type = Ok resp ->
  let texts := map Patterns.Response.response
                   (Patterns.successful_responses resp) in
  Patterns.objection_type resp = objection_type
  /\ In (Patterns.recommended_approach resp) texts
  /\ (forall t, In t texts ->
                (occurrences t texts
                 <= occurrences (Patterns.recommended_approach resp) texts)%nat)
  /\ (0 < Patterns.success_rate resp <= 1)%Q.
Proof.
  unfold Patterns.get_objection_handling, Patterns.objection_query.
  cbn [Patterns.fetchrow hd_error]. unfold Patterns.to_ObjectionResponse.
  cbn [Patterns.ObjectionRow.successful_responses
         Patterns.ObjectionRow.success_rate
         Patterns.ObjectionRow.recommended_approach
         Patterns.ObjectionRow.objection_type].
  set (groups := Patterns.objection_responses db objection_type).
  set (won := filter (fun g => Patterns.is_won
                                 (Patterns.ObjectionGroup.outcome g)) groups).
  intros H. apply try_except_500_Ok in H.
  destruct (Patterns.jsonb_agg (map Patterns.to_response won))
    as [responses|] eqn:Eresp; [|discriminate].
  destruct (AVG (map (fun g => Patterns.won_indicator
                                 (Patterns.ObjectionGroup.outcome g)) groups))
    as [rate|] eqn:Erate; [|discriminate].
  destruct (MODE (map Patterns.ObjectionGroup.notes won))
    as [approach|] eqn:Emode; [|discriminate].
  injection H as <-. cbn.
  apply jsonb_agg_Some in Eresp. destruct Eresp as [-> Hmap].
  assert (Hwon : won <> []).
  { intros E. apply Hmap. now rewrite E. }
  rewrite map_map.
  change (map (fun x => Patterns.Response.response (Patterns.to_response x)) won)
    with (map Patterns.ObjectionGroup.notes won).
  destruct (MODE_Some (l := map Patterns.ObjectionGroup.notes won))
    as (m & Hm & Hin & Hmax).
  { destruct won; [congruence|discriminate]. }
  assert (m = approach) as -> by congruence.
  split; [reflexivity|]. split; [exact Hin|]. split; [exact Hmax|].
  apply AVG_eq in Erate. rewrite Erate.
  assert (Hgroups : groups <> []).
  { intros E. apply Hwon. unfold won. now rewrite E. }
  pose proof (@inject_Z_COUNT_pos _
                (map (fun g => Patterns.won_indicator
                                 (Patterns.ObjectionGroup.outcome g))
                     groups)) as Hpos.
  destruct (@SUM_indicators
              (map (fun g => Patterns.won_indicator
                               (Patterns.ObjectionGroup.outcome g))
                   groups)) as [[Hlo Hhi] Hone].
  { intros x Hx. apply in_map_iff in Hx. destruct Hx as [g [<- _]].
    unfold Patterns.won_indicator. destruct (String.eqb _ _); auto. }
  assert (H1 : (1 <= SUM (map (fun g => Patterns.won_indicator
                                          (Patterns.ObjectionGroup.outcome g))
                              groups))%Q).
  { apply Hone. destruct won as [|g won'] eqn:E; [congruence|].
    assert (Hg : In g won) by (rewrite E; now left).
    unfold won in Hg. apply filter_In in Hg. destruct Hg as [Hg Hw].
    apply in_map_iff. exists g. split; [|exact Hg].
    unfold Patterns.won_indicator. unfold Patterns.is_won in Hw.
    now rewrite Hw. }
  specialize (Hpos ltac:(destruct groups; [congruence|discriminate])).
  split.
  - apply Qlt_shift_div_l; [exact Hpos|]. lra.
  - apply Qle_shift_div_r; [exact Hpos|]. lra.
Qed.

Lemma objection_response_contents_witness :
  exists resp,
    Patterns.get_objection_handling Fixture.pricing_repeated "pricing" = Ok resp
    /\ Patterns.recommended_approach resp = "Discussed pricing"%string
    /\ In (Patterns.recommended_approach resp)
          (map Patterns.Response.response (Patterns.successful_responses resp))
    /\ (0 < Patterns.success_rate resp <= 1)%Q.
Proof.
  eexists. split; [reflexivity|]. split; [reflexivity|].
  destruct (@objection_response_contents Fixture.pricing_repeated "pricing"
              _ eq_refl) as (_ & Hin & _ & Hrate).
  split; [exact Hin | exact Hrate].
Defined.

(** ** get_sales_suggestions: missing opportunities, and what an answer
    says *)

Lemma try_except_500_status {A} (body : result A) :
  (exists a, try_except_500 body = Ok a)
  \/ status_of (try_except_500 body) = Some 500%Z.
Proof. destruct body; simpl; eauto. Qed.

(** X10: [get_sales_suggestions] never answers with status 404: for an
    opportunity that does not exist its 404 is raised inside the [try]
    whose [except Exception] turns it into status 500. *)
Theorem suggestions_for_missing_opportunity
        (db : DB) (opportunity_id : UUID) :
  status_of (Patterns.get_sales_suggestions db opportunity_id) <> Some 404%Z
  /\ ((forall o, In o (opportunities db) ->
                 Opportunity.id o <> opportunity_id) ->
      status_of (Patterns.get_sales_suggestions db opportunity_id)
      = Some 500%Z).
Proof.
  split.
  - unfold Patterns.get_sales_suggestions.
    destruct (try_except_500_status
                (match Patterns.fetchrow
                         (Patterns.suggestions_query db opportunity_id) with
                 | Some context => Patterns.suggest context
                 | None => Raise (HTTPException 404 "Opportunity not found")
                 end)) as [[a Ha]|H].
    + rewrite Ha. discriminate.
    + rewrite H. discriminate.
  - intros H.
    unfold Patterns.get_sales_suggestions, Patterns.suggestions_query.
    rewrite (filter_nil (fun o => N.eqb (Opportunity.id o) opportunity_id)
               (opportunities db)).
    + reflexivity.
    + intros o Ho. apply N.eqb_neq. now apply H.
Qed.

Lemma suggestions_for_missing_opportunity_witness :
  (forall o, In o (opportunities Fixture.big_deal_after_call) ->
             Opportunity.id o <> 8%N)
  /\ status_of (Patterns.get_sales_suggestions Fixture.big_deal_after_call 8%N)
     = Some 500%Z.
Proof.
  assert (H : forall o, In o (opportunities Fixture.big_deal_after_call) ->
                        Opportunity.id o <> 8%N).
  { simpl. intros o [<-|[]]. discriminate. }
  split; [exact H|].
  exact (proj2 (suggestions_for_missing_opportunity
                  Fixture.big_deal_after_call 8%N) H).
Defined.

Lemma mapM_Ok_inv {A B} (f : A -> result B) (l : list A) (l' : list B) :
  mapM f l = Ok l' -> Forall2 (fun a b => f a = Ok b) l l'.
Proof.
  revert l'. induction l as [|a l IH]; simpl; intros l' H.
  - injection H as <-. constructor.
  - destruct (f a) as [b|] eqn:Ea; [|discriminate]. simpl in H.
    destruct (mapM f l) as [bs|]; [|discriminate]. simpl in H.
    injection H as <-. constructor; auto.
Qed.

Lemma hd_error_map {A B} (f : A -> B) (l : list A) (y : B) :
  hd_error (map f l) = Some y ->
  exists x, In x l /\ y = f x.
Proof.
  destruct l as [|x l]; simpl; [discriminate|].
  intros [= <-]. exists x. auto.
Qed.

(** The recent interactions of an opportunity whose suggestions could be
    computed are those of its customer, of which there is at least one. *)
Lemma recent_topics_In (l : list Patterns.RecentInteraction.t)
      (topics : list (list string)) (t : string) :
  mapM Patterns.topics_of l = Ok topics ->
  (In t (List.concat topics)
   <-> exists r ts, In r l /\ Patterns.RecentInteraction.topics r = Some ts
                    /\ In t ts).
Proof.
  intros H. apply mapM_Ok_inv in H. rewrite in_concat.
  induction H as [|r ts l topics Hr HF IH].
  - split; [intros (x & [] & _) | intros (r & ts & [] & _)].
  - unfold Patterns.topics_of in Hr.
    destruct (Patterns.RecentInteraction.topics r) as [ts'|] eqn:E;
      [|discriminate].
    injection Hr as ->. split.
    + intros (x & [<-|Hx] & Ht).
      * exists r, ts. simpl. auto.
      * destruct (proj1 IH (ex_intro _ x (conj Hx Ht))) as (r' & ts' & H1 & H2).
        exists r', ts'. simpl. tauto.
    + intros (r' & ts' & [<-|Hr'] & E' & Ht).
      * exists ts. split; [now left|]. congruence.
      * destruct (proj2 IH (ex_intro _ r' (ex_intro _ ts' (conj Hr' (conj E' Ht)))))
          as (x & Hx & Hxt).
        exists x. split; [now right | exact Hxt].
Qed.

Lemma LEFT_JOIN_In_Some {A B} (on : A -> B -> bool) (l : list A) (r : list B)
      (a : A) (b : B) :
  In (a, Some b) (LEFT_JOIN on l r) <-> In a l /\ In b r /\ on a b = true.
Proof.
  unfold LEFT_JOIN. rewrite in_flat_map. split.
  - intros [a' [Ha' H]].
    destruct (filter (on a') r) as [|b' bs] eqn:E.
    + destruct H as [[=]|[]].
    + apply in_map_iff in H. destruct H as [x [[= <- <-] Hx]].
      rewrite <- E in Hx. apply filter_In in Hx. tauto.
  - intros (Ha & Hb & Hon). exists a. split; [exact Ha|].
    assert (Hin : In b (filter (on a) r)) by (apply filter_In; tauto).
    destruct (filter (on a) r) as [|b' bs]; [contradiction|].
    apply in_map_iff. exists b. auto.
Qed.

Lemma LEFT_JOIN_In_None {A B} (on : A -> B -> bool) (l : list A) (r : list B)
      (a : A) :
  In (a, None) (LEFT_JOIN on l r) -> filter (on a) r = [].
Proof.
  unfold LEFT_JOIN. rewrite in_flat_map. intros [a' [_ H]].
  destruct (filter (on a') r) as [|b' bs] eqn:E.
  - destruct H as [[= <-]|[]]. exact E.
  - apply in_map_iff in H. destruct H as [x [[=] _]].
Qed.

(** What the query of [get_sales_suggestions] hands to [suggest]. *)
Lemma suggestions_query_head (db : DB) (opportunity_id : UUID)
      (context : Patterns.OpportunityContext.t) :
  Patterns.fetchrow (Patterns.suggestions_query db opportunity_id)
  = Some context ->
  exists o,
    In o (opportunities db) /\ Opportunity.id o = opportunity_id
    /\ Patterns.OpportunityContext.value context = Opportunity.value o
    /\ forall r,
        In r (Patterns.OpportunityContext.recent_interactions context)
        <-> (r = Patterns.to_recent_interaction None
             /\ filter (fun i => N.eqb (Opportunity.customer_id o)
                                       (Interaction.customer_id i))
                       (interactions db) = [])
            \/ (exists i, In i (interactions db)
                          /\ Interaction.customer_id i
                             = Opportunity.customer_id o
                          /\ r = Patterns.to_recent_interaction (Some i)).
Proof.
  unfold Patterns.fetchrow, Patterns.suggestions_query. intros H.
  apply hd_error_map in H. destruct H as [[o c] [Hoc ->]].
  apply JOIN_In in Hoc. destruct Hoc as (Ho & _ & _).
  apply filter_In in Ho. destruct Ho as [Ho Hid]. apply N.eqb_eq in Hid.
  exists o. split; [exact Ho|]. split; [exact Hid|]. split; [reflexivity|].
  intros r. cbn [Patterns.OpportunityContext.recent_interactions].
  rewrite nodup_In, in_map_iff. split.
  - intros [[o' [i|]] [<- Hx]].
    + right. apply LEFT_JOIN_In_Some in Hx.
      destruct Hx as ([<-|[]] & Hi & Hon). apply N.eqb_eq in Hon.
      exists i. auto.
    + left. split; [reflexivity|].
      assert (o' = o) as ->.
      { unfold LEFT_JOIN in Hx. apply in_flat_map in Hx.
        destruct Hx as [a [[<-|[]] Hx]].
        destruct (filter _ (interactions db)) as [|b bs].
        - destruct Hx as [[= <-]|[]]. reflexivity.
        - apply in_map_iff in Hx. destruct Hx as [x [[=] _]]. }
      now apply LEFT_JOIN_In_None in Hx.
  - intros [[-> Hnil]|[i (Hi & Hc & ->)]].
    + exists (o, None). split; [reflexivity|].
      unfold LEFT_JOIN. simpl. rewrite Hnil. now left.
    + exists (o, Some i). split; [reflexivity|].
      apply LEFT_JOIN_In_Some. split; [now left|]. split; [exact Hi|].
      apply N.eqb_eq. now rewrite Hc.
Qed.

(** The fields of an answer of [suggest]. *)
Lemma suggest_Ok (context : Patterns.OpportunityContext.t)
      (s : Patterns.Suggestions) :
  Patterns.suggest context = Ok s ->
  exists topics follow_up,
    mapM Patterns.topics_of
         (Patterns.OpportunityContext.recent_interactions context) = Ok topics
    /\ follow_up
       = (if existsb (fun s => match s with
                               | Some s => String.eqb "negative" s
                               | None => false
                               end)
                     (map Patterns.RecentInteraction.sentiment
                        (Patterns.OpportunityContext.recent_interactions
                           context))
          then ["Schedule follow-up meeting to address concerns"%string]
          else [])
    /\ Patterns.talking_points s
       = (if existsb (String.eqb "pricing") (List.concat topics)
          then ["Emphasize ROI calculations"%string;
                "Share relevant case studies"%string;
                "Discuss flexible payment options"%string]
          else [])
    /\ Patterns.next_steps s
       = match Patterns.OpportunityContext.similar_successful_deals context with
         | Some (d :: deals) =>
             follow_up ++ Patterns.common_next_steps (d :: deals)
         | _ => follow_up
         end
    /\ Patterns.recommended_content s = [].
Proof.
  unfold Patterns.suggest, bind.
  destruct (mapM Patterns.topics_of _) as [topics|]; [|discriminate].
  intros H. exists topics. eexists. split; [reflexivity|].
  split; [reflexivity|].
  assert (E : forall s1 s2 : Patterns.Suggestions,
             Ok s1 = Ok s2 -> s1 = s2) by (intros s1 s2 [= ->]; reflexivity).
  apply E in H. subst s.
  split; [reflexivity|]. split; [|reflexivity].
  destruct (Patterns.OpportunityContext.similar_successful_deals context)
    as [[|d deals]|]; reflexivity.
Qed.

(** X11: an answer of [get_sales_suggestions] is about an opportunity with
    the id asked for, whose customer has an interaction on record.  It
    lists the executive-sponsorship risk exactly when that opportunity is
    worth more than 100000, has talking points exactly when one of the
    customer's interactions has pricing among its topics, asks for a
    follow-up meeting whenever one of them has a negative sentiment, and
    recommends no content. *)
Theorem suggestions_follow_the_opportunity
        (db : DB) (opportunity_id : UUID) (s : Patterns.Suggestions) :
  Patterns.get_sales_suggestions db opportunity_id = Ok s ->
  exists o,
    In o (opportunities db) /\ Opportunity.id o = opportunity_id
    /\ (exists i, In i (interactions db)
                  /\ Interaction.customer_id i = Opportunity.customer_id o)
    /\ (In Patterns.executive_sponsorship (Patterns.risk_factors s)
        <-> (100000 < Opportunity.value o)%Q)
    /\ (Patterns.talking_points s <> []
        <-> exists i, In i (interactions db)
                      /\ Interaction.customer_id i = Opportunity.customer_id o
                      /\ In "pricing"%string (Interaction.topics i))
    /\ ((exists i, In i (interactions db)
                   /\ Interaction.customer_id i = Opportunity.customer_id o
                   /\ Interaction.sentiment i = "negative"%string) ->
        In "Schedule follow-up meeting to address concerns"%string
           (Patterns.next_steps s))
    /\ Patterns.recommended_content s = [].
Proof.
  unfold Patterns.get_sales_suggestions. intros H.
  apply try_except_500_Ok in H.
  destruct (Patterns.fetchrow (Patterns.suggestions_query db opportunity_id))
    as [context|] eqn:Erow; [|discriminate].
  destruct (suggestions_query_head _ _ Erow) as (o & Ho & Hid & Hval & Hrec).
  exists o. split; [exact Ho|]. split; [exact Hid|].
  pose proof (suggest_risk_factor _ H) as Hrisk. rewrite Hval in Hrisk.
  destruct (suggest_Ok _ H)
    as (topics & follow_up & Etopics & Hfollow & Htalk & Hnext & Hcontent).
  rewrite Htalk, Hnext, Hcontent.
  assert (Hnot_null :
            ~ In (Patterns.to_recent_interaction None)
                 (Patterns.OpportunityContext.recent_interactions context)).
  { intros Hin. apply mapM_Ok_inv in Etopics.
    clear - Hin Etopics. induction Etopics as [|r ts l topics' Hr HF IH].
    - contradiction.
    - destruct Hin as [->|Hin]; [discriminate Hr | now apply IH]. }
  split; [|split; [exact Hrisk|split; [|split; [|reflexivity]]]].
  - destruct (filter (fun i => N.eqb (Opportunity.customer_id o)
                                     (Interaction.customer_id i))
                     (interactions db)) as [|i is_] eqn:E.
    + exfalso. apply Hnot_null. apply Hrec. left. now split.
    + assert (Hi : In i (filter (fun i => N.eqb (Opportunity.customer_id o)
                                                (Interaction.customer_id i))
                                (interactions db)))
        by (rewrite E; now left).
      apply filter_In in Hi. destruct Hi as [Hi Hc]. apply N.eqb_eq in Hc.
      exists i. auto.
  - destruct (existsb (String.eqb "pricing") (List.concat topics)) eqn:Ex.
    + split; [intros _ | intros _ E; discriminate E].
      apply existsb_exists in Ex. destruct Ex as [t [Ht Et]].
      apply String.eqb_eq in Et. subst t.
      apply (recent_topics_In _ "pricing" Etopics) in Ht.
      destruct Ht as (r & ts & Hr & Hts & Hp).
      apply Hrec in Hr. destruct Hr as [[-> _]|[i (Hi & Hc & ->)]];
        [discriminate Hts|].
      simpl in Hts. injection Hts as <-. exists i. auto.
    + split; [congruence|]. intros [i (Hi & Hc & Hp)]. exfalso.
      assert (Hin : In "pricing"%string (List.concat topics)).
      { apply (recent_topics_In _ "pricing" Etopics).
        exists (Patterns.to_recent_interaction (Some i)), (Interaction.topics i).
        split; [|split; [reflexivity | exact Hp]].
        apply Hrec. right. exists i. auto. }
      assert (Hex : existsb (String.eqb "pricing") (List.concat topics) = true).
      { apply existsb_exists. exists "pricing"%string.
        split; [exact Hin | apply String.eqb_refl]. }
      congruence.
  - intros [i (Hi & Hc & Hs)].
    assert (Hex : existsb (fun s => match s with
                                    | Some s => String.eqb "negative" s
                                    | None => false
                                    end)
                    (map Patterns.RecentInteraction.sentiment
                       (Patterns.OpportunityContext.recent_interactions
                          context)) = true).
    { apply existsb_exists. exists (Some (Interaction.sentiment i)).
      split.
      - apply in_map_iff.
        exists (Patterns.to_recent_interaction (Some i)).
        split; [reflexivity|]. apply Hrec. right. exists i. auto.
      - rewrite Hs. reflexivity. }
    rewrite Hex in Hfollow. subst follow_up.
    destruct (Patterns.OpportunityContext.similar_successful_deals context)
      as [[|d deals]|]; simpl; auto.
Qed.

Lemma suggestions_follow_the_opportunity_witness :
  exists s o,
    Patterns.get_sales_suggestions Fixture.big_deal_after_call 7%N = Ok s
    /\ In o (opportunities Fixture.big_deal_after_call)
    /\ (In Patterns.executive_sponsorship (Patterns.risk_factors s)
        <-> (100000 < Opportunity.value o)%Q).
Proof.
  eexists.
  destruct (@suggestions_follow_the_opportunity Fixture.big_deal_after_call
              7%N _ eq_refl) as (o & Ho & _ & _ & Hrisk & _).
  exists o. split; [reflexivity|]. split; [exact Ho | exact Hrisk].
Defined.

(** * rag-api.py: the customer endpoints *)

(** X12: [get_customer_context] answers for a customer that exists, with
    that customer's row as [company_info], and fails with status 404 and
    the detail "Customer not found" for one that does not: its [except]
    clause catches store errors only, so the 404 reaches the caller. *)
Theorem customer_context_found_or_404 (crm : Crm) (customer_id : UUID) :
  ((exists c, In c (customers (tables crm)) /\ Customer.id c = customer_id) ->
   exists context,
     CustomerApi.get_customer_context crm customer_id = Ok context
     /\ In (CustomerApi.company_info context) (customers (tables crm))
     /\ Customer.id (CustomerApi.company_info context) = customer_id)
  /\ ((forall c, In c (customers (tables crm)) ->
                 Customer.id c <> customer_id) ->
      CustomerApi.get_customer_context crm customer_id
      = Raise (HTTPException 404 "Customer not found")).
Proof.
  unfold CustomerApi.get_customer_context, CustomerApi.customer_query.
  split.
  - intros [c [Hc Hid]].
    destruct (filter (fun c => N.eqb (Customer.id c) customer_id)
                     (customers (tables crm))) as [|c' cs] eqn:E.
    + exfalso.
      assert (Hin : In c (filter (fun c => N.eqb (Customer.id c) customer_id)
                            (customers (tables crm))))
        by (apply filter_In; split; [exact Hc | now apply N.eqb_eq]).
      rewrite E in Hin. exact Hin.
    + assert (Hin : In c' (filter (fun c => N.eqb (Customer.id c) customer_id)
                             (customers (tables crm))))
        by (rewrite E; now left).
      apply filter_In in Hin. destruct Hin as [Hin Hid'].
      apply N.eqb_eq in Hid'.
      simpl. eexists. split; [reflexivity|]. simpl. now split.
  - intros H.
    rewrite (filter_nil (fun c => N.eqb (Customer.id c) customer_id)
               (customers (tables crm))).
    + reflexivity.
    + intros c Hc. apply N.eqb_neq. now apply H.
Qed.

Lemma customer_context_found_or_404_witness :
  (exists context,
      CustomerApi.get_customer_context Sample.crm 1%N = Ok context
      /\ CustomerApi.company_info context = Fixture.acme)
  /\ CustomerApi.get_customer_context Sample.crm 9%N
     = Raise (HTTPException 404 "Customer not found").
Proof.
  split.
  - eexists. split; reflexivity.
  - apply (proj2 (customer_context_found_or_404 Sample.crm 9%N)).
    simpl. intros c [<-|[<-|[]]]; discriminate.
Defined.

Lemma get_customer_context_Ok (crm : Crm) (customer_id : UUID)
      (context : CustomerApi.CustomerContext) :
  CustomerApi.get_customer_context crm customer_id = Ok context ->
  CustomerApi.recent_interactions context
  = CustomerApi.recent_interactions_query crm customer_id
  /\ CustomerApi.active_opportunities context
     = CustomerApi.active_opportunities_query crm customer_id.
Proof.
  unfold CustomerApi.get_customer_context.
  destruct (Patterns.fetchrow _) as [c|]; simpl; [|discriminate].
  intros [= <-]. now split.
Qed.

(** X13: the [recent_interactions] of a customer context are at most
    five, newest first; each is an interaction of the customer, named
    after the sales person it refers to, and an interaction of the
    customer (with a sales person on record) that is not listed is no
    newer than any that is. *)
Theorem customer_context_recent_interactions
        (crm : Crm) (customer_id : UUID)
        (context : CustomerApi.CustomerContext) :
  CustomerApi.get_customer_context crm customer_id = Ok context ->
  let recent := CustomerApi.recent_interactions context in
  (List.length recent <= 5)%nat
  /\ StronglySorted
       (fun r1 r2 => (Interaction.created_at (fst r2)
                      <= Interaction.created_at (fst r1))%Z) recent
  /\ (forall r, In r recent ->
        In (fst r) (interactions (tables crm))
        /\ Interaction.customer_id (fst r) = customer_id
        /\ exists sp, In sp (sales_people crm)
                      /\ SalesPerson.id sp = sales_person_id crm (fst r)
                      /\ SalesPerson.name sp = snd r)
  /\ (forall i sp,
        In i (interactions (tables crm)) ->
        Interaction.customer_id i = customer_id ->
        In sp (sales_people crm) ->
        SalesPerson.id sp = sales_person_id crm i ->
        In (i, SalesPerson.name sp) recent
        \/ Forall (fun r => (Interaction.created_at i
                             <= Interaction.created_at (fst r))%Z) recent).
Proof.
  intros H recent. subst recent.
  apply get_customer_context_Ok in H. destruct H as [-> _].
  unfold CustomerApi.recent_interactions_query.
  set (lt := fun r1 r2 : Interaction.t * SalesPerson.t =>
               (Interaction.created_at (fst r1)
                <? Interaction.created_at (fst r2))%Z).
  set (rows := filter (fun r : Interaction.t * SalesPerson.t =>
                         N.eqb (Interaction.customer_id (fst r)) customer_id)
                      (interactions_with_sales_people crm)).
  assert (Hasym : forall a b, lt a b = true -> lt b a = false)
    by (intros a b; apply Zltb_asym).
  assert (Htrans : forall a b c, lt a b = false -> lt b c = false ->
                                 lt a c = false)
    by (intros a b c; apply Zltb_ge_trans).
  split; [|split; [|split]].
  - rewrite length_map. unfold LIMIT. apply firstn_le_length.
  - eapply StronglySorted_map;
      [|apply StronglySorted_firstn; apply (ORDER_BY_DESC_sorted lt Hasym Htrans)].
    unfold not_below, lt. intros a b Hab. simpl. now apply Z.ltb_ge.
  - intros r Hr. apply in_map_iff in Hr. destruct Hr as [[i sp] [<- Hr]].
    apply LIMIT_In in Hr.
    apply (Permutation_in _ (ORDER_BY_DESC_perm _ _)) in Hr.
    unfold rows in Hr. apply filter_In in Hr. destruct Hr as [Hr Hc].
    apply JOIN_In in Hr. destruct Hr as (Hi & Hsp & Hon).
    apply N.eqb_eq in Hc, Hon. simpl in *.
    split; [exact Hi|]. split; [exact Hc|]. exists sp. auto.
  - intros i sp Hi Hc Hsp Hid.
    destruct (LIMIT_ORDER_BY_DESC_best lt 5 rows (i, sp) Hasym Htrans)
      as [Hin|Hall].
    + unfold rows. apply filter_In. split.
      * apply JOIN_In. split; [exact Hi|]. split; [exact Hsp|].
        apply N.eqb_eq. now rewrite Hid.
      * apply N.eqb_eq. exact Hc.
    + left. apply in_map_iff. exists (i, sp). now split.
    + right. rewrite Forall_forall in *. intros r Hr.
      apply in_map_iff in Hr. destruct Hr as [x [<- Hx]].
      specialize (Hall x Hx). unfold lt in Hall. simpl in *.
      now apply Z.ltb_ge.
Qed.

Lemma customer_context_recent_interactions_witness :
  exists context,
    CustomerApi.get_customer_context Sample.crm 1%N = Ok context
    /\ map (fun r => Interaction.created_at (fst r))
           (CustomerApi.recent_interactions context)
       = [600; 500; 400; 300; 200]%Z
    /\ (List.length (CustomerApi.recent_interactions context) <= 5)%nat.
Proof.
  eexists. split; [reflexivity|]. split; [reflexivity|].
  exact (proj1 (@customer_context_recent_interactions Sample.crm 1%N _
                  eq_refl)).
Defined.

(** X14: the [active_opportunities] of a customer context are exactly the
    customer's opportunities whose status is neither won nor lost, newest
    first. *)
Theorem customer_context_active_opportunities
        (crm : Crm) (customer_id : UUID)
        (context : CustomerApi.CustomerContext) :
  CustomerApi.get_customer_context crm customer_id = Ok context ->
  let active := CustomerApi.active_opportunities context in
  (forall o,
      In o active
      <-> In o (opportunities (tables crm))
          /\ Opportunity.customer_id o = customer_id
          /\ Opportunity.status o <> "won"%string
          /\ Opportunity.status o <> "lost"%string)
  /\ StronglySorted
       (fun o1 o2 => (Opportunity.created_at o2 <= Opportunity.created_at o1)%Z)
       active
  /\ List.length active
     = List.length
         (filter (fun o => N.eqb (Opportunity.customer_id o) customer_id
                           && negb (Patterns.is_closed (Opportunity.status o)))
                 (opportunities (tables crm))).
Proof.
  intros H active. subst active.
  apply get_customer_context_Ok in H. destruct H as [_ ->].
  unfold CustomerApi.active_opportunities_query.
  split; [|split].
  - intros o. split.
    + intros Ho. apply (Permutation_in _ (ORDER_BY_DESC_perm _ _)) in Ho.
      apply filter_In in Ho. destruct Ho as [Ho Hc].
      apply andb_true_iff in Hc. destruct Hc as [Hc Hs].
      apply N.eqb_eq in Hc. apply negb_true_iff in Hs.
      unfold Patterns.is_closed in Hs. apply orb_false_iff in Hs.
      destruct Hs as [Hw Hl]. apply String.eqb_neq in Hw, Hl. auto.
    + intros (Ho & Hc & Hw & Hl).
      apply (Permutation_in _ (Permutation_sym (ORDER_BY_DESC_perm _ _))).
      apply filter_In. split; [exact Ho|].
      apply andb_true_iff. split; [now apply N.eqb_eq|].
      apply negb_true_iff. unfold Patterns.is_closed.
      apply orb_false_iff. split; now apply String.eqb_neq.
  - eapply StronglySorted_impl; [|apply ORDER_BY_DESC_sorted].
    + unfold not_below. intros a b Hab. now apply Z.ltb_ge.
    + intros a b. apply Zltb_asym.
    + intros a b c. apply Zltb_ge_trans.
  - apply Permutation_length. apply ORDER_BY_DESC_perm.
Qed.

Lemma customer_context_active_opportunities_witness :
  exists context,
    CustomerApi.get_customer_context Sample.crm 1%N = Ok context
    /\ map Opportunity.id (CustomerApi.active_opportunities context) = [2%N]
    /\ forall o,
        In o (CustomerApi.active_opportunities context)
        <-> In o (opportunities (tables Sample.crm))
            /\ Opportunity.customer_id o = 1%N
            /\ Opportunity.status o <> "won"%string
            /\ Opportunity.status o <> "lost"%string.
Proof.
  eexists. split; [reflexivity|]. split; [reflexivity|].
  exact (proj1 (@customer_context_active_opportunities Sample.crm 1%N _
                  eq_refl)).
Defined.

Lemma find_similar_customers_Ok
      (cosine_distance : vector -> vector -> Q) (db : DB)
      (customer_id : UUID) (limit : option Z) (min_similarity : option Q)
      (rows : list (Customer.t * float8)) :
  CustomerApi.find_similar_customers cosine_distance db customer_id
    limit min_similarity = Ok rows ->
  CustomerApi.valid_similar_limit (supplied_or 5%Z limit) = true
  /\ exists reference,
      In reference (CustomerApi.reference_query db customer_id)
      /\ rows = CustomerApi.similar_query cosine_distance db reference
                  customer_id (supplied_or (1 # 2)%Q min_similarity)
                  (supplied_or 5%Z limit).
Proof.
  unfold CustomerApi.find_similar_customers, bind.
  destruct (Query 5%Z CustomerApi.valid_similar_limit limit) as [l|] eqn:El;
    [|discriminate].
  destruct (Query (1 # 2)%Q RagApi.valid_similarity min_similarity)
    as [m|] eqn:Em; [|discriminate].
  apply Query_Ok in El, Em. destruct El as [-> Hl], Em as [-> _].
  intros H. apply try_except_500_Ok in H.
  unfold Patterns.fetchrow in H.
  destruct (CustomerApi.reference_query db customer_id) as [|reference rs];
    simpl in H; [discriminate|].
  injection H as <-. split; [exact Hl|].
  exists reference. split; [now left | reflexivity].
Qed.

(** X15: [find_similar_customers] never answers with status 404: when the
    reference customer has no document its 404 is raised inside the [try]
    whose [except Exception] turns it into status 500. *)
Theorem similar_customers_missing_reference
        (cosine_distance : vector -> vector -> Q) (db : DB)
        (customer_id : UUID) (limit : option Z) (min_similarity : option Q) :
  status_of (CustomerApi.find_similar_customers cosine_distance db
               customer_id limit min_similarity) <> Some 404%Z
  /\ (CustomerApi.valid_similar_limit (supplied_or 5%Z limit) = true ->
      RagApi.valid_similarity (supplied_or (1 # 2)%Q min_similarity) = true ->
      (forall e, In e (document_embeddings db) ->
                 DocumentEmbedding.source_type e = "customer"%string ->
                 DocumentEmbedding.source_id e <> customer_id) ->
      status_of (CustomerApi.find_similar_customers cosine_distance db
                   customer_id limit min_similarity) = Some 500%Z).
Proof.
  unfold CustomerApi.find_similar_customers, Query. split.
  - destruct (CustomerApi.valid_similar_limit (supplied_or 5%Z limit));
      [|discriminate].
    destruct (RagApi.valid_similarity (supplied_or (1 # 2)%Q min_similarity));
      [|discriminate].
    simpl.
    destruct (Patterns.fetchrow (CustomerApi.reference_query db customer_id));
      discriminate.
  - intros -> -> H. simpl. unfold CustomerApi.reference_query.
    rewrite filter_nil; [reflexivity|].
    intros e He. apply andb_false_iff.
    destruct (String.eqb (DocumentEmbedding.source_type e) "customer")
             eqn:Et; [right | now left].
    apply String.eqb_eq in Et. apply N.eqb_neq. now apply H.
Qed.

Lemma similar_customers_missing_reference_witness :
  status_of (CustomerApi.find_similar_customers Fixture.distance
               Sample.neighbours 9%N None None) = Some 500%Z.
Proof.
  apply (proj2 (similar_customers_missing_reference Fixture.distance
                  Sample.neighbours 9%N None None));
    try reflexivity.
  simpl. intros e [<-|[<-|[<-|[]]]] _; discriminate.
Defined.

(** X16: an answer of [find_similar_customers] is in descending order of
    similarity, in the order of the store (NaN first); each row is a
    customer other than the reference one, with a customer document of
    its own, whose similarity to the reference embedding is NaN or a
    number of at least [min_similarity] (0.5 when omitted). *)
Theorem similar_customers_rows
        (cosine_distance : vector -> vector -> Q) (db : DB)
        (customer_id : UUID) (limit : option Z) (min_similarity : option Q)
        (rows : list (Customer.t * float8)) :
  CustomerApi.find_similar_customers cosine_distance db customer_id
    limit min_similarity = Ok rows ->
  StronglySorted
    (fun r1 r2 : Customer.t * float8 => float8_le (snd r2) (snd r1)) rows
  /\ exists reference,
      In reference (CustomerApi.reference_query db customer_id)
      /\ forall c similarity,
          In (c, similarity) rows ->
          In c (customers db)
          /\ Customer.id c <> customer_id
          /\ (similarity = NaN
              \/ at_least (supplied_or (1 # 2) min_similarity) similarity)
          /\ exists e,
              In e (document_embeddings db)
              /\ DocumentEmbedding.source_type e = "customer"%string
              /\ DocumentEmbedding.source_id e = Customer.id c
              /\ similarity
                 = RagApi.similarity_to cosine_distance reference e.
Proof.
  intros H. apply find_similar_customers_Ok in H.
  destruct H as (_ & reference & Href & ->).
  unfold CustomerApi.similar_query. split.
  - eapply StronglySorted_impl; [|apply ORDER_BY_DESC_sorted].
    + unfold not_below. intros a b Hab. now apply float8_lt_false.
    + intros a b. apply float8_lt_asym.
    + intros a b c. apply float8_lt_trans.
  - exists reference. split; [exact Href|].
    intros c similarity Hr.
    apply (Permutation_in _ (ORDER_BY_DESC_perm _ _)) in Hr.
    apply in_map_iff in Hr. destruct Hr as [[[u s] c'] [[= -> ->] Hr]].
    apply JOIN_In in Hr. destruct Hr as (Hsc & Hc & Hon).
    simpl in Hon. apply N.eqb_eq in Hon.
    unfold CustomerApi.similar_customers in Hsc.
    apply LIMIT_In in Hsc.
    apply (Permutation_in _ (ORDER_BY_DESC_perm _ _)) in Hsc.
    apply in_map_iff in Hsc. destruct Hsc as [e [[= <- <-] He]].
    apply filter_In in He. destruct He as [He Hw].
    apply andb_true_iff in Hw. destruct Hw as [Hw Hm].
    apply andb_true_iff in Hw. destruct Hw as [Ht Hne].
    apply String.eqb_eq in Ht. apply negb_true_iff, N.eqb_neq in Hne.
    apply float8_ge_Num in Hm.
    split; [exact Hc|]. split; [congruence|]. split; [exact Hm|].
    exists e. auto.
Qed.

Lemma similar_customers_rows_witness :
  exists rows,
    CustomerApi.find_similar_customers Fixture.distance Sample.neighbours
      1%N None None = Ok rows
    /\ map (fun r : Customer.t * float8 => Customer.id (fst r)) rows
       = [3%N; 2%N]
    /\ StronglySorted
         (fun r1 r2 : Customer.t * float8 => float8_le (snd r2) (snd r1))
         rows.
Proof.
  eexists. split; [reflexivity|]. split; [reflexivity|].
  exact (proj1 (@similar_customers_rows Fixture.distance Sample.neighbours
                  1%N None None _ eq_refl)).
Defined.

Lemma filter_unique_length {A} (f : A -> N) (x : N) (l : list A) :
  NoDup (map f l) ->
  (List.length (filter (fun a => N.eqb (f a) x) l) <= 1)%nat.
Proof.
  induction l as [|a l IH]; simpl; intros H; [lia|].
  inversion H as [|? ? Hnin Hnd]; subst.
  destruct (N.eqb (f a) x) eqn:E; [|now apply IH].
  apply N.eqb_eq in E. simpl.
  rewrite filter_nil; [simpl; lia|].
  intros b Hb. apply N.eqb_neq. intros Eb.
  apply Hnin. rewrite E, <- Eb. now apply in_map.
Qed.

Lemma JOIN_unique_length {A B} (f : B -> N) (g : A -> N)
      (l : list A) (r : list B) :
  NoDup (map f r) ->
  (List.length (JOIN (fun a b => N.eqb (f b) (g a)) l r) <= List.length l)%nat.
Proof.
  intros H. unfold JOIN. induction l as [|a l IH]; simpl; [lia|].
  rewrite length_app, length_map.
  pose proof (filter_unique_length f (g a) r H). lia.
Qed.

(** X17: when no two customers share an id, [find_similar_customers]
    returns at most [limit] rows (5 when omitted, never more than 20). *)
Theorem similar_customers_within_limit
        (cosine_distance : vector -> vector -> Q) (db : DB)
        (customer_id : UUID) (limit : option Z) (min_similarity : option Q)
        (rows : list (Customer.t * float8)) :
  CustomerApi.find_similar_customers cosine_distance db customer_id
    limit min_similarity = Ok rows ->
  NoDup (map Customer.id (customers db)) ->
  (Z.of_nat (List.length rows) <= supplied_or 5 limit <= 20)%Z.
Proof.
  intros H Hids. apply find_similar_customers_Ok in H.
  destruct H as (Hl & reference & _ & ->).
  unfold CustomerApi.valid_similar_limit in Hl.
  apply andb_true_iff in Hl. destruct Hl as [Hlo Hhi].
  apply Z.leb_le in Hlo, Hhi.
  unfold CustomerApi.similar_query.
  rewrite (Permutation_length (ORDER_BY_DESC_perm _ _)), length_map.
  pose proof (JOIN_unique_length Customer.id
                (fun sc : UUID * float8 => fst sc)
                (CustomerApi.similar_customers cosine_distance db reference
                   customer_id (supplied_or (1 # 2)%Q min_similarity)
                   (supplied_or 5%Z limit))
                (customers db) Hids) as Hjoin.
  assert (Hlimit :
            (Z.of_nat
               (List.length
                  (CustomerApi.similar_customers cosine_distance db reference
                     customer_id (supplied_or (1 # 2)%Q min_similarity)
                     (supplied_or 5%Z limit)))
             <= supplied_or 5%Z limit)%Z).
  { unfold CustomerApi.similar_customers. apply LIMIT_length. lia. }
  split; [|exact Hhi].
  eapply Z.le_trans; [|exact Hlimit].
  apply Nat2Z.inj_le. exact Hjoin.
Qed.

Lemma similar_customers_within_limit_witness :
  exists rows,
    CustomerApi.find_similar_customers Fixture.distance Sample.neighbours
      1%N (Some 1%Z) None = Ok rows
    /\ map (fun r : Customer.t * float8 => Customer.id (fst r)) rows = [3%N]
    /\ (Z.of_nat (List.length rows) <= 1 <= 20)%Z.
Proof.
  eexists. split; [reflexivity|]. split; [reflexivity|].
  refine (@similar_customers_within_limit Fixture.distance Sample.neighbours
            1%N (Some 1%Z) None _ eq_refl _).
  repeat constructor; simpl; intuition discriminate.
Defined.

(** * Filters under ORDER BY, and joins with an empty table *)

Section ThresholdFacts.
Variable A : Type.
Variable lt : A -> A -> bool.
Hypothesis ge_trans :
  forall a b c, lt a b = false -> lt b c = false -> lt a c = false.
Variable keep : A -> bool.

(** A [WHERE] condition may be applied before or after [ORDER BY]: rows
    with equal keys stay in scan order either way. *)
Lemma insert_desc_kept (a : A) (l : list A) :
  StronglySorted (not_below lt) l ->
  filter keep (insert_desc lt a l)
  = if keep a then insert_desc lt a (filter keep l) else filter keep l.
Proof.
  induction 1 as [|b l Hl IH Hb]; simpl.
  - destruct (keep a); reflexivity.
  - destruct (lt a b) eqn:Hab; simpl.
    + rewrite IH. destruct (keep b), (keep a); simpl; rewrite ?Hab;
        reflexivity.
    + destruct (keep a) eqn:Ka; [|reflexivity].
      destruct (keep b); simpl; [now rewrite Hab|].
      f_equal.
      assert (Hhead : forall l', Forall (not_below lt b) l' ->
                                 insert_desc lt a (filter keep l')
                                 = a :: filter keep l').
      { intros l' Hl'. induction Hl' as [|c l' Hc _ IHl']; [reflexivity|].
        simpl. destruct (keep c); [|exact IHl'].
        simpl. now rewrite (ge_trans Hab Hc). }
      rewrite (Hhead l Hb). reflexivity.
Qed.

Hypothesis lt_asym : forall a b, lt a b = true -> lt b a = false.

Lemma ORDER_BY_DESC_kept (l : list A) :
  filter keep (ORDER_BY_DESC lt l) = ORDER_BY_DESC lt (filter keep l).
Proof.
  induction l as [|a l IH]; simpl; [reflexivity|].
  rewrite insert_desc_kept by now apply ORDER_BY_DESC_sorted.
  rewrite IH. destruct (keep a); reflexivity.
Qed.
End ThresholdFacts.

Lemma flat_map_nil {A B} (f : A -> list B) (l : list A) :
  (forall a, In a l -> f a = []) -> flat_map f l = [].
Proof.
  induction l as [|a l IH]; simpl; intros H; [reflexivity|].
  rewrite (H a (or_introl eq_refl)), IH; [reflexivity|].
  intros b Hb. apply H. now right.
Qed.

Lemma JOIN_nil_r {A B} (on : A -> B -> bool) (l : list A) :
  JOIN on l (@nil B) = [].
Proof. unfold JOIN. apply flat_map_nil. reflexivity. Qed.

(** * postgres-loader.py *)

(** ** The loader's searches *)


(** ** load_data *)

Lemma extends_refl (crm : Crm) : LoadProps.extends crm crm.
Proof.
  split; [reflexivity|]. split; [reflexivity|]. split; [reflexivity|].
  split; exists []; now rewrite app_nil_r.
Qed.

Lemma extends_trans (crm1 crm2 crm3 : Crm) :
  LoadProps.extends crm1 crm2 -> LoadProps.extends crm2 crm3 ->
  LoadProps.extends crm1 crm3.
Proof.
  intros (Hs & Ho & Hd & [cs Hc] & [rs Hi])
         (Hs' & Ho' & Hd' & [cs' Hc'] & [rs' Hi']).
  split; [congruence|]. split; [congruence|]. split; [congruence|].
  split; [exists (cs ++ cs'); now rewrite Hc', Hc, app_assoc|].
  exists (rs ++ rs'). now rewrite Hi', Hi, app_assoc.
Qed.

Lemma and_then_cases (first next : Crm -> Crm * result unit)
      (crm crm' : Crm) (r : result unit) :
  Loader.and_then first next crm = (crm', r) ->
  (exists e, first crm = (crm', Raise e) /\ r = Raise e)
  \/ (exists crm1, first crm = (crm1, Ok tt) /\ next crm1 = (crm', r)).
Proof.
  unfold Loader.and_then. destruct (first crm) as [crm1 [[]|e]]; intros H.
  - right. now exists crm1.
  - left. injection H as <- <-. now exists e.
Qed.

Lemma and_then_extends (first next : Crm -> Crm * result unit) :
  (forall crm, LoadProps.extends crm (fst (first crm))) ->
  (forall crm, LoadProps.extends crm (fst (next crm))) ->
  forall crm, LoadProps.extends crm (fst (Loader.and_then first next crm)).
Proof.
  intros Hfirst Hnext crm. unfold Loader.and_then.
  specialize (Hfirst crm). destruct (first crm) as [crm1 [u|e]]; simpl in *.
  - apply extends_trans with crm1; [exact Hfirst | apply Hnext].
  - exact Hfirst.
Qed.

Lemma for_each_extends {A} (body : A -> Crm -> Crm * result unit)
      (l : list A) :
  (forall a crm, LoadProps.extends crm (fst (body a crm))) ->
  forall crm, LoadProps.extends crm (fst (Loader.for_each body l crm)).
Proof.
  intros Hbody. induction l as [|a l IH]; intros crm; simpl.
  - apply extends_refl.
  - apply and_then_extends; [apply Hbody | exact IH].
Qed.

Lemma insert_customer_extends (c : Customer.t) (crm : Crm) :
  LoadProps.extends crm (fst (Loader.insert_customer c crm)).
Proof.
  unfold Loader.insert_customer.
  destruct (existsb _ _); simpl; [apply extends_refl|].
  split; [reflexivity|]. split; [reflexivity|]. split; [reflexivity|].
  split; [now exists [c] | exists []; now rewrite app_nil_r].
Qed.

Lemma insert_interaction_extends (i : Interaction.t) (sales_person : UUID)
      (crm : Crm) :
  LoadProps.extends crm (fst (Loader.insert_interaction i sales_person crm)).
Proof.
  unfold Loader.insert_interaction.
  destruct (existsb _ _); simpl; [apply extends_refl|].
  destruct (_ || _); simpl; [apply extends_refl|].
  split; [reflexivity|]. split; [reflexivity|]. split; [reflexivity|].
  split; [exists []; now rewrite app_nil_r | now exists [i]].
Qed.

Section LoadFacts.
Variable self : Loader.PostgresRAGLoader.
Variable NOW : Crm -> datetime.

(** No call of [store_document_with_embedding] stores a document: it
    raises the encoder's exception or the driver's, and the store is as
    it was. *)
Lemma store_document_raises (source_type : string) (source_id : UUID)
      (content : string) (metadata : option jsonb) (crm : Crm) :
  exists e,
    Loader.store_document_with_embedding self source_type source_id content
      metadata crm = (crm, Raise e)
    /\ (forall embedding, Loader.encoder self content = Ok embedding ->
                          exists detail, e = DataError detail).
Proof.
  unfold Loader.store_document_with_embedding, Loader.vector_argument.
  destruct (Loader.encoder self content) as [embedding|e].
  - eexists. split; [reflexivity|]. intros _ _. eexists. reflexivity.
  - exists e. split; [reflexivity|]. discriminate.
Qed.

Lemma load_customer_extends (customer : Loader.CustomerDict.t) (crm : Crm) :
  LoadProps.extends crm (fst (Loader.load_customer self customer crm)).
Proof.
  unfold Loader.load_customer. apply and_then_extends.
  - intros crm0. apply insert_customer_extends.
  - intros crm0.
    destruct (store_document_raises "customer"
                (Loader.CustomerDict.id customer)
                (Loader.customer_content customer)
                (Some [("size"%string, Loader.CustomerDict.size customer)])
                crm0) as (e & -> & _).
    apply extends_refl.
Qed.

Lemma load_interaction_extends (interaction : Loader.InteractionDict.t)
      (crm : Crm) :
  LoadProps.extends crm
    (fst (Loader.load_interaction self NOW interaction crm)).
Proof.
  unfold Loader.load_interaction. apply and_then_extends.
  - intros crm0. apply insert_interaction_extends.
  - intros crm0.
    destruct (store_document_raises "interaction"
                (Loader.InteractionDict.id interaction)
                (Loader.interaction_content interaction)
                (Some [("type"%string, Loader.InteractionDict.type interaction);
                       ("sentiment"%string,
                        Loader.InteractionDict.sentiment interaction)])
                crm0) as (e & -> & _).
    apply extends_refl.
Qed.

Lemma load_data_extends (dataset : Loader.Dataset.t) (crm : Crm) :
  LoadProps.extends crm (fst (Loader.load_data self NOW dataset crm)).
Proof.
  unfold Loader.load_data. apply and_then_extends.
  - apply for_each_extends. apply load_customer_extends.
  - apply for_each_extends. apply load_interaction_extends.
Qed.

(** The body of the loop over the customers raises: on the primary key
    with the store as it was, or behind the customer's row on the
    customer's document. *)
Lemma load_customer_raises (customer : Loader.CustomerDict.t) (crm : Crm) :
  exists crm' e,
    Loader.load_customer self customer crm = (crm', Raise e)
    /\ interactions (tables crm') = interactions (tables crm)
    /\ sales_person_id crm' = sales_person_id crm
    /\ ((customers (tables crm') = customers (tables crm)
         /\ exists c, In c (customers (tables crm))
                      /\ Customer.id c = Loader.CustomerDict.id customer)
        \/ (customers (tables crm')
            = customers (tables crm) ++ [Loader.customer_row customer]
            /\ (forall embedding,
                   Loader.encoder self (Loader.customer_content customer)
                   = Ok embedding ->
                   exists detail, e = DataError detail))).
Proof.
  unfold Loader.load_customer, Loader.and_then, Loader.insert_customer.
  destruct (existsb _ _) eqn:Epk.
  - eexists. eexists. split; [reflexivity|].
    split; [reflexivity|]. split; [reflexivity|]. left.
    split; [reflexivity|].
    apply existsb_exists in Epk. destruct Epk as (c & Hc & Eid).
    apply N.eqb_eq in Eid. now exists c.
  - match goal with
    | |- context [Loader.store_document_with_embedding _ ?t ?i ?c ?m ?s] =>
        destruct (store_document_raises t i c m s) as (e & -> & He)
    end.
    eexists. exists e. split; [reflexivity|].
    split; [reflexivity|]. split; [reflexivity|]. right.
    split; [reflexivity | exact He].
Qed.

(** So does the body of the loop over the interactions, which leaves the
    customers as they were. *)
Lemma load_interaction_raises (interaction : Loader.InteractionDict.t)
      (crm : Crm) :
  exists crm' e,
    Loader.load_interaction self NOW interaction crm = (crm', Raise e)
    /\ customers (tables crm') = customers (tables crm).
Proof.
  unfold Loader.load_interaction, Loader.and_then,
    Loader.insert_interaction.
  destruct (existsb _ (interactions (tables crm)));
    [eexists; eexists; split; reflexivity|].
  destruct (_ || _); [eexists; eexists; split; reflexivity|].
  match goal with
  | |- context [Loader.store_document_with_embedding _ ?t ?i ?c ?m ?s] =>
      destruct (store_document_raises t i c m s) as (e & -> & _)
  end.
  eexists. exists e. split; reflexivity.
Qed.

End LoadFacts.

Lemma and_then_keeps {B} (f : Crm -> B)
      (first next : Crm -> Crm * result unit) :
  (forall crm, f (fst (first crm)) = f crm) ->
  (forall crm, f (fst (next crm)) = f crm) ->
  forall crm, f (fst (Loader.and_then first next crm)) = f crm.
Proof.
  intros Hfirst Hnext crm. unfold Loader.and_then.
  specialize (Hfirst crm). destruct (first crm) as [crm1 [u|e]]; simpl in *.
  - now rewrite Hnext.
  - exact Hfirst.
Qed.

Lemma for_each_keeps {A B} (f : Crm -> B)
      (body : A -> Crm -> Crm * result unit) (l : list A) :
  (forall a crm, f (fst (body a crm)) = f crm) ->
  forall crm, f (fst (Loader.for_each body l crm)) = f crm.
Proof.
  intros Hbody. induction l as [|a l IH]; intros crm; simpl; [reflexivity|].
  apply and_then_keeps; [apply Hbody | exact IH].
Qed.

(** The loop over the customers writes no interaction. *)
Lemma load_customers_keep_interactions
      (self : Loader.PostgresRAGLoader)
      (l : list Loader.CustomerDict.t) (crm : Crm) :
  interactions
    (tables (fst (Loader.for_each (Loader.load_customer self) l crm)))
  = interactions (tables crm).
Proof.
  apply (for_each_keeps (fun crm => interactions (tables crm))).
  intros customer crm0.
  destruct (load_customer_raises self customer crm0)
    as (crm' & e & -> & Hi & _).
  exact Hi.
Qed.

(** Without sales people no interaction can be inserted. *)
Lemma load_interaction_unstaffed
      (self : Loader.PostgresRAGLoader)
      (NOW : Crm -> datetime) (interaction : Loader.InteractionDict.t)
      (crm : Crm) :
  sales_people crm = [] ->
  exists e,
    Loader.load_interaction self NOW interaction crm = (crm, Raise e).
Proof.
  intros Hs. unfold Loader.load_interaction, Loader.and_then,
               Loader.insert_interaction.
  destruct (existsb _ (interactions (tables crm))); [now eexists|].
  rewrite Hs. simpl. rewrite orb_true_r. now eexists.
Qed.

(** A load that completes had nothing to load. *)
Lemma load_data_Ok
      (self : Loader.PostgresRAGLoader) (NOW : Crm -> datetime)
      (dataset : Loader.Dataset.t) (crm crm' : Crm) :
  Loader.load_data self NOW dataset crm = (crm', Ok tt) ->
  Loader.Dataset.customers dataset = []
  /\ Loader.Dataset.interactions dataset = []
  /\ crm' = crm.
Proof.
  unfold Loader.load_data. intros H. apply and_then_cases in H.
  destruct H as [(e & _ & He) | (crm1 & H1 & H2)]; [discriminate|].
  destruct (Loader.Dataset.customers dataset) as [|customer l].
  - simpl in H1. injection H1 as <-.
    destruct (Loader.Dataset.interactions dataset) as [|interaction l].
    + simpl in H2. injection H2 as <-. auto.
    + simpl in H2. unfold Loader.and_then in H2.
      destruct (load_interaction_raises self NOW interaction crm)
        as (crm2 & e & E & _).
      rewrite E in H2. discriminate.
  - simpl in H1. unfold Loader.and_then in H1.
    destruct (load_customer_raises self customer crm)
      as (crm2 & e & E & _).
    rewrite E in H1. discriminate.
Qed.



(** X21: [load_data] stores no document, and completes only when the
    dataset has neither a customer nor an interaction.  With a customer
    in the dataset the load ends at the first one: on the primary key
    when the store has a customer of that id, and otherwise behind the
    customer's row, on the customer's document, which the driver refuses
    when the encoder has answered.  No interaction is stored. *)
Theorem load_data_stops_at_the_first_document
        (self : Loader.PostgresRAGLoader)
        (NOW : Crm -> datetime) (dataset : Loader.Dataset.t)
        (crm crm' : Crm) (r : result unit) :
  Loader.load_data self NOW dataset crm = (crm', r) ->
  document_embeddings (tables crm') = document_embeddings (tables crm)
  /\ (r = Ok tt <-> Loader.Dataset.customers dataset = []
                    /\ Loader.Dataset.interactions dataset = [])
  /\ (forall customer rest,
         Loader.Dataset.customers dataset = customer :: rest ->
         (exists e, r = Raise e)
         /\ interactions (tables crm') = interactions (tables crm)
         /\ ((customers (tables crm') = customers (tables crm)
              /\ exists c, In c (customers (tables crm))
                           /\ Customer.id c
                              = Loader.CustomerDict.id customer)
             \/ (customers (tables crm')
                 = customers (tables crm) ++ [Loader.customer_row customer]
                 /\ (forall embedding,
                        Loader.encoder self
                          (Loader.customer_content customer) = Ok embedding ->
                        exists detail, r = Raise (DataError detail))))).
Proof.
  intros H. split; [|split].
  - pose proof (load_data_extends self NOW dataset crm) as Hext.
    rewrite H in Hext. now destruct Hext as (_ & _ & Hd & _).
  - split.
    + intros ->. apply load_data_Ok in H. tauto.
    + intros [Hc Hi]. unfold Loader.load_data in H.
      rewrite Hc, Hi in H. simpl in H. unfold Loader.and_then in H.
      simpl in H. congruence.
  - intros customer rest Hc. unfold Loader.load_data in H.
    rewrite Hc in H. simpl in H.
    unfold Loader.and_then at 1 2 in H.
    destruct (load_customer_raises self customer crm)
      as (crm1 & e & E & Hi & _ & Hcases).
    rewrite E in H. injection H as <- <-.
    split; [now exists e|]. split; [exact Hi|].
    destruct Hcases as [Hkept | [Hrow He]]; [now left | right].
    split; [exact Hrow|].
    intros embedding Hembedding.
    destruct (He embedding Hembedding) as [detail ->]. now exists detail.
Qed.

Lemma load_data_stops_at_the_first_document_witness :
  exists crm' detail,
    Loader.load_data Sample.loader Sample.NOW Sample.dataset Sample.staffed
    = (crm', Raise (DataError detail))
    /\ customers (tables crm') = [Loader.customer_row Sample.hooli]
    /\ interactions (tables crm') = []
    /\ document_embeddings (tables crm') = [].
Proof.
  eexists. eexists. split; [reflexivity|]. split; [reflexivity|].
  split; [reflexivity|].
  exact (proj1 (@load_data_stops_at_the_first_document Sample.loader
                  Sample.NOW Sample.dataset Sample.staffed _ _ eq_refl)).
Defined.

(** X22: a store that had no document has none after [load_data],
    whatever the dataset and the outcome of the load.  The searches of
    the API then answer without a result, and [find_similar_customers]
    fails with status 500 for every customer, those of the dataset
    among them. *)
Theorem loaded_store_has_nothing_to_search
        (self : Loader.PostgresRAGLoader)
        (NOW : Crm -> datetime) (dataset : Loader.Dataset.t)
        (crm crm' : Crm) (r : result unit) :
  Loader.load_data self NOW dataset crm = (crm', r) ->
  document_embeddings (tables crm) = [] ->
  (forall get_embedding cosine_distance query limit resp,
      (forall source_type min_similarity,
          RagApi.semantic_search get_embedding cosine_distance (tables crm')
            query source_type limit min_similarity = Ok resp ->
          RagApi.results resp = [] /\ RagApi.total resp = 0%Z)
      /\ (forall context,
             RagApi.contextual_search get_embedding cosine_distance
               (tables crm') query context limit = Ok resp ->
             RagApi.results resp = [] /\ RagApi.total resp = 0%Z))
  /\ (forall cosine_distance customer_id limit min_similarity,
         CustomerApi.valid_similar_limit (supplied_or 5%Z limit) = true ->
         RagApi.valid_similarity (supplied_or (1 # 2)%Q min_similarity)
         = true ->
         status_of (CustomerApi.find_similar_customers cosine_distance
                      (tables crm') customer_id limit min_similarity)
         = Some 500%Z).
Proof.
  intros H Hnone.
  assert (Hdocs : document_embeddings (tables crm') = []).
  { pose proof (load_data_extends self NOW dataset crm) as Hext.
    rewrite H in Hext. destruct Hext as (_ & _ & Hd & _).
    simpl in Hd. congruence. }
  split.
  - intros get_embedding cosine_distance query limit resp.
    assert (Hempty : forall conditions n,
               answers get_embedding cosine_distance (tables crm') query
                 conditions n resp ->
               RagApi.results resp = [] /\ RagApi.total resp = 0%Z).
    { intros conditions n (q & _ & ->).
      unfold RagApi.select_documents. rewrite Hdocs. simpl.
      unfold LIMIT. rewrite firstn_nil. split; reflexivity. }
    split.
    + intros source_type min_similarity Hcall.
      apply semantic_search_Ok in Hcall. destruct Hcall as [_ Hcall].
      exact (Hempty _ _ Hcall).
    + intros context Hcall.
      apply contextual_search_Ok in Hcall. destruct Hcall as [_ Hcall].
      exact (Hempty _ _ Hcall).
  - intros cosine_distance customer_id limit min_similarity Hl Hm.
    unfold CustomerApi.find_similar_customers, Query.
    rewrite Hl, Hm. simpl.
    unfold CustomerApi.reference_query. rewrite Hdocs. reflexivity.
Qed.

Lemma loaded_store_has_nothing_to_search_witness :
  exists crm' e,
    Loader.load_data Sample.loader Sample.NOW Sample.dataset Sample.staffed
    = (crm', Raise e)
    /\ status_of (CustomerApi.find_similar_customers Fixture.distance
                    (tables crm') 7%N None None) = Some 500%Z.
Proof.
  eexists. eexists. split; [reflexivity|].
  exact (proj2 (@loaded_store_has_nothing_to_search Sample.loader
                  Sample.NOW Sample.dataset Sample.staffed _ _
                  eq_refl eq_refl)
               Fixture.distance 7%N None None eq_refl eq_refl).
Defined.

(** X25: [load_data] stores no opportunity, whatever the dataset holds
    and whatever the outcome of the load.  On a store that had none
    before, [get_successful_patterns] then finds no pattern and
    [get_sales_suggestions] fails with status 500 for every id. *)
Theorem load_data_stores_no_opportunity
        (self : Loader.PostgresRAGLoader)
        (NOW : Crm -> datetime)
        (dataset : Loader.Dataset.t) (crm crm' : Crm) (r : result unit) :
  Loader.load_data self NOW dataset crm = (crm', r) ->
  opportunities (tables crm') = opportunities (tables crm)
  /\ (opportunities (tables crm) = [] ->
      (forall now industry min_success_rate days,
          Patterns.valid_rate (supplied_or (6 # 10)%Q min_success_rate)
          = true ->
          Patterns.valid_days (supplied_or 90%Z days) = true ->
          Patterns.get_successful_patterns (tables crm') now industry
            min_success_rate days = Ok [])
      /\ (forall opportunity_id,
             status_of (Patterns.get_sales_suggestions (tables crm')
                          opportunity_id) = Some 500%Z)).
Proof.
  intros H.
  pose proof (load_data_extends self NOW dataset crm) as Hext.
  rewrite H in Hext. destruct Hext as (_ & Ho & _). simpl in Ho.
  split; [exact Ho|].
  intros Hnone. rewrite Hnone in Ho. split.
  - intros now industry min_success_rate days Hm Hd.
    unfold Patterns.get_successful_patterns, Query. rewrite Hm, Hd. simpl.
    unfold Patterns.successful_patterns_query,
      Patterns.successful_interactions, Patterns.industry_interactions.
    rewrite Ho, JOIN_nil_r. reflexivity.
  - intros opportunity_id.
    unfold Patterns.get_sales_suggestions, Patterns.suggestions_query.
    rewrite Ho. reflexivity.
Qed.

Lemma load_data_stores_no_opportunity_witness :
  exists crm' e,
    Loader.load_data Sample.loader Sample.NOW Sample.dataset Sample.staffed
    = (crm', Raise e)
    /\ List.length (customers (tables crm')) = 1%nat
    /\ Patterns.get_successful_patterns (tables crm') 2000%Z "tech" None None
       = Ok [].
Proof.
  eexists. eexists. split; [reflexivity|]. split; [reflexivity|].
  refine (proj1 (proj2 (@load_data_stores_no_opportunity Sample.loader
                          Sample.NOW Sample.dataset
                          Sample.staffed _ _ eq_refl) eq_refl)
                2000%Z "tech"%string None None eq_refl eq_refl).
Defined.

(** * rag-api-extended-patterns.py: get_conversation_history *)

Section OrderByAscFacts.
Variable A : Type.
Variable key : A -> Z.

Let by_key (a b : A) : bool := (key a <? key b)%Z.

Lemma ORDER_BY_ASC_perm (l : list A) : Permutation (ORDER_BY_ASC by_key l) l.
Proof. apply ORDER_BY_DESC_perm. Qed.

Lemma ORDER_BY_ASC_sorted (l : list A) :
  StronglySorted (fun a b => (key a <= key b)%Z) (ORDER_BY_ASC by_key l).
Proof.
  unfold ORDER_BY_ASC.
  eapply StronglySorted_impl; [|apply ORDER_BY_DESC_sorted].
  - unfold not_below, by_key. intros a b H. apply Z.ltb_ge in H. exact H.
  - unfold by_key. intros a b H. apply Z.ltb_lt in H. apply Z.ltb_ge. lia.
  - unfold by_key. intros a b c H1 H2.
    apply Z.ltb_ge in H1, H2. apply Z.ltb_ge. lia.
Qed.

(** A condition may be applied before or after [ORDER BY .. ASC]. *)
Lemma ORDER_BY_ASC_kept (keep : A -> bool) (l : list A) :
  filter keep (ORDER_BY_ASC by_key l) = ORDER_BY_ASC by_key (filter keep l).
Proof.
  unfold ORDER_BY_ASC. apply ORDER_BY_DESC_kept.
  - unfold by_key. intros a b c H1 H2.
    apply Z.ltb_ge in H1, H2. apply Z.ltb_ge. lia.
  - unfold by_key. intros a b H. apply Z.ltb_lt in H. apply Z.ltb_ge. lia.
Qed.

(** Rows that are in order stay as they are. *)
Lemma ORDER_BY_ASC_in_order (l : list A) :
  StronglySorted (fun a b => (key a <= key b)%Z) l ->
  ORDER_BY_ASC by_key l = l.
Proof.
  unfold ORDER_BY_ASC, ORDER_BY_DESC.
  induction 1 as [|a l Hl IH Ha]; [reflexivity|].
  simpl. rewrite IH. destruct l as [|b l']; [reflexivity|].
  simpl. inversion Ha as [|? ? Hab _]; subst.
  unfold by_key. destruct (key b <? key a)%Z eqn:E; [|reflexivity].
  apply Z.ltb_lt in E. lia.
Qed.
End OrderByAscFacts.

Lemma number_from_In {A} (k : Z) (l : list A) (a : A) (n : Z) :
  In (a, n) (History.number_from k l) -> In a l.
Proof.
  revert k. induction l as [|b l IH]; intros k; simpl; [tauto|].
  intros [[= -> _]|H]; [now left | right; now apply IH with (k + 1)%Z].
Qed.

Lemma number_from_numbers {A} (k : Z) (l : list A) (a : A) :
  In a l -> exists n, In (a, n) (History.number_from k l).
Proof.
  revert k. induction l as [|b l IH]; intros k; simpl; [tauto|].
  intros [->|H].
  - exists k. now left.
  - destruct (IH (k + 1)%Z H) as [n Hn]. exists n. now right.
Qed.

Lemma number_from_length {A} (k : Z) (l : list A) :
  List.length (History.number_from k l) = List.length l.
Proof.
  revert k. induction l as [|a l IH]; intros k; simpl; [reflexivity|].
  now rewrite IH.
Qed.

Lemma number_from_in_order {A} (R : A -> A -> Prop) (k : Z) (l : list A) :
  StronglySorted R l ->
  StronglySorted (fun r1 r2 => R (fst r1) (fst r2)) (History.number_from k l).
Proof.
  intros H. revert k. induction H as [|a l Hl IH Ha]; intros k; simpl.
  - constructor.
  - constructor; [apply IH|].
    rewrite Forall_forall in *. intros [b n] Hb. simpl.
    apply Ha. now apply number_from_In in Hb.
Qed.

Lemma speaker_of_turn (j : nat) :
  History.speaker_of (1 + Z.of_nat j)
  = if Nat.even j then "sales_person"%string else "customer"%string.
Proof.
  unfold History.speaker_of.
  destruct (Nat.even j) eqn:E.
  - apply Nat.even_spec in E. destruct E as [m ->].
    replace (1 + Z.of_nat (2 * m))%Z with (1 + Z.of_nat m * 2)%Z by lia.
    rewrite Z.mod_add by lia. reflexivity.
  - assert (Ho : Nat.odd j = true) by (unfold Nat.odd; now rewrite E).
    apply Nat.odd_spec in Ho. destruct Ho as [m ->].
    replace (1 + Z.of_nat (2 * m + 1))%Z with (0 + (Z.of_nat m + 1) * 2)%Z
      by lia.
    rewrite Z.mod_add by lia. reflexivity.
Qed.

(** The numbers of a partition make its speakers take turns. *)
Lemma number_from_speakers {A} (j : nat) (l : list A) :
  map (fun r => History.speaker_of (snd r))
      (History.number_from (1 + Z.of_nat j) l)
  = map (fun k => if Nat.even k then "sales_person"%string
                  else "customer"%string)
        (seq j (List.length l)).
Proof.
  revert j. induction l as [|a l IH]; intros j; [reflexivity|].
  cbn [History.number_from map List.length seq snd].
  rewrite speaker_of_turn. f_equal.
  replace (1 + Z.of_nat j + 1)%Z with (1 + Z.of_nat (S j))%Z by lia.
  apply IH.
Qed.

Lemma flat_map_kept {A B} (f : A -> list B) (keep : B -> bool) (l : list A) :
  filter keep (flat_map f l) = flat_map (fun a => filter keep (f a)) l.
Proof.
  induction l as [|a l IH]; [reflexivity|].
  simpl. now rewrite filter_app, IH.
Qed.

(** Of groups with distinct keys at most one has the key asked for. *)
Lemma flat_map_one_group {G B} (key : G -> Z) (f : G -> list B) (d : Z)
      (gs : list G) :
  NoDup (map key gs) ->
  (forall g, In g gs -> key g <> d -> f g = []) ->
  flat_map f gs = []
  \/ exists g, In g gs /\ key g = d /\ flat_map f gs = f g.
Proof.
  induction gs as [|g gs IH]; intros Hnd Hf; [now left|].
  simpl in Hnd. inversion Hnd as [|? ? Hg Hgs]; subst.
  destruct (Z.eq_dec (key g) d) as [E|E].
  - right. exists g. split; [now left|]. split; [exact E|].
    simpl. rewrite (@flat_map_nil _ _ f gs); [now rewrite app_nil_r|].
    intros g' Hg'. apply Hf; [now right|].
    intros E'. apply Hg. rewrite E, <- E'. now apply in_map.
  - simpl. rewrite (Hf g (or_introl eq_refl) E). simpl.
    destruct IH as [H|(g' & Hg' & Hk & H)]; [exact Hgs | | now left |].
    + intros g' Hg'. apply Hf. now right.
    + right. exists g'. split; [now right|]. now split.
Qed.

Lemma get_conversation_history_Ok
      (sales_people_columns : list string) (crm : Crm) (now : datetime)
      (customer_id : UUID) (days : option Z)
      (interaction_types : option (list History.InteractionType))
      (turns : list History.ConversationTurn) :
  History.get_conversation_history sales_people_columns crm now customer_id
    days interaction_types = Ok turns ->
  Patterns.valid_days (supplied_or 30%Z days) = true
  /\ History.resolve_columns sales_people_columns
       (History.where_columns interaction_types) = Ok tt
  /\ turns = map History.to_ConversationTurn
               (History.history_query crm customer_id interaction_types
                  (now - timedelta (supplied_or 30%Z days))%Z).
Proof.
  unfold History.get_conversation_history, bind.
  destruct (Query 30%Z Patterns.valid_days days) as [d|] eqn:Ed;
    [|discriminate].
  apply Query_Ok in Ed. destruct Ed as [-> Hd].
  intros H. apply try_except_500_Ok in H.
  destruct (History.resolve_columns _ _) as [[]|]; [|discriminate].
  injection H as <-. now repeat split.
Qed.

(** X26: on a store whose table [sales_people] has a column [created_at],
    as the one that the loader's [init_db] creates has,
    [get_conversation_history] answers no request: the [created_at] of
    its WHERE clause could be either table's, the store refuses the
    query, and every request with [days] within its bounds ends with
    status 500. *)
Theorem conversation_history_ambiguous_created_at
        (sales_people_columns : list string) (crm : Crm) (now : datetime)
        (customer_id : UUID) (days : option Z)
        (interaction_types : option (list History.InteractionType)) :
  In "created_at"%string sales_people_columns ->
  Patterns.valid_days (supplied_or 30%Z days) = true ->
  status_of (History.get_conversation_history sales_people_columns crm now
               customer_id days interaction_types) = Some 500%Z.
Proof.
  intros Hcol Hd. unfold History.get_conversation_history, Query.
  rewrite Hd. simpl.
  assert (Hamb : existsb
                   (fun c => existsb (String.eqb c) sales_people_columns)
                   (History.where_columns interaction_types) = true).
  { apply existsb_exists. exists "created_at"%string. split.
    - unfold History.where_columns. apply in_or_app. right.
      apply in_or_app. right. now left.
    - apply existsb_exists. exists "created_at"%string. split; [exact Hcol|].
      reflexivity. }
  unfold History.resolve_columns. rewrite Hamb. reflexivity.
Qed.

Lemma conversation_history_ambiguous_created_at_witness :
  status_of (History.get_conversation_history Loader.sales_people_columns
               Sample.two_days 100000%Z 1%N None None) = Some 500%Z.
Proof.
  apply conversation_history_ambiguous_created_at; [|reflexivity].
  unfold Loader.sales_people_columns. simpl. tauto.
Defined.

(** The rows of the outer SELECT are the selected rows of the join, each
    with a number. *)
Lemma history_query_In (crm : Crm) (customer_id : UUID)
      (interaction_types : option (list History.InteractionType))
      (cutoff_date : datetime) (turn : History.Turn.t) :
  In turn (History.history_query crm customer_id interaction_types
             cutoff_date)
  <-> exists r n,
      In r (History.selected crm customer_id interaction_types cutoff_date)
      /\ In (r, n)
            (History.ROW_NUMBER
               (filter (has_key Z.eq_dec
                          (fun r : Interaction.t * SalesPerson.t =>
                             History.DATE (Interaction.created_at (fst r)))
                          (History.DATE (Interaction.created_at (fst r))))
                       (History.selected crm customer_id interaction_types
                          cutoff_date)))
      /\ turn = History.to_turn (History.to_thread (r, n)).
Proof.
  unfold History.history_query, History.conversation_thread.
  set (day := fun r : Interaction.t * SalesPerson.t =>
                History.DATE (Interaction.created_at (fst r))).
  set (rows := History.selected crm customer_id interaction_types
                 cutoff_date).
  split.
  - intros H.
    apply (Permutation_in _ (ORDER_BY_DESC_perm _ _)) in H.
    apply in_map_iff in H. destruct H as (t & <- & Ht).
    apply in_flat_map in Ht. destruct Ht as (g & Hg & Ht).
    apply in_map_iff in Ht. destruct Ht as ([r n] & <- & Hrn).
    pose proof Hrn as Hr. unfold History.ROW_NUMBER in Hr.
    apply number_from_In in Hr.
    apply (Permutation_in _ (ORDER_BY_DESC_perm _ _)) in Hr.
    destruct (@GROUP_BY_same_key _ _ Z.eq_dec day rows g r Hg Hr)
      as [Hin Hk].
    apply GROUP_BY_In in Hg. destruct Hg as [_ Hsnd].
    exists r, n. split; [exact Hin|]. split; [|reflexivity].
    unfold day in Hk. rewrite Hk. fold day. now rewrite <- Hsnd.
  - intros (r & n & Hr & Hrn & ->).
    apply (Permutation_in _ (Permutation_sym (ORDER_BY_DESC_perm _ _))).
    apply in_map. apply in_flat_map.
    exists (day r, filter (has_key Z.eq_dec day (day r)) rows). split.
    + unfold GROUP_BY. apply in_map_iff. exists (day r). split; [reflexivity|].
      apply nodup_In. now apply in_map.
    + simpl. apply in_map_iff. exists (r, n). split; [reflexivity|].
      exact Hrn.
Qed.

(** X27: an answer of [get_conversation_history] is in ascending order of
    timestamp.  Its turns are the customer's interactions of the last
    [days] days (30 when omitted) that refer to a sales person on record
    and, when types are given, have one of these types: every turn has
    the notes, the time and the sentiment of such an interaction, and
    every such interaction has its turn. *)
Theorem conversation_history_contents
        (sales_people_columns : list string) (crm : Crm) (now : datetime)
        (customer_id : UUID) (days : option Z)
        (interaction_types : option (list History.InteractionType))
        (turns : list History.ConversationTurn) :
  History.get_conversation_history sales_people_columns crm now customer_id
    days interaction_types = Ok turns ->
  let in_history (i : Interaction.t) : Prop :=
    In i (interactions (tables crm))
    /\ (exists sp, In sp (sales_people crm)
                   /\ SalesPerson.id sp = sales_person_id crm i)
    /\ Interaction.customer_id i = customer_id
    /\ (now - timedelta (supplied_or 30 days)
        <= Interaction.created_at i)%Z
    /\ (forall t l, interaction_types = Some (t :: l) ->
                    In (Interaction.type i) (map History.value (t :: l))) in
  let turn_of (i : Interaction.t) (turn : History.ConversationTurn) : Prop :=
    History.content turn = Interaction.notes i
    /\ History.timestamp turn = Interaction.created_at i
    /\ History.sentiment turn = Some (Interaction.sentiment i) in
  StronglySorted
    (fun t1 t2 => (History.timestamp t1 <= History.timestamp t2)%Z) turns
  /\ (forall turn, In turn turns -> exists i, in_history i /\ turn_of i turn)
  /\ (forall i, in_history i -> exists turn, In turn turns /\ turn_of i turn).
Proof.
  intros H in_history turn_of.
  apply get_conversation_history_Ok in H. destruct H as (_ & _ & ->).
  assert (Hsel : forall r : Interaction.t * SalesPerson.t,
            In r (History.selected crm customer_id interaction_types
                    (now - timedelta (supplied_or 30 days))%Z)
            <-> In (fst r) (interactions (tables crm))
                /\ In (snd r) (sales_people crm)
                /\ SalesPerson.id (snd r) = sales_person_id crm (fst r)
                /\ Interaction.customer_id (fst r) = customer_id
                /\ (now - timedelta (supplied_or 30 days)
                    <= Interaction.created_at (fst r))%Z
                /\ (forall t l, interaction_types = Some (t :: l) ->
                                In (Interaction.type (fst r))
                                   (map History.value (t :: l)))).
  { intros [i sp]. unfold History.selected, interactions_with_sales_people.
    rewrite filter_In, JOIN_In. simpl.
    rewrite !andb_true_iff, !N.eqb_eq, Z.leb_le.
    assert (Htypes :
              match interaction_types with
              | Some (t :: l) =>
                  existsb (String.eqb (Interaction.type i))
                          (History.value t :: map History.value l)
              | _ => true
              end = true
              <-> forall t l, interaction_types = Some (t :: l) ->
                              History.value t = Interaction.type i
                              \/ In (Interaction.type i)
                                    (map History.value l)).
    { destruct interaction_types as [[|t l]|].
      - split; [discriminate | reflexivity].
      - change (History.value t :: map History.value l)
          with (map History.value (t :: l)).
        rewrite existsb_exists. split.
        + intros (s & Hs & E) t' l' [= <- <-].
          apply String.eqb_eq in E. now rewrite E.
        + intros Hin. exists (Interaction.type i). split.
          * now apply Hin.
          * apply String.eqb_refl.
      - split; [discriminate | reflexivity]. }
    rewrite Htypes. intuition congruence. }
  split; [|split].
  - eapply StronglySorted_map; [|apply ORDER_BY_ASC_sorted].
    intros a b Hab. exact Hab.
  - intros turn Hturn. apply in_map_iff in Hturn.
    destruct Hturn as (t & <- & Ht).
    apply history_query_In in Ht. destruct Ht as ([i sp] & n & Hr & _ & ->).
    apply Hsel in Hr. simpl in Hr.
    destruct Hr as (Hi & Hsp & Hid & Hc & Hd & Ht).
    exists i. split.
    + split; [exact Hi|]. split; [now exists sp|]. now repeat split.
    + now repeat split.
  - intros i (Hi & (sp & Hsp & Hid) & Hc & Hd & Ht).
    assert (Hr : In (i, sp)
                   (History.selected crm customer_id interaction_types
                      (now - timedelta (supplied_or 30 days))%Z))
      by (apply Hsel; simpl; now repeat split).
    set (partition :=
           filter (has_key Z.eq_dec
                     (fun r : Interaction.t * SalesPerson.t =>
                        History.DATE (Interaction.created_at (fst r)))
                     (History.DATE (Interaction.created_at i)))
                  (History.selected crm customer_id interaction_types
                     (now - timedelta (supplied_or 30 days))%Z)).
    assert (Hp : In (i, sp) partition).
    { apply filter_In. split; [exact Hr|]. now apply has_key_true. }
    destruct (@number_from_numbers _ 1%Z
                (ORDER_BY_ASC
                   (fun r1 r2 : Interaction.t * SalesPerson.t =>
                      (Interaction.created_at (fst r1)
                       <? Interaction.created_at (fst r2))%Z)
                   partition) (i, sp)) as [n Hn].
    { apply (Permutation_in _ (Permutation_sym (ORDER_BY_DESC_perm _ _))).
      exact Hp. }
    exists (History.to_ConversationTurn
              (History.to_turn (History.to_thread (i, sp, n)))).
    split; [|now repeat split].
    apply in_map. apply history_query_In. exists (i, sp), n.
    split; [exact Hr|]. split; [exact Hn | reflexivity].
Qed.

Lemma conversation_history_contents_witness :
  exists turns,
    History.get_conversation_history Sample.id_and_name Sample.two_days
      100000%Z 1%N None None = Ok turns
    /\ map History.timestamp turns = [100; 200; 300; 90000]%Z
    /\ StronglySorted
         (fun t1 t2 => (History.timestamp t1 <= History.timestamp t2)%Z)
         turns.
Proof.
  eexists. split; [reflexivity|]. split; [reflexivity|].
  exact (proj1 (@conversation_history_contents Sample.id_and_name
                  Sample.two_days 100000%Z 1%N None None _ eq_refl)).
Defined.

(** X28: in an answer of [get_conversation_history] the speaker is told
    by the position of the turn within its day, not by the interaction:
    on every day the first turn is the sales person's, and the speakers
    then alternate. *)
Theorem conversation_history_speakers_take_turns
        (sales_people_columns : list string) (crm : Crm) (now : datetime)
        (customer_id : UUID) (days : option Z)
        (interaction_types : option (list History.InteractionType))
        (turns : list History.ConversationTurn) (day : Z) :
  History.get_conversation_history sales_people_columns crm now customer_id
    days interaction_types = Ok turns ->
  map History.speaker (on_day day turns)
  = taking_turns (List.length (on_day day turns)).
Proof.
  intros H. apply get_conversation_history_Ok in H. destruct H as (_ & _ & ->).
  unfold on_day, History.history_query.
  rewrite map_kept.
  change (fun a : History.Turn.t =>
            (History.DATE (History.timestamp (History.to_ConversationTurn a))
             =? day)%Z)
    with (fun a : History.Turn.t =>
            (History.DATE (History.Turn.timestamp a) =? day)%Z).
  rewrite (ORDER_BY_ASC_kept History.Turn.timestamp).
  rewrite map_kept.
  change (fun a : History.Thread.t =>
            (History.DATE (History.Turn.timestamp (History.to_turn a))
             =? day)%Z)
    with (fun a : History.Thread.t =>
            (History.DATE (History.Thread.timestamp a) =? day)%Z).
  unfold History.conversation_thread. rewrite flat_map_kept.
  set (rows := History.selected crm customer_id interaction_types
                 (now - timedelta (supplied_or 30%Z days))%Z).
  set (day_of := fun r : Interaction.t * SalesPerson.t =>
                   History.DATE (Interaction.created_at (fst r))).
  set (on_the_day := fun g : Z * list (Interaction.t * SalesPerson.t) =>
                       filter (fun a : History.Thread.t =>
                                 (History.DATE (History.Thread.timestamp a)
                                  =? day)%Z)
                              (map History.to_thread
                                 (History.ROW_NUMBER (snd g)))).
  assert (Hday : forall g t,
            In g (GROUP_BY Z.eq_dec day_of rows) ->
            In t (map History.to_thread (History.ROW_NUMBER (snd g))) ->
            History.DATE (History.Thread.timestamp t) = fst g).
  { intros g t Hg Ht. apply in_map_iff in Ht.
    destruct Ht as ([r n] & <- & Hrn).
    unfold History.ROW_NUMBER in Hrn. apply number_from_In in Hrn.
    apply (Permutation_in _ (ORDER_BY_DESC_perm _ _)) in Hrn.
    destruct (@GROUP_BY_same_key _ _ Z.eq_dec day_of rows g r Hg Hrn)
      as [_ Hk].
    destruct r as [i sp]. exact Hk. }
  destruct (@flat_map_one_group _ _ fst on_the_day day
              (GROUP_BY Z.eq_dec day_of rows)) as [E|(g & Hg & Hk & E)].
  - apply GROUP_BY_NoDup.
  - intros g Hg Hne. unfold on_the_day. apply filter_nil.
    intros t Ht. apply Z.eqb_neq. now rewrite (Hday g t Hg Ht).
  - rewrite E. reflexivity.
  - rewrite E. unfold on_the_day.
    assert (Hall : filter (fun a : History.Thread.t =>
                             (History.DATE (History.Thread.timestamp a)
                              =? day)%Z)
                          (map History.to_thread (History.ROW_NUMBER (snd g)))
                   = map History.to_thread (History.ROW_NUMBER (snd g))).
    { apply forallb_filter_id. apply forallb_forall. intros t Ht.
      apply Z.eqb_eq. now rewrite (Hday g t Hg Ht). }
    rewrite Hall.
    rewrite ORDER_BY_ASC_in_order.
    + rewrite !map_map, !length_map. unfold History.ROW_NUMBER.
      rewrite number_from_length.
      rewrite (map_ext _ (fun r => History.speaker_of (snd r)))
        by (intros [[i sp] n]; reflexivity).
      exact (number_from_speakers 0 _).
    + rewrite map_map.
      eapply StronglySorted_map;
        [|apply number_from_in_order; apply ORDER_BY_ASC_sorted].
      intros [[i sp] n] [[i' sp'] n'] Hle. exact Hle.
Qed.

Lemma conversation_history_speakers_take_turns_witness :
  exists turns,
    History.get_conversation_history Sample.id_and_name Sample.two_days
      100000%Z 1%N None None = Ok turns
    /\ map History.speaker turns
       = ["sales_person"; "customer"; "sales_person"; "sales_person"]%string
    /\ map History.speaker (on_day 0 turns) = taking_turns 3.
Proof.
  eexists. split; [reflexivity|]. split; [reflexivity|].
  exact (@conversation_history_speakers_take_turns Sample.id_and_name
           Sample.two_days 100000%Z 1%N None None _ 0%Z eq_refl).
Defined.

(** * scripts/mongodb-loader.py *)

Section MongoLoadFacts.
Variable env : Mongo.Environment.
Hypothesis strip_empty : Mongo.strip env "" = ""%string.

(** The embedding is an interaction's or a customer's. *)
Let of_known_source (e : Mongo.document) : Prop :=
  Mongo.get "source_type" e = Some (Mongo.Text "interaction")
  \/ Mongo.get "source_type" e = Some (Mongo.Text "customer").

Lemma insert_many_In (data collection : list Mongo.document)
      (e : Mongo.document) :
  In e (fst (Mongo.insert_many env data collection)) ->
  In e collection
  \/ exists d, In d data
               /\ (e = d \/ exists oid, e = d ++ [("_id"%string, oid)]).
Proof.
  revert collection. induction data as [|d data IH]; intros collection;
    simpl; [tauto|].
  destruct (existsb _ collection); simpl; [tauto|].
  intros H. apply IH in H. destruct H as [H|(d' & Hd' & H)].
  - apply in_app_or in H. destruct H as [H|[<-|[]]]; [now left|].
    right. exists d. split; [now left|].
    destruct (Mongo.get "_id" d); [now left|].
    right. now eexists.
  - right. exists d'. split; [now right | exact H].
Qed.

Lemma generate_and_store_embeddings_known
      (document : Mongo.document) (collection_name : string)
      (source_id : Mongo.value) (embeddings : list Mongo.document) :
  In collection_name ["interactions"; "opportunities"; "customers"]%string ->
  Forall of_known_source embeddings ->
  Forall of_known_source
    (fst (Mongo.generate_and_store_embeddings env document
            (Mongo.rstrip_s collection_name) source_id embeddings)).
Proof.
  intros Hname Hknown. unfold Mongo.generate_and_store_embeddings.
  assert (Hnew : forall source_type text,
             source_type = "interaction"%string
             \/ source_type = "customer"%string ->
             Forall of_known_source
               (fst (if String.eqb (Mongo.strip env text) ""
                     then (embeddings, Mongo.Done tt)
                     else
                       match Mongo.encode env text with
                       | Mongo.Raised e => (embeddings, Mongo.Raised e)
                       | Mongo.Done embedding =>
                           Mongo.insert_many env
                             [[("source_type", Mongo.Text source_type);
                               ("source_id", source_id);
                               ("embedding", Mongo.Vector embedding);
                               ("text_content", Mongo.Text text);
                               ("created_at",
                                Mongo.Date (Mongo.utcnow env embeddings))]
                              %string]
                             embeddings
                       end))).
  { intros source_type text Hsource.
    destruct (String.eqb (Mongo.strip env text) ""); [exact Hknown|].
    destruct (Mongo.encode env text) as [embedding|e]; [|exact Hknown].
    rewrite Forall_forall in *. intros e He.
    apply insert_many_In in He.
    destruct He as [He|(d & [<-|[]] & [->|(oid & ->)])];
      [now apply Hknown | |];
      unfold of_known_source; simpl;
      destruct Hsource as [-> | ->]; tauto. }
  simpl in Hname. destruct Hname as [<-|[<-|[<-|[]]]].
  - change (Mongo.rstrip_s "interactions") with "interaction"%string.
    cbn [String.eqb Ascii.eqb Bool.eqb andb].
    destruct (Mongo.join_spaces env _) as [topics|e]; [|exact Hknown].
    apply Hnew. now left.
  - change (Mongo.rstrip_s "opportunities") with "opportunitie"%string.
    cbn [String.eqb Ascii.eqb Bool.eqb andb].
    rewrite strip_empty. exact Hknown.
  - change (Mongo.rstrip_s "customers") with "customer"%string.
    cbn [String.eqb Ascii.eqb Bool.eqb andb].
    apply Hnew. now right.
Qed.

Lemma embed_all_known (collection_name : string)
      (data embeddings : list Mongo.document) :
  In collection_name ["interactions"; "opportunities"; "customers"]%string ->
  Forall of_known_source embeddings ->
  Forall of_known_source
    (fst (Mongo.embed_all env collection_name data embeddings)).
Proof.
  intros Hname. revert embeddings.
  induction data as [|document data IH]; intros embeddings Hknown; simpl;
    [exact Hknown|].
  destruct (Mongo.get "id" document) as [id|]; [|exact Hknown].
  pose proof (@generate_and_store_embeddings_known document collection_name
                id embeddings Hname Hknown) as Hstep.
  destruct (Mongo.generate_and_store_embeddings env document
              (Mongo.rstrip_s collection_name) id embeddings)
    as [embeddings' [[]|e]]; simpl in *.
  - now apply IH.
  - exact Hstep.
Qed.

Lemma load_collections_known (dataset : list (string * list Mongo.document))
      (db : Mongo.Database) :
  ~ In "embeddings"%string (map fst dataset) ->
  Forall of_known_source (db "embeddings"%string) ->
  Forall of_known_source
    (fst (Mongo.load_collections env dataset db) "embeddings"%string).
Proof.
  revert db. induction dataset as [|[collection_name data] dataset IH];
    intros db Hnone Hknown; [exact Hknown|].
  assert (Hrest : ~ In "embeddings"%string (map fst dataset))
    by (intros H; apply Hnone; now right).
  assert (Hname : String.eqb "embeddings" collection_name = false).
  { apply String.eqb_neq. intros E. apply Hnone. now left. }
  assert (Hsame : forall docs,
             Mongo.with_collection db collection_name docs
               "embeddings"%string
             = db "embeddings"%string).
  { intros docs. unfold Mongo.with_collection. now rewrite Hname. }
  cbn [Mongo.load_collections].
  destruct (negb (existsb (String.eqb collection_name) Mongo.collections));
    [now apply IH|].
  destruct data as [|d data]; [now apply IH|].
  destruct (Mongo.insert_many env (d :: data) (db collection_name))
    as [docs [[]|e]].
  - destruct (existsb (String.eqb collection_name)
                      ["interactions"; "opportunities"; "customers"]%string)
             eqn:Eembed.
    + apply existsb_exists in Eembed. destruct Eembed as (name & Hin & E).
      apply String.eqb_eq in E. subst name.
      pose proof (@embed_all_known collection_name
                    (Mongo.with_ids env (d :: data) (db collection_name))
                    (Mongo.with_collection db collection_name docs
                       "embeddings"%string) Hin) as Hstep.
      rewrite Hsame in Hstep. specialize (Hstep Hknown).
      rewrite Hsame.
      destruct (Mongo.embed_all env collection_name _ (db "embeddings"%string))
        as [embeddings [[]|e]]; simpl in Hstep.
      * apply IH; [exact Hrest|].
        unfold Mongo.with_collection at 1. now rewrite String.eqb_refl.
      * simpl. unfold Mongo.with_collection at 1.
        now rewrite String.eqb_refl.
    + apply IH; [exact Hrest|]. now rewrite Hsame.
  - simpl. now rewrite Hsame.
Qed.

End MongoLoadFacts.

(** X29: [load_data] takes the source type of an embedding from the
    collection's name with every trailing "s" removed, which makes
    "opportunitie" of the opportunities, a type for which
    [generate_and_store_embeddings] has no text.  So no opportunity gets
    an embedding: whatever the outcome of the load (of a dataset without
    embeddings of its own), every document of [embeddings] is an
    interaction's or a customer's. *)
Theorem mongo_load_embeds_no_opportunity
        (env : Mongo.Environment)
        (dataset : list (string * list Mongo.document))
        (db db' : Mongo.Database) (r : Mongo.outcome unit)
        (e : Mongo.document) :
  Mongo.load_data env dataset db = (db', r) ->
  Mongo.strip env "" = ""%string ->
  ~ In "embeddings"%string (map fst dataset) ->
  In e (db' "embeddings"%string) ->
  Mongo.rstrip_s "opportunities" = "opportunitie"%string
  /\ (Mongo.get "source_type" e = Some (Mongo.Text "interaction")
      \/ Mongo.get "source_type" e = Some (Mongo.Text "customer")).
Proof.
  intros H Hstrip Hnone He. split; [reflexivity|].
  unfold Mongo.load_data in H.
  destruct (Mongo.create_indexes env) as [[]|err].
  - pose proof (@load_collections_known env Hstrip dataset
                  (fun k => if existsb (String.eqb k) Mongo.collections
                            then [] else db k) Hnone) as Hknown.
    rewrite H in Hknown. simpl in Hknown.
    specialize (Hknown (Forall_nil _)).
    rewrite Forall_forall in Hknown. now apply Hknown.
  - injection H as <- _. simpl in He. destruct He.
Qed.

Lemma mongo_load_embeds_no_opportunity_witness :
  exists db',
    Mongo.load_data Sample.mongo Sample.sales_data Sample.empty_mongo
    = (db', Mongo.Done tt)
    /\ List.length (db' "opportunities"%string) = 1%nat
    /\ forall e,
        In e (db' "embeddings"%string) ->
        Mongo.get "source_type" e = Some (Mongo.Text "interaction")
        \/ Mongo.get "source_type" e = Some (Mongo.Text "customer").
Proof.
  eexists. split; [reflexivity|]. split; [reflexivity|].
  intros e He.
  refine (proj2 (@mongo_load_embeds_no_opportunity Sample.mongo
                   Sample.sales_data Sample.empty_mongo _ _ e eq_refl
                   eq_refl _ He)).
  simpl. intuition discriminate.
Defined.

Section MongoSearchFacts.
Variable fromisoformat : string -> Mongo.outcome Mongo.pydatetime.
Variable customer_id : option string.
Variable date_range : option (Mongo.pydatetime * Mongo.pydatetime).
Variable limit : Z.

(** What the loop returns has passed the customer filter. *)
Lemma scan_results (base_query filtered_results results : list Mongo.document)
      (r : Mongo.document) :
  Mongo.scan fromisoformat customer_id date_range limit base_query
    filtered_results = Mongo.Done results ->
  In r results ->
  In r filtered_results
  \/ (In r base_query /\ Mongo.other_customer customer_id r = false).
Proof.
  revert filtered_results.
  induction base_query as [|result rest IH]; intros filtered_results; simpl.
  - intros [= <-]. now left.
  - destruct (Mongo.other_customer customer_id result) eqn:Eother.
    + intros H Hr. destruct (IH _ H Hr) as [Hin|[Hin Ho]]; [now left|].
      right. split; [now right | exact Ho].
    + assert (Hkeep :
                (if (limit <=? Z.of_nat (List.length
                                           (filtered_results ++ [result])))%Z
                 then Mongo.Done (filtered_results ++ [result])
                 else Mongo.scan fromisoformat customer_id date_range limit
                        rest (filtered_results ++ [result]))
                = Mongo.Done results ->
                In r results ->
                In r filtered_results
                \/ (In r (result :: rest)
                    /\ Mongo.other_customer customer_id r = false)).
      { destruct (limit <=? _)%Z.
        - intros [= <-] Hr. apply in_app_or in Hr.
          destruct Hr as [Hr|[<-|[]]]; [now left|].
          right. split; [now left | exact Eother].
        - intros H Hr. destruct (IH _ H Hr) as [Hin|[Hin Ho]].
          + apply in_app_or in Hin. destruct Hin as [Hin|[<-|[]]];
              [now left|].
            right. split; [now left | exact Eother].
          + right. split; [now right | exact Ho]. }
      destruct date_range as [[start_date end_date]|]; [|exact Hkeep].
      destruct (Mongo.doc_date_of fromisoformat result) as [doc_date|];
        [|discriminate].
      destruct (Mongo.within start_date end_date doc_date) as [[|]|];
        [exact Hkeep | | discriminate].
      intros H Hr. destruct (IH _ H Hr) as [Hin|[Hin Ho]]; [now left|].
      right. split; [now right | exact Ho].
Qed.

(** With every result some other customer's, the loop keeps none. *)
Lemma scan_other_customers (base_query filtered_results : list Mongo.document) :
  (forall r, In r base_query -> Mongo.other_customer customer_id r = true) ->
  Mongo.scan fromisoformat customer_id date_range limit base_query
    filtered_results = Mongo.Done filtered_results.
Proof.
  induction base_query as [|result rest IH]; intros H; simpl; [reflexivity|].
  rewrite (H result) by now left. apply IH.
  intros r Hr. apply H. now right.
Qed.

End MongoSearchFacts.

(** X30: [contextual_search] tells the customer and the date of a result
    by its keys [customerId] and [timestamp].  With a [customer_id] it
    returns only results that carry this very [customerId], and nothing
    at all when no result has the key, as no embedding that the loader
    stores has it; without a [customer_id] but with a [date_range], a
    first result without [timestamp] makes it raise what
    [fromisoformat] raises on the empty text. *)
Theorem mongo_contextual_search_missing_keys
        (semantic_search :
           string -> option string -> Z -> Mongo.outcome (list Mongo.document))
        (fromisoformat : string -> Mongo.outcome Mongo.pydatetime)
        (customer_id : option string)
        (date_range : option (Mongo.pydatetime * Mongo.pydatetime))
        (limit : Z) (query : string) (base_query : list Mongo.document) :
  semantic_search query None (limit * 2)%Z = Mongo.Done base_query ->
  let answer := Mongo.contextual_search semantic_search fromisoformat
                  customer_id date_range limit query in
  (forall c s results r,
      customer_id = Some (String c s) ->
      answer = Mongo.Done results -> In r results ->
      In r base_query
      /\ Mongo.get "customerId" r = Some (Mongo.Text (String c s)))
  /\ (forall c s,
         customer_id = Some (String c s) ->
         (forall r, In r base_query -> Mongo.get "customerId" r = None) ->
         answer = Mongo.Done [])
  /\ (forall range r rest e,
         customer_id = None \/ customer_id = Some ""%string ->
         date_range = Some range ->
         base_query = r :: rest ->
         Mongo.get "timestamp" r = None ->
         fromisoformat ""%string = Mongo.Raised e ->
         answer = Mongo.Raised e).
Proof.
  intros Hbase answer. unfold answer, Mongo.contextual_search.
  rewrite Hbase. split; [|split].
  - intros c s results r -> H Hr.
    destruct (scan_results _ _ _ _ _ _ r H Hr) as [[]|[Hin Ho]].
    split; [exact Hin|].
    unfold Mongo.other_customer in Ho.
    destruct (Mongo.get "customerId" r) as [[t| | | |]|]; try discriminate.
    apply negb_false_iff, String.eqb_eq in Ho. now rewrite Ho.
  - intros c s -> Hnone. apply scan_other_customers.
    intros r Hr. unfold Mongo.other_customer. now rewrite (Hnone r Hr).
  - intros [start_date end_date] r rest e Hc -> -> Ht He.
    cbn [Mongo.scan].
    assert (Ho : Mongo.other_customer customer_id r = false)
      by (destruct Hc as [-> | ->]; reflexivity).
    rewrite Ho. unfold Mongo.doc_date_of, Mongo.get_or. rewrite Ht.
    cbn [Mongo.replace_Z]. now rewrite He.
Qed.

Lemma mongo_contextual_search_missing_keys_witness :
  Mongo.contextual_search Sample.search_found Sample.fromisoformat
    (Some "c1"%string) None 5 "pricing" = Mongo.Done []
  /\ Mongo.contextual_search Sample.search_found Sample.fromisoformat
       None (Some (Mongo.mkpydatetime 0 true, Mongo.mkpydatetime 9 true)) 5
       "pricing" = Mongo.Raised (Mongo.Exception "ValueError").
Proof.
  pose proof (@mongo_contextual_search_missing_keys Sample.search_found
                Sample.fromisoformat (Some "c1"%string) None 5 "pricing"
                Sample.found eq_refl) as Hcustomer.
  pose proof (@mongo_contextual_search_missing_keys Sample.search_found
                Sample.fromisoformat None
                (Some (Mongo.mkpydatetime 0 true, Mongo.mkpydatetime 9 true))
                5 "pricing" Sample.found eq_refl) as Hdates.
  split.
  - refine (proj1 (proj2 Hcustomer) _ _ eq_refl _).
    unfold Sample.found. intros r [<-|[<-|[]]]; reflexivity.
  - refine (proj2 (proj2 Hdates) _ _ _ _ (or_introl eq_refl) eq_refl
                  eq_refl eq_refl eq_refl).
Defined.
